(** * llama_pypi_scraper: the resilient fetch-and-aggregate engine

    A shallow embedding of [src/llama_pypi_scraper.py]: the record model
    ([PackageInfo]), the retrying fetcher ([fetch_with_retry]), the
    per-package pipeline ([fetch_package_info]) and the bulk run
    ([bulk_analyze]), followed by the properties of the specification
    that concern them.

    Conventions.  Python [str] is [string] (a sequence of one-byte
    characters; case mapping and whitespace are the ASCII ones).  A Python
    value that may be [None] is an [option].  Code that may raise returns
    [exc]; remote parties (network, browser, third-party parsers) are
    oracles passed as arguments, and what a function does to the outside
    (requests, sleeps, log lines) is returned as a list of events. *)

From Stdlib Require Import List String Ascii ZArith NArith Bool Lia.
From Stdlib Require Import Permutation Sorted PeanoNat.
Import ListNotations.

Open Scope string_scope.
Open Scope list_scope.

(** ** Python strings *)

Module PyStr.

Definition is_upper (c : ascii) : bool :=
  let n := nat_of_ascii c in (65 <=? n)%nat && (n <=? 90)%nat.

Definition lower_char (c : ascii) : ascii :=
  if is_upper c then ascii_of_nat (nat_of_ascii c + 32) else c.

(** [s.lower()] *)
Fixpoint lower (s : string) : string :=
  match s with
  | EmptyString => EmptyString
  | String c s' => String (lower_char c) (lower s')
  end.

(** The characters [str.strip()] removes: tab to carriage return, the
    four separators 28..31 and the space. *)
Definition is_space (c : ascii) : bool :=
  let n := nat_of_ascii c in
  ((9 <=? n)%nat && (n <=? 13)%nat) || ((28 <=? n)%nat && (n <=? 32)%nat).

Fixpoint lstrip (s : string) : string :=
  match s with
  | EmptyString => EmptyString
  | String c s' => if is_space c then lstrip s' else s
  end.

Fixpoint rstrip (s : string) : string :=
  match s with
  | EmptyString => EmptyString
  | String c s' =>
      match rstrip s' with
      | EmptyString => if is_space c then EmptyString else String c EmptyString
      | r => String c r
      end
  end.

(** [s.strip()] *)
Definition strip (s : string) : string := rstrip (lstrip s).

(** [needle in hay] *)
Fixpoint contains (needle hay : string) : bool :=
  prefix needle hay ||
  match hay with
  | EmptyString => false
  | String _ hay' => contains needle hay'
  end.

(** [s.split(sep, 1)] when [sep in s]: the text before the first
    separator and the text after it; [None] when [sep] does not occur. *)
Fixpoint split_once (sep : ascii) (s : string) : option (string * string) :=
  match s with
  | EmptyString => None
  | String c s' =>
      if Ascii.eqb c sep then Some (EmptyString, s')
      else match split_once sep s' with
           | Some (a, b) => Some (String c a, b)
           | None => None
           end
  end.

(** [s.split(sep)[0]] *)
Fixpoint before_first (sep : ascii) (s : string) : string :=
  match s with
  | EmptyString => EmptyString
  | String c s' => if Ascii.eqb c sep then EmptyString else String c (before_first sep s')
  end.

Definition is_digit (c : ascii) : bool :=
  let n := nat_of_ascii c in (48 <=? n)%nat && (n <=? 57)%nat.

Fixpoint all_digits (s : string) : bool :=
  match s with
  | EmptyString => true
  | String c s' => is_digit c && all_digits s'
  end.

(** [s.isdigit()]: false on the empty string. *)
Definition isdigit (s : string) : bool :=
  match s with
  | EmptyString => false
  | _ => all_digits s
  end.

Fixpoint int_acc (acc : N) (s : string) : N :=
  match s with
  | EmptyString => acc
  | String c s' => int_acc (10 * acc + N.of_nat (nat_of_ascii c - 48)) s'
  end.

(** [int(s)] on a string of digits. *)
Definition int (s : string) : N := int_acc 0 s.

Definition snoc (s : string) (c : ascii) : string :=
  (s ++ String c EmptyString)%string.

(** [re.split(r'(\d+)', s)]: the text is cut at every maximal run of
    digits and the runs are kept, so pieces alternate between digit-free
    text (possibly empty) and digits, starting and ending with text. *)
Fixpoint re_split_from (s cur : string) (in_digits : bool) : list string :=
  match s with
  | EmptyString => if in_digits then [cur; EmptyString] else [cur]
  | String c s' =>
      if is_digit c then
        if in_digits then re_split_from s' (snoc cur c) true
        else cur :: re_split_from s' (String c EmptyString) true
      else
        if in_digits then cur :: re_split_from s' (String c EmptyString) false
        else re_split_from s' (snoc cur c) false
  end.

Definition re_split_digits (s : string) : list string :=
  re_split_from s EmptyString false.

(** Truth value of a string: [if s:]. *)
Definition truthy (s : string) : bool :=
  match s with EmptyString => false | _ => true end.

End PyStr.

(** ** Exceptions *)

Inductive exn : Type :=
| ValueError (msg : string)
| AttributeError (msg : string)
| JSONDecodeError (msg : string)
| OtherError (msg : string).

(** [str(e)] *)
Definition str_of_exn (e : exn) : string :=
  match e with
  | ValueError m | AttributeError m | JSONDecodeError m | OtherError m => m
  end.

Inductive exc (A : Type) : Type :=
| Ok (a : A)
| Raise (e : exn).

Arguments Ok {A} a.
Arguments Raise {A} e.

Definition bind {A B : Type} (m : exc A) (f : A -> exc B) : exc B :=
  match m with
  | Ok a => f a
  | Raise e => Raise e
  end.

Notation "x <- m ;; k" := (bind m (fun x => k))
  (at level 61, m at next level, right associativity).

(** [try: body  except Exception as e: handler(e)] *)
Definition try_except {A : Type} (body : exc A) (handler : exn -> A) : A :=
  match body with
  | Ok a => a
  | Raise e => handler e
  end.

Definition raises {A : Type} (m : exc A) : bool :=
  match m with Ok _ => false | Raise _ => true end.

(** ** The record model: [class PackageInfo] *)

Module Record.

(** A Python dict with string keys, in insertion order. *)
Definition dict (V : Type) : Type := list (string * V).

(** [d[key]] / [key in d] *)
Fixpoint lookup {V : Type} (key : string) (d : dict V) : option V :=
  match d with
  | [] => None
  | (k, v) :: d' => if String.eqb k key then Some v else lookup key d'
  end.

Definition keys {V : Type} (d : dict V) : list string := map fst d.
Definition values {V : Type} (d : dict V) : list V := map snd d.

(** [dict.get(key, default)] on an optional field. *)
Definition get {A : Type} (field : option A) (default : A) : A :=
  match field with
  | Some a => a
  | None => default
  end.

(** One file of a release in the primary metadata document. *)
Record ReleaseFile : Type := {
  upload_time_iso_8601 : option string
}.

(** [data["info"]]: a field is [None] when the key is absent. In
    [info_project_urls] a link target may be JSON [null]. *)
Record Info : Type := {
  info_version : option string;
  info_summary : option string;
  info_author : option string;
  info_author_email : option string;
  info_license : option string;
  info_project_urls : option (dict (option string));
  info_classifiers : option (list string);
  info_requires_dist : option (list string)
}.

(** The primary metadata document (the package-index JSON). *)
Record PyPIJson : Type := {
  info : Info;
  releases : dict (list ReleaseFile)
}.

Inductive SourceAnalysis : Type :=
| NotAnalysed
| AnalysisError (msg : string)
| Analysed (file_count total_lines code_lines comment_lines blank_lines : N).

Record PackageInfo : Type := {
  name : string;
  version : string;
  release_date : option string;
  description : string;
  author : string;
  author_email : string;
  license : string;
  dependencies : list string;
  dev_dependencies : list string;
  project_urls : dict (option string);
  github_url : option string;
  github_stats : dict string;
  all_versions : list string;
  classifiers : list string;
  downloads : dict Z;
  readme_content : string;
  source_analysis : SourceAnalysis;
  error : option string
}.

(** The sentinel of an unresolved version. *)
Definition NA : string := "N/A".

(** The sentinel of an empty dependency list. *)
Definition NO_DEPENDENCIES : list string := ["No dependencies listed"].

(** [PackageInfo.__init__] *)
Definition __init__ (package_name : string) : PackageInfo := {|
  name := package_name;
  version := NA;
  release_date := None;
  description := "";
  author := "";
  author_email := "";
  license := "";
  dependencies := [];
  dev_dependencies := [];
  project_urls := [];
  github_url := None;
  github_stats := [];
  all_versions := [];
  classifiers := [];
  downloads := [];
  readme_content := "";
  source_analysis := NotAnalysed;
  error := None
|}.

Definition set_error (p : PackageInfo) (e : string) : PackageInfo := {|
  name := name p; version := version p; release_date := release_date p;
  description := description p; author := author p;
  author_email := author_email p; license := license p;
  dependencies := dependencies p; dev_dependencies := dev_dependencies p;
  project_urls := project_urls p; github_url := github_url p;
  github_stats := github_stats p; all_versions := all_versions p;
  classifiers := classifiers p; downloads := downloads p;
  readme_content := readme_content p; source_analysis := source_analysis p;
  error := Some e
|}.

Definition set_license (p : PackageInfo) (l : string) : PackageInfo := {|
  name := name p; version := version p; release_date := release_date p;
  description := description p; author := author p;
  author_email := author_email p; license := l;
  dependencies := dependencies p; dev_dependencies := dev_dependencies p;
  project_urls := project_urls p; github_url := github_url p;
  github_stats := github_stats p; all_versions := all_versions p;
  classifiers := classifiers p; downloads := downloads p;
  readme_content := readme_content p; source_analysis := source_analysis p;
  error := error p
|}.

Definition set_downloads (p : PackageInfo) (d : dict Z) : PackageInfo := {|
  name := name p; version := version p; release_date := release_date p;
  description := description p; author := author p;
  author_email := author_email p; license := license p;
  dependencies := dependencies p; dev_dependencies := dev_dependencies p;
  project_urls := project_urls p; github_url := github_url p;
  github_stats := github_stats p; all_versions := all_versions p;
  classifiers := classifiers p; downloads := d;
  readme_content := readme_content p; source_analysis := source_analysis p;
  error := error p
|}.

Definition set_readme_content (p : PackageInfo) (r : string) : PackageInfo := {|
  name := name p; version := version p; release_date := release_date p;
  description := description p; author := author p;
  author_email := author_email p; license := license p;
  dependencies := dependencies p; dev_dependencies := dev_dependencies p;
  project_urls := project_urls p; github_url := github_url p;
  github_stats := github_stats p; all_versions := all_versions p;
  classifiers := classifiers p; downloads := downloads p;
  readme_content := r; source_analysis := source_analysis p;
  error := error p
|}.

Definition set_github_stats (p : PackageInfo) (g : dict string) : PackageInfo := {|
  name := name p; version := version p; release_date := release_date p;
  description := description p; author := author p;
  author_email := author_email p; license := license p;
  dependencies := dependencies p; dev_dependencies := dev_dependencies p;
  project_urls := project_urls p; github_url := github_url p;
  github_stats := g; all_versions := all_versions p;
  classifiers := classifiers p; downloads := downloads p;
  readme_content := readme_content p; source_analysis := source_analysis p;
  error := error p
|}.

Definition set_source_analysis (p : PackageInfo) (a : SourceAnalysis) : PackageInfo := {|
  name := name p; version := version p; release_date := release_date p;
  description := description p; author := author p;
  author_email := author_email p; license := license p;
  dependencies := dependencies p; dev_dependencies := dev_dependencies p;
  project_urls := project_urls p; github_url := github_url p;
  github_stats := github_stats p; all_versions := all_versions p;
  classifiers := classifiers p; downloads := downloads p;
  readme_content := readme_content p; source_analysis := a;
  error := error p
|}.

(** [not package.error]: the error is unset, or an empty message. *)
Definition no_error (p : PackageInfo) : bool :=
  match error p with
  | None => true
  | Some e => negb (PyStr.truthy e)
  end.

(** *** Dependencies *)

Definition DEV_MARKERS : list string :=
  ["extra == 'dev'"; "extra == 'test'"; "extra == 'docs'"].

(** [any(dev_marker in marker.lower() for dev_marker in [...])] *)
Definition mentions_dev_extra (marker : string) : bool :=
  existsb (fun dev_marker => PyStr.contains dev_marker (PyStr.lower marker)) DEV_MARKERS.

(** One turn of the loop of [_parse_requirements] on the pair
    [(regular_deps, dev_deps)]. *)
Definition parse_requirement (acc : list string * list string) (req : string)
  : list string * list string :=
  let (regular_deps, dev_deps) := acc in
  if negb (PyStr.truthy req) then acc
  else
    match PyStr.split_once ";" req with
    | Some (req_part, marker) =>
        if mentions_dev_extra marker
        then (regular_deps, dev_deps ++ [PyStr.strip req])
        else (regular_deps ++ [PyStr.strip req], dev_deps)
    | None => (regular_deps ++ [PyStr.strip req], dev_deps)
    end.

(** [_parse_requirements]: returns the required dependencies and, as the
    method assigns [self.dev_dependencies], the development ones. *)
Definition _parse_requirements (requires_dist : list string)
  : list string * list string :=
  let (regular_deps, dev_deps) := fold_left parse_requirement requires_dist ([], []) in
  (match regular_deps with [] => NO_DEPENDENCIES | _ => regular_deps end, dev_deps).

(** *** Source-control link *)

Definition GITHUB_KEYS : list string :=
  ["GitHub"; "Source"; "Source Code"; "Repository"; "Code"; "Homepage"].

Definition points_at_github (url : string) : bool :=
  PyStr.contains "github.com" (PyStr.lower url).

(** [url.split("?")[0].split("#")[0]] *)
Definition strip_query_fragment (url : string) : string :=
  PyStr.before_first "#" (PyStr.before_first "?" url).

(** The first loop of [_extract_github_url], over the named keys.
    [Ok None] is the loop running to its end; a [null] target under a
    named key makes [.lower()] raise. *)
Fixpoint scan_named_keys (urls : dict (option string)) (github_keys : list string)
  : exc (option string) :=
  match github_keys with
  | [] => Ok None
  | key :: rest =>
      match lookup key urls with
      | Some (Some url) =>
          if points_at_github url then Ok (Some (strip_query_fragment url))
          else scan_named_keys urls rest
      | Some None => Raise (AttributeError "'NoneType' object has no attribute 'lower'")
      | None => scan_named_keys urls rest
      end
  end.

(** The second loop, over every target in insertion order. *)
Fixpoint scan_all_values (targets : list (option string)) : option string :=
  match targets with
  | [] => None
  | Some url :: rest =>
      if PyStr.truthy url && points_at_github url
      then Some (strip_query_fragment url)
      else scan_all_values rest
  | None :: rest => scan_all_values rest
  end.

Definition _extract_github_url (urls : dict (option string)) : exc (option string) :=
  found <- scan_named_keys urls GITHUB_KEYS ;;
  match found with
  | Some url => Ok (Some url)
  | None => Ok (scan_all_values (values urls))
  end.

(** The cleaning loop of [from_pypi_json]: every key whose target
    [is None] is deleted. *)
Definition drop_null_targets (urls : dict (option string)) : dict (option string) :=
  filter (fun kv => match snd kv with None => false | Some _ => true end) urls.

(** *** Version history *)

(** A component of the fallback sort key: [int(p)] for a run of digits,
    [float('inf')] for any other piece. *)
Inductive token : Type :=
| Num (n : N)
| Inf.

Definition token_lt (a b : token) : bool :=
  match a, b with
  | Num x, Num y => (x <? y)%N
  | Num _, Inf => true
  | Inf, _ => false
  end.

(** [a < b] on Python lists: decided at the first position where the two
    differ, a proper prefix being the smaller. *)
Fixpoint key_lt (a b : list token) : bool :=
  match a, b with
  | [], [] => false
  | [], _ :: _ => true
  | _ :: _, [] => false
  | x :: a', y :: b' =>
      if token_lt x y then true
      else if token_lt y x then false
      else key_lt a' b'
  end.

(** [[int(p) if p.isdigit() else float('inf') for p in re.split(r'(\d+)', x)]] *)
Definition fallback_key (x : string) : list token :=
  map (fun p => if PyStr.isdigit p then Num (PyStr.int p) else Inf)
      (PyStr.re_split_digits x).

(** [l.sort(key=key, reverse=True)]: the stable descending sort.  An
    element moves behind exactly those whose key is strictly greater, so
    elements with equal keys keep the order they came in. *)
Fixpoint insert_desc {A K : Type} (lt : K -> K -> bool) (key : A -> K)
  (x : A) (l : list A) : list A :=
  match l with
  | [] => [x]
  | y :: ys =>
      if lt (key x) (key y) then y :: insert_desc lt key x ys
      else x :: y :: ys
  end.

Definition sort_desc {A K : Type} (lt : K -> K -> bool) (key : A -> K)
  (l : list A) : list A :=
  fold_right (insert_desc lt key) [] l.

(** The keys of the first [sort]: every version with its parsed key, or
    [None] as soon as one version makes the parser raise. *)
Fixpoint parse_all {K : Type} (parse : string -> option K) (versions : list string)
  : option (list (string * K)) :=
  match versions with
  | [] => Some []
  | v :: rest =>
      match parse v, parse_all parse rest with
      | Some k, Some ks => Some ((v, k) :: ks)
      | _, _ => None
      end
  end.

(** [_extract_all_versions].  [parse] stands for
    [packaging.version.parse] ([None] when it raises) and [lt] for the
    order of its results; neither belongs to this repository. *)
Definition _extract_all_versions {K : Type} (lt : K -> K -> bool)
  (parse : string -> option K) (data : PyPIJson) : list string :=
  let versions := keys (releases data) in
  match parse_all parse versions with
  | Some decorated => map fst (sort_desc lt snd decorated)
  | None => sort_desc key_lt fallback_key versions
  end.

(** *** Release date *)

(** [_extract_release_date].  [format_date] stands for
    [datetime.fromisoformat(...).strftime("%Y-%m-%d")], [None] when it
    raises [ValueError]. *)
Fixpoint first_upload_date (format_date : string -> option string)
  (files : list ReleaseFile) : option string :=
  match files with
  | [] => None
  | f :: rest =>
      match upload_time_iso_8601 f with
      | Some t =>
          match format_date t with
          | Some d => Some d
          | None => first_upload_date format_date rest
          end
      | None => first_upload_date format_date rest
      end
  end.

Definition _extract_release_date (format_date : string -> option string)
  (data : PyPIJson) (version : string) : option string :=
  first_upload_date format_date (get (lookup version (releases data)) []).

(** *** Populating a record from the primary document *)

(** The third-party functions [from_pypi_json] relies on. *)
Record Parsers (K : Type) : Type := {
  version_lt : K -> K -> bool;
  version_parse : string -> option K;
  format_date : string -> option string
}.

Arguments version_lt {K} _.
Arguments version_parse {K} _.
Arguments format_date {K} _.

(** [from_pypi_json] up to the assignment of [self.dependencies]. *)
Definition from_pypi_json_head (self : PackageInfo) (data : PyPIJson) : PackageInfo :=
  let i := info data in
  let urls := get (info_project_urls i) [] in
  let urls := match urls with [] => urls | _ => drop_null_targets urls end in
  let (deps, dev_deps) :=
    match info_requires_dist i with
    | Some (r :: rs) => _parse_requirements (r :: rs)
    | _ => (NO_DEPENDENCIES, dev_dependencies self)
    end in
  {| name := name self;
     version := get (info_version i) NA;
     release_date := release_date self;
     description := get (info_summary i) "No description available";
     author := get (info_author i) "";
     author_email := get (info_author_email i) "";
     license := get (info_license i) "";
     dependencies := deps;
     dev_dependencies := dev_deps;
     project_urls := urls;
     github_url := github_url self;
     github_stats := github_stats self;
     all_versions := all_versions self;
     classifiers := get (info_classifiers i) [];
     downloads := downloads self;
     readme_content := readme_content self;
     source_analysis := source_analysis self;
     error := error self |}.

(** [from_pypi_json] from [self.github_url = ...] to the end. *)
Definition from_pypi_json_tail {K : Type} (lib : Parsers K) (self : PackageInfo)
  (data : PyPIJson) (url : option string) : PackageInfo :=
  {| name := name self;
     version := version self;
     release_date :=
       if String.eqb (version self) NA then release_date self
       else _extract_release_date (format_date lib) data (version self);
     description := description self;
     author := author self;
     author_email := author_email self;
     license := license self;
     dependencies := dependencies self;
     dev_dependencies := dev_dependencies self;
     project_urls := project_urls self;
     github_url := url;
     github_stats := github_stats self;
     all_versions := _extract_all_versions (version_lt lib) (version_parse lib) data;
     classifiers := classifiers self;
     downloads := downloads self;
     readme_content := readme_content self;
     source_analysis := source_analysis self;
     error := error self |}.

(** [from_pypi_json]: the record as the method leaves it, and whether the
    method returned or raised (the fields assigned before a raise stay
    assigned). *)
Definition from_pypi_json {K : Type} (lib : Parsers K) (self : PackageInfo)
  (data : PyPIJson) : PackageInfo * exc unit :=
  let self1 := from_pypi_json_head self data in
  match _extract_github_url (project_urls self1) with
  | Raise e => (self1, Raise e)
  | Ok url => (from_pypi_json_tail lib self1 data url, Ok tt)
  end.

End Record.

(** ** A fragment of [packaging.version]

    The version parser is a third-party library. To run the record model
    on concrete documents, this is its behaviour on release-only versions
    [N(.N)*]: the key is the tuple of release numbers without trailing
    zeros, compared as tuples; anything else is rejected. *)

Module Packaging.

Fixpoint split_on (sep : ascii) (s cur : string) : list string :=
  match s with
  | EmptyString => [cur]
  | String c s' =>
      if Ascii.eqb c sep then cur :: split_on sep s' EmptyString
      else split_on sep s' (PyStr.snoc cur c)
  end.

Fixpoint drop_trailing_zeros (l : list N) : list N :=
  match l with
  | [] => []
  | x :: r =>
      match drop_trailing_zeros r with
      | [] => if (x =? 0)%N then [] else [x]
      | r' => x :: r'
      end
  end.

Definition release_parse (s : string) : option (list Record.token) :=
  let parts := split_on "." s EmptyString in
  if forallb PyStr.isdigit parts
  then Some (map Record.Num (drop_trailing_zeros (map PyStr.int parts)))
  else None.

Definition release_parsers : Record.Parsers (list Record.token) := {|
  Record.version_lt := Record.key_lt;
  Record.version_parse := release_parse;
  Record.format_date := fun t => Some (substring 0 10 t)
|}.

End Packaging.

(** ** The transport: what the fetcher talks to *)

Module Transport.

(** Module-level settings of the scraper. *)
Definition MAX_WORKERS : nat := 5.
Definition REQUEST_RETRIES : nat := 3.
Definition REQUEST_RETRY_DELAY : Z := 1.

(** [status_forcelist] of the urllib3 [Retry] mounted on the plain
    [requests] session. *)
Definition STATUS_FORCELIST : list Z := [429; 500; 502; 503; 504]%Z.

Record Response : Type := {
  status_code : Z;
  text : string
}.

(** The exceptions below [requests.RequestException]. *)
Inductive RequestException : Type :=
| HTTPError (status : Z)
| TransportError (msg : string).

(** What one call of [session.get] / [session.post] does: it returns a
    response, or the transport raises (connection error, timeout, too
    many redirects or adapter retries). *)
Inductive SessionOutcome : Type :=
| Responds (r : Response)
| Fails (msg : string).

(** [response.raise_for_status()]: [requests] raises [HTTPError] for a
    status from 400 to 599. *)
Definition raise_for_status (r : Response) : option RequestException :=
  if ((400 <=? status_code r) && (status_code r <? 600))%Z
  then Some (HTTPError (status_code r))
  else None.

(** A failure the specification calls retryable: a status of the
    retryable set, or a transport error. *)
Definition retryable (cause : RequestException) : bool :=
  match cause with
  | HTTPError status => existsb (Z.eqb status) STATUS_FORCELIST
  | TransportError _ => true
  end.

(** What a fetch does to the outside, in order. [Request] is one call of
    [session.get] or [session.post] (which rotates the headers and
    pauses for a random time first). *)
Inductive Event : Type :=
| BrowserGet (url : string)
| Request (method url : string)
| Sleep (seconds : Z)
| UpdateHeaders
| LogDebug (cause : RequestException)
| LogError (cause : RequestException)
| SpinnerText (msg : string)
| SpinnerFail
| SpinnerOk.

Definition is_request (e : Event) : bool :=
  match e with Request _ _ => true | _ => false end.

Definition attempts (trace : list Event) : nat :=
  List.length (filter is_request trace).

Fixpoint sleeps (trace : list Event) : list Z :=
  match trace with
  | [] => []
  | Sleep d :: rest => d :: sleeps rest
  | _ :: rest => sleeps rest
  end.

Fixpoint logged_errors (trace : list Event) : list RequestException :=
  match trace with
  | [] => []
  | LogError c :: rest => c :: logged_errors rest
  | _ :: rest => logged_errors rest
  end.

End Transport.

(** ** [class BrowserAutomation] *)

Module BrowserAutomation.

(** The machine the browser runs on: whether selenium was imported,
    whether Chrome starts, whether the stealth script runs, and what
    loading a page gives ([None] when [driver.get] or the wait raises). *)
Record Host : Type := {
  SELENIUM_AVAILABLE : bool;
  chrome_starts : bool;
  script_runs : bool;
  page_source : string -> option string
}.

(** The object's state: whether [self.driver] is set. *)
Record t : Type := { driver : bool }.

Definition __init__ : t := {| driver := false |}.

Definition initialize (host : Host) (self : t) : t * bool :=
  if negb (SELENIUM_AVAILABLE host) then (self, false)
  else if chrome_starts host then
    ({| driver := true |}, script_runs host)
  else (self, false).

Definition fetch_with_browser (host : Host) (self : t) (url : string)
  : t * option string :=
  let (self', ready) := if driver self then (self, true) else initialize host self in
  if ready then (self', page_source host url) else (self', None).

End BrowserAutomation.

(** ** [class LlamaPyPIScraper] *)

Module LlamaPyPIScraper.

Import Transport Record.

(** The fields of the scraper the pipeline reads or writes. *)
Record Scraper : Type := {
  browser : option BrowserAutomation.t;
  github_client : bool
}.

Definition __init__ (use_browser_automation has_github_client : bool) : Scraper := {|
  browser := if use_browser_automation then Some BrowserAutomation.__init__ else None;
  github_client := has_github_client
|}.

(** The result of running a method: the scraper afterwards, what was
    done, and the value returned or the exception raised. *)
Record Run (A : Type) : Type := {
  after : Scraper;
  trace : list Event;
  outcome : A
}.

Arguments after {A} _.
Arguments trace {A} _.
Arguments outcome {A} _.

(** *** The fetcher *)

Definition Session : Type := nat -> SessionOutcome.

(** The [try] block of one turn of the retry loop: [Ok (inl r)] returns
    [r], [Ok (inr cause)] is a [RequestException] for the handler, and
    [Raise] is an exception the handler does not catch. *)
Definition attempt_once (session : Session) (method : string) (attempt : nat)
  : exc (Response + RequestException) :=
  if String.eqb (PyStr.lower method) "get" || String.eqb (PyStr.lower method) "post" then
    match session attempt with
    | Fails msg => Ok (inr (TransportError msg))
    | Responds r =>
        match raise_for_status r with
        | Some cause => Ok (inr cause)
        | None => Ok (inl r)
        end
    end
  else Raise (ValueError ("Unsupported HTTP method: " ++ method)%string).

(** [for attempt in range(retries): ...], from turn [attempt] on with
    [remaining] turns left. Falling out of the loop returns [None]. *)
Fixpoint retry_loop (retries : nat) (delay : Z) (session : Session)
  (method url : string) (remaining attempt : nat)
  : list Event * exc (option Response) :=
  match remaining with
  | O => ([], Ok None)
  | S remaining' =>
      match attempt_once session method attempt with
      | Raise e => ([], Raise e)
      | Ok (inl response) => ([Request method url], Ok (Some response))
      | Ok (inr cause) =>
          if (attempt <? retries - 1)%nat then
            let (rest, result) :=
              retry_loop retries delay session method url remaining' (S attempt) in
            (Request method url :: LogDebug cause
               :: Sleep (delay * (Z.of_nat attempt + 1)) :: UpdateHeaders :: rest,
             result)
          else ([Request method url; LogError cause], Ok None)
      end
  end.

(** The response fabricated from a page the browser rendered. *)
Definition mock_response (page_source : string) : Response :=
  {| status_code := 200; text := page_source |}.

(** [fetch_with_retry] with the two settings it reads as arguments. *)
Definition fetch_with_retry_with (retries : nat) (delay : Z)
  (host : BrowserAutomation.Host) (session : Session) (self : Scraper)
  (url method : string) (use_browser : bool) : Run (exc (option Response)) :=
  let lightweight (self' : Scraper) (before : list Event) :=
    let (events, result) := retry_loop retries delay session method url retries 0 in
    {| after := self'; trace := before ++ events; outcome := result |} in
  match (if use_browser then browser self else None) with
  | Some b =>
      let (b', page) := BrowserAutomation.fetch_with_browser host b url in
      let self' := {| browser := Some b'; github_client := github_client self |} in
      match page with
      | Some page_source =>
          if PyStr.truthy page_source then
            {| after := self'; trace := [BrowserGet url];
               outcome := Ok (Some (mock_response page_source)) |}
          else lightweight self' [BrowserGet url]
      | None => lightweight self' [BrowserGet url]
      end
  | None => lightweight self []
  end.

Definition fetch_with_retry : BrowserAutomation.Host -> Session -> Scraper ->
  string -> string -> bool -> Run (exc (option Response)) :=
  fetch_with_retry_with REQUEST_RETRIES REQUEST_RETRY_DELAY.

(** *** The pipeline of one package *)

(** What the hosting API client does for a repository URL. *)
Inductive ApiOutcome : Type :=
| ShortPath
| ApiStats (stats : dict string)
| ApiFails.

(** Everything outside the scraper that one package's pipeline meets:
    the browser host, the answer of the network to the n-th attempt on a
    URL, the decoders and page scrapers applied to response bodies
    ([Raise] when they raise), the hosting API, and the source-archive
    analysis. *)
Record World : Type := {
  host : BrowserAutomation.Host;
  session : string -> Session;
  json_document : string -> exc PyPIJson;
  license_on_page : string -> exc (option string);
  json_downloads : string -> exc (dict Z);
  description_on_page : string -> exc (option string);
  github_api : string -> ApiOutcome;
  stats_on_page : string -> exc (dict string);
  analyze_package_source : string -> string -> exc SourceAnalysis
}.

Definition LICENSE_NOT_SPECIFIED : string := "License not specified".
Definition NO_README : string := "No README content available".

Definition scrape_license (w : World) (self : Scraper)
  (package_name license_info : string) : Run string :=
  if PyStr.truthy license_info && negb (String.eqb license_info "UNKNOWN") then
    {| after := self; trace := []; outcome := license_info |}
  else
    let url := ("https://pypi.org/project/" ++ package_name ++ "/")%string in
    let r := fetch_with_retry (host w) (session w url) self url "get" true in
    {| after := after r; trace := trace r;
       outcome :=
         try_except
           (response <- outcome r ;;
            match response with
            | None => Ok LICENSE_NOT_SPECIFIED
            | Some response =>
                found <- license_on_page w (text response) ;;
                Ok (get found LICENSE_NOT_SPECIFIED)
            end)
           (fun _ => LICENSE_NOT_SPECIFIED) |}.

Definition fetch_download_stats (w : World) (self : Scraper)
  (package_name : string) : Run (dict Z) :=
  let url := ("https://pypistats.org/api/packages/" ++ package_name ++ "/recent")%string in
  let r := fetch_with_retry (host w) (session w url) self url "get" false in
  {| after := after r; trace := trace r;
     outcome :=
       try_except
         (response <- outcome r ;;
          match response with
          | None => Ok []
          | Some response => json_downloads w (text response)
          end)
         (fun _ => []) |}.

Definition fetch_readme (w : World) (self : Scraper)
  (package_name version : string) : Run string :=
  let url := ("https://pypi.org/project/" ++ package_name ++ "/" ++ version ++ "/")%string in
  let r := fetch_with_retry (host w) (session w url) self url "get" true in
  {| after := after r; trace := trace r;
     outcome :=
       try_except
         (response <- outcome r ;;
          match response with
          | None => Ok NO_README
          | Some response =>
              found <- description_on_page w (text response) ;;
              Ok (get found NO_README)
          end)
         (fun _ => NO_README) |}.

(** The second half of [fetch_github_stats]: scraping the hosting page. *)
Definition scrape_github_stats (w : World) (self : Scraper)
  (github_url : string) : Run (dict string) :=
  let r := fetch_with_retry (host w) (session w github_url) self github_url "get" true in
  {| after := after r; trace := trace r;
     outcome :=
       try_except
         (response <- outcome r ;;
          match response with
          | None => Ok []
          | Some response => stats_on_page w (text response)
          end)
         (fun _ => []) |}.

Definition fetch_github_stats (w : World) (self : Scraper)
  (github_url : string) : Run (dict string) :=
  if negb (PyStr.truthy github_url) then
    {| after := self; trace := []; outcome := [] |}
  else if github_client self then
    match github_api w github_url with
    | ShortPath => {| after := self; trace := []; outcome := [] |}
    | ApiStats stats => {| after := self; trace := []; outcome := stats |}
    | ApiFails => scrape_github_stats w self github_url
    end
  else scrape_github_stats w self github_url.

(** The stages of [fetch_package_info] that follow [from_pypi_json]. *)
Definition later_stages (w : World) (self : Scraper) (package_name : string)
  (package : PackageInfo) : Run PackageInfo :=
  let r1 := scrape_license w self package_name (license package) in
  let package := set_license package (outcome r1) in
  let r2 := fetch_download_stats w (after r1) package_name in
  let package := set_downloads package (outcome r2) in
  let r3 := fetch_readme w (after r2) package_name (version package) in
  let package := set_readme_content package (outcome r3) in
  let license_text := ("Fetching license info for " ++ package_name ++ "...")%string in
  let stats_text := ("Fetching download stats for " ++ package_name ++ "...")%string in
  let readme_text := ("Fetching README for " ++ package_name ++ "...")%string in
  let github_text := ("Fetching GitHub stats for " ++ package_name ++ "...")%string in
  let before_github :=
    SpinnerText license_text :: trace r1 ++
    SpinnerText stats_text :: trace r2 ++
    SpinnerText readme_text :: trace r3 in
  match github_url package with
  | Some url =>
      if PyStr.truthy url then
        let r4 := fetch_github_stats w (after r3) url in
        {| after := after r4;
           trace := before_github ++ SpinnerText github_text :: trace r4 ++ [SpinnerOk];
           outcome := set_github_stats package (outcome r4) |}
      else
        {| after := after r3; trace := before_github ++ [SpinnerOk]; outcome := package |}
  | None =>
      {| after := after r3; trace := before_github ++ [SpinnerOk]; outcome := package |}
  end.

Definition primary_url (package_name : string) : string :=
  ("https://pypi.org/pypi/" ++ package_name ++ "/json")%string.

Definition fetch_package_info {K : Type} (lib : Parsers K) (w : World)
  (self : Scraper) (package_name : string) : Run PackageInfo :=
  let package := Record.__init__ package_name in
  let url := primary_url package_name in
  let r := fetch_with_retry (host w) (session w url) self url "get" false in
  let failed (events : list Event) (p : PackageInfo) (e : exn) :=
    {| after := after r; trace := events;
       outcome := set_error p ("Error: " ++ str_of_exn e)%string |} in
  match outcome r with
  | Raise e => failed (trace r) package e
  | Ok None =>
      {| after := after r; trace := trace r ++ [SpinnerFail];
         outcome := set_error package
                      ("Failed to fetch package information for " ++ package_name)%string |}
  | Ok (Some response) =>
      match json_document w (text response) with
      | Raise e => failed (trace r) package e
      | Ok data =>
          match from_pypi_json lib package data with
          | (package, Raise e) => failed (trace r) package e
          | (package, Ok _) =>
              let rest := later_stages w (after r) package_name package in
              {| after := after rest; trace := trace r ++ trace rest;
                 outcome := outcome rest |}
          end
      end
  end.

(** *** The bulk run *)

(** The [try] block of [_analyze_single_package]: one package's
    pipeline, with the source analysis when it is asked for. *)
Definition single_package_pipeline {K : Type} (lib : Parsers K) (w : World)
  (self : Scraper) (package_name : string) (include_source_analysis : bool)
  : exc PackageInfo :=
  let package := outcome (fetch_package_info lib w self package_name) in
  if no_error package && include_source_analysis then
    analysis <- analyze_package_source w package_name (version package) ;;
    Ok (set_source_analysis package analysis)
  else Ok package.

Definition _analyze_single_package {K : Type} (lib : Parsers K) (w : World)
  (self : Scraper) (package_name : string) (include_source_analysis : bool)
  : PackageInfo :=
  try_except
    (single_package_pipeline lib w self package_name include_source_analysis)
    (fun e => set_error (Record.__init__ package_name) (str_of_exn e)).

(** [as_completed(futures)]: the futures in the order they finish, given
    as the list of their positions in [futures]. *)
Definition as_completed {A : Type} (order : list nat) (futures : list A) : list A :=
  flat_map (fun i => match nth_error futures i with
                     | Some f => [f]
                     | None => []
                     end) order.

(** What [bulk_analyze] leaves behind: the list it returns, the reports
    it saved (package, version, format) and the progress count. *)
Record Bulk : Type := {
  results : list PackageInfo;
  saved_reports : list (string * string * string);
  progress : nat
}.

(** One turn of [for future in as_completed(futures)]: the record is
    appended, its report is saved when it carries no error, and the
    progress bar advances. Rendering and writing a report are the work of
    collaborators; here they are the entry added to [saved_reports]. *)
Definition collect (output_format : string) (acc : Bulk) (package : PackageInfo) : Bulk := {|
  results := results acc ++ [package];
  saved_reports :=
    if no_error package
    then saved_reports acc ++ [(name package, version package, output_format)]
    else saved_reports acc;
  progress := S (progress acc)
|}.

(** [bulk_analyze]. Each submitted task runs [_analyze_single_package]
    in the world of its package; [order] is the order in which the pool
    of [MAX_WORKERS] threads completes them. *)
Definition bulk_analyze {K : Type} (lib : Parsers K) (world : string -> World)
  (self : Scraper) (order : list nat) (package_names : list string)
  (output_format : string) (include_source_analysis : bool) : Bulk :=
  let futures :=
    map (fun package_name =>
           _analyze_single_package lib (world package_name) self package_name
             include_source_analysis) package_names in
  fold_left (collect output_format) (as_completed order futures)
    {| results := []; saved_reports := []; progress := 0 |}.

End LlamaPyPIScraper.

(** ** The specification's wording, as definitions

    Definitions that follow the text of the specification rather than the
    source, for the statements that compare the two. *)

Module Specified.

Import Record.

(** A requirement whose marker (the text after the first [;]) mentions a
    dev, test or docs extra. *)
Definition has_dev_marker (req : string) : bool :=
  match PyStr.split_once ";" req with
  | Some (_, marker) => mentions_dev_extra marker
  | None => false
  end.

Definition is_development (req : string) : bool :=
  PyStr.truthy req && has_dev_marker req.

Definition is_required (req : string) : bool :=
  PyStr.truthy req && negb (has_dev_marker req).

Fixpoint last_char (s : string) : option ascii :=
  match s with
  | EmptyString => None
  | String c EmptyString => Some c
  | String _ s' => last_char s'
  end.

(** A string that neither starts nor ends with whitespace. *)
Definition trimmed (s : string) : bool :=
  match s, last_char s with
  | String first _, Some last => negb (PyStr.is_space first) && negb (PyStr.is_space last)
  | _, _ => true
  end.

Definition or_sentinel (deps : list string) : list string :=
  match deps with
  | [] => NO_DEPENDENCIES
  | _ => deps
  end.

Definition dependencies_of (requires_dist : list string) : list string :=
  or_sentinel (map PyStr.strip (filter is_required requires_dist)).

Definition dev_dependencies_of (requires_dist : list string) : list string :=
  map PyStr.strip (filter is_development requires_dist).

(** The link a priority key names, when it points at the host: the key
    is looked up as written. *)
Definition named_target (urls : dict (option string)) (key : string) : option string :=
  match lookup key urls with
  | Some (Some url) => if points_at_github url then Some url else None
  | _ => None
  end.

(** The same with key names compared without regard to case. *)
Definition named_target_ci (urls : dict (option string)) (key : string) : option string :=
  match find (fun kv => String.eqb (PyStr.lower (fst kv)) (PyStr.lower key)
                        && match snd kv with
                           | Some url => points_at_github url
                           | None => false
                           end) urls with
  | Some (_, target) => target
  | None => None
  end.

Fixpoint first_some {A B : Type} (f : A -> option B) (l : list A) : option B :=
  match l with
  | [] => None
  | a :: rest =>
      match f a with
      | Some b => Some b
      | None => first_some f rest
      end
  end.

(** The link chosen by a scan of the priority keys with [named], then of
    all targets, query and fragment stripped. *)
Definition vcs_url (named : dict (option string) -> string -> option string)
  (urls : dict (option string)) : option string :=
  match first_some (named urls) GITHUB_KEYS with
  | Some url => Some (strip_query_fragment url)
  | None =>
      match first_some (fun target =>
                          match target with
                          | Some url => if points_at_github url then Some url else None
                          | None => None
                          end) (values urls) with
      | Some url => Some (strip_query_fragment url)
      | None => None
      end
  end.

(** [version_parse] orders the version strings it accepts. *)
Definition semantic_lt {K : Type} (lt : K -> K -> bool)
  (parse : string -> option K) (a b : string) : bool :=
  match parse a, parse b with
  | Some x, Some y => lt x y
  | _, _ => false
  end.

(** The tokenized comparator orders every string. *)
Definition fallback_lt (a b : string) : bool :=
  key_lt (fallback_key a) (fallback_key b).

(** A list in non-increasing order: no element is smaller than one that
    follows it. *)
Definition descending {A : Type} (lt : A -> A -> bool) (l : list A) : Prop :=
  StronglySorted (fun a b => lt a b = false) l.

(** A list in strictly decreasing order: every element is greater than
    all that follow it. *)
Definition strictly_descending {A : Type} (lt : A -> A -> bool) (l : list A) : Prop :=
  StronglySorted (fun a b => lt b a = true) l.

(** Two elements that tie: neither is smaller. *)
Definition ties {A : Type} (lt : A -> A -> bool) (a b : A) : bool :=
  negb (lt a b) && negb (lt b a).

(** The elements that tie with an element of the input come out in the
    order they went in. *)
Definition keeps_ties {A : Type} (lt : A -> A -> bool) (input output : list A) : Prop :=
  forall x, In x input ->
    filter (fun y => ties lt y x) output = filter (fun y => ties lt y x) input.

(** An order as [list.sort] needs it: [a < b] excludes [b < a], and
    "not smaller than" is transitive. *)
Definition strict_weak_order {K : Type} (lt : K -> K -> bool) : Prop :=
  (forall a b, lt a b = true -> lt b a = false) /\
  (forall a b c, lt a b = false -> lt b c = false -> lt a c = false).

Definition parses {K : Type} (parse : string -> option K) (v : string) : bool :=
  match parse v with
  | Some _ => true
  | None => false
  end.

(** The methods [fetch_with_retry] supports: [get] and [post] in any
    letter case. *)
Definition supported (method : string) : bool :=
  String.eqb (PyStr.lower method) "get" || String.eqb (PyStr.lower method) "post".

(** Why an attempt fails, if it does: the transport raised, or the
    response has an error status. *)
Definition failure_of (o : Transport.SessionOutcome) : option Transport.RequestException :=
  match o with
  | Transport.Fails msg => Some (Transport.TransportError msg)
  | Transport.Responds r => Transport.raise_for_status r
  end.

Definition fails (o : Transport.SessionOutcome) : bool :=
  match failure_of o with
  | Some _ => true
  | None => false
  end.

Definition fails_retryably (o : Transport.SessionOutcome) : bool :=
  match failure_of o with
  | Some cause => Transport.retryable cause
  | None => false
  end.

(** The page the browser collaborator hands to [fetch_with_retry]:
    [None] when the request is not marked for the browser, when the
    scraper has no browser, and when the browser gives no page or an
    empty one. *)
Definition rendered_page (host : BrowserAutomation.Host)
  (self : LlamaPyPIScraper.Scraper) (url : string) (use_browser : bool)
  : option string :=
  if use_browser then
    match LlamaPyPIScraper.browser self with
    | Some b =>
        match snd (BrowserAutomation.fetch_with_browser host b url) with
        | Some page => if PyStr.truthy page then Some page else None
        | None => None
        end
    | None => None
    end
  else None.

(** An event that belongs to the fetch of [url] on the lightweight
    path: a request to that URL or the bookkeeping of the retry loop; not
    a browser load, not the announcement of a later stage. *)
Definition concerns (url : string) (e : Transport.Event) : bool :=
  match e with
  | Transport.Request _ u => String.eqb u url
  | Transport.BrowserGet _ => false
  | Transport.SpinnerText _ => false
  | Transport.SpinnerOk => false
  | _ => true
  end.

(** The waits [baseDelay x n] before the retries [1 .. count]. *)
Definition backoff (delay : Z) (count : nat) : list Z :=
  map (fun n => (delay * Z.of_nat n)%Z) (seq 1 count).

End Specified.

(** ** Concrete documents and worlds

    Inputs on which the definitions above are run in the examples. *)

Module Examples.

Import Record Transport LlamaPyPIScraper.

(** A primary document with a version, links, requirements and release
    keys; every other field is absent. *)
Definition document (version : option string)
  (links : option (dict (option string))) (requires_dist : option (list string))
  (release_keys : list string) : PyPIJson := {|
  info := {| info_version := version; info_summary := None; info_author := None;
             info_author_email := None; info_license := None;
             info_project_urls := links; info_classifiers := None;
             info_requires_dist := requires_dist |};
  releases := map (fun v => (v, [])) release_keys
|}.

(** The document of the specification's scenario for [examplepkg]. *)
Definition examplepkg : PyPIJson :=
  document (Some "2.0.0")
    (Some [("Homepage", Some "https://github.com/acme/widget"); ("Docs", None)])
    (Some ["foo>=1.0"; "bar; extra == 'dev'"])
    ["1.0"; "2.0.0"].

(** A machine without selenium, and one where the browser works and
    renders every page as [<html>]. *)
Definition no_selenium : BrowserAutomation.Host := {|
  BrowserAutomation.SELENIUM_AVAILABLE := false;
  BrowserAutomation.chrome_starts := false;
  BrowserAutomation.script_runs := false;
  BrowserAutomation.page_source := fun _ => None
|}.

Definition working_browser : BrowserAutomation.Host := {|
  BrowserAutomation.SELENIUM_AVAILABLE := true;
  BrowserAutomation.chrome_starts := true;
  BrowserAutomation.script_runs := true;
  BrowserAutomation.page_source := fun _ => Some "<html>"
|}.

(** A scraper built with browser automation and without an API token. *)
Definition scraper : Scraper := LlamaPyPIScraper.__init__ true false.

Definition respond (status : Z) (body : string) : SessionOutcome :=
  Responds {| status_code := status; text := body |}.

(** Sessions that always answer with one status, that always time out,
    and that answer 503 to the first [n] attempts and 200 afterwards. *)
Definition always (status : Z) : Session := fun _ => respond status "".

Definition timing_out : Session := fun _ => Fails "timed out".

Definition recovering (n : nat) : Session :=
  fun attempt => if (attempt <? n)%nat then respond 503 "" else respond 200 "ok".

(** A world without a browser in which the package index answers with
    [primary] and every other site with 404, the body of the primary
    response decodes to [decoded], no page can be scraped, and the source
    analysis gives [analysis]. *)
Definition world (primary : Session) (decoded : exc PyPIJson)
  (analysis : exc SourceAnalysis) : World := {|
  host := no_selenium;
  session := fun url => if prefix "https://pypi.org/pypi/" url then primary
                        else always 404;
  json_document := fun _ => decoded;
  license_on_page := fun _ => Raise (OtherError "no license on page");
  json_downloads := fun _ => Raise (JSONDecodeError "no statistics");
  description_on_page := fun _ => Raise (OtherError "no description on page");
  github_api := fun _ => ApiFails;
  stats_on_page := fun _ => Raise (ValueError "invalid literal for int()");
  analyze_package_source := fun _ _ => analysis
|}.

(** The worlds of a bulk run over three packages: [examplepkg] is
    served, [nosuchpkg] is answered 404, and the analysis of [faulty]
    raises. *)
Definition bulk_world (package_name : string) : World :=
  if String.eqb package_name "nosuchpkg" then
    world (always 404) (Raise (JSONDecodeError "no document")) (Ok NotAnalysed)
  else if String.eqb package_name "faulty" then
    world (always 200) (Ok examplepkg) (Raise (OtherError "internal fault"))
  else
    world (always 200) (Ok examplepkg) (Ok (Analysed 3 120 90 10 20)).

End Examples.

(** ** More of the source, and what is observed of it *)

Module Browser.

(** [BrowserAutomation.close]: the driver is quit and forgotten. *)
Definition close (self : BrowserAutomation.t) : BrowserAutomation.t :=
  if BrowserAutomation.driver self then {| BrowserAutomation.driver := false |}
  else self.

End Browser.

Module Observed.

Import Record Transport LlamaPyPIScraper.

Definition is_update (e : Event) : bool :=
  match e with UpdateHeaders => true | _ => false end.

(** How often the identity was rotated by the retry loop. *)
Definition rotations (trace : list Event) : nat :=
  List.length (filter is_update trace).

Definition is_browser_load (e : Event) : bool :=
  match e with BrowserGet _ => true | _ => false end.

Definition browser_loads (trace : list Event) : nat :=
  List.length (filter is_browser_load trace).

(** The URL an event contacts, if it contacts one. *)
Definition contacted (e : Event) : option string :=
  match e with
  | Request _ url => Some url
  | BrowserGet url => Some url
  | _ => None
  end.

(** The URLs a trace contacts, in order. *)
Fixpoint contacts (trace : list Event) : list string :=
  match trace with
  | [] => []
  | e :: rest =>
      match contacted e with
      | Some url => url :: contacts rest
      | None => contacts rest
      end
  end.

(** The first of the answers [start .. start + count - 1] of a session
    that is a response without an error status, with its position. *)
Fixpoint first_response (session : Session) (count start : nat)
  : option (nat * Response) :=
  match count with
  | O => None
  | S count' =>
      match session start with
      | Responds r =>
          match raise_for_status r with
          | None => Some (start, r)
          | Some _ => first_response session count' (S start)
          end
      | Fails _ => first_response session count' (S start)
      end
  end.

(** The numbers written in a string: its maximal runs of digits, read
    in base ten. [cur] is the run being read. *)
Fixpoint numbers_from (s : string) (cur : option N) : list N :=
  match s with
  | EmptyString => match cur with Some n => [n] | None => [] end
  | String c s' =>
      if PyStr.is_digit c then
        let d := N.of_nat (nat_of_ascii c - 48) in
        numbers_from s' (Some (10 * match cur with Some n => n | None => 0 end + d)%N)
      else
        match cur with
        | Some n => n :: numbers_from s' None
        | None => numbers_from s' None
        end
  end.

Definition numbers (s : string) : list N := numbers_from s None.

(** Lists of numbers in dictionary order, a proper prefix first. *)
Fixpoint lex_lt (a b : list N) : bool :=
  match a, b with
  | [], [] => false
  | [], _ :: _ => true
  | _ :: _, [] => false
  | x :: a', y :: b' =>
      if (x <? y)%N then true
      else if (y <? x)%N then false
      else lex_lt a' b'
  end.

(** The URLs of the stages of one package's pipeline. *)
Definition license_url (package_name : string) : string :=
  ("https://pypi.org/project/" ++ package_name ++ "/")%string.

Definition stats_url (package_name : string) : string :=
  ("https://pypistats.org/api/packages/" ++ package_name ++ "/recent")%string.

Definition readme_url (package_name version : string) : string :=
  ("https://pypi.org/project/" ++ package_name ++ "/" ++ version ++ "/")%string.

(** The URLs the stages after the primary fetch may contact for a
    record. *)
Definition later_urls (package : PackageInfo) : list string :=
  [license_url (name package); stats_url (name package);
   readme_url (name package) (version package)] ++
  match github_url package with
  | Some url => [url]
  | None => []
  end.

End Observed.

(** ** The command line: which packages a run analyses *)

Module CommandLine.

(** One turn of the loop of [fetch_packages_from_user_profile] over the
    links of the page: the third [/]-separated part of an [href] that
    starts with [/project/] is appended unless it is empty or already
    there. *)
Definition visit_link (packages : list string) (href : string) : list string :=
  if prefix "/project/" href then
    let parts := Packaging.split_on "/" href EmptyString in
    if (3 <=? List.length parts)%nat then
      match nth_error parts 2 with
      | Some pkg_name =>
          if PyStr.truthy pkg_name && negb (existsb (String.eqb pkg_name) packages)
          then packages ++ [pkg_name]
          else packages
      | None => packages
      end
    else packages
  else packages.

(** [fetch_packages_from_user_profile]. [page] is what the request and
    the HTML parser give for the URL: the [href] of every link of the
    page in document order, or the exception raised on the way, which is
    logged and leaves the list empty. *)
Definition fetch_packages_from_user_profile (page : exc (list string)) : list string :=
  match page with
  | Ok hrefs => fold_left visit_link hrefs []
  | Raise _ => []
  end.

(** The test of [main] for a user-profile URL among the package names. *)
Definition is_profile_url (pkg : string) : bool :=
  prefix "http" pkg && PyStr.contains "pypi.org/user/" pkg.

(** The loop of [main] that replaces profile URLs by the packages of the
    profile. *)
Definition expand_profiles (pages : string -> exc (list string))
  (package_names : list string) : list string :=
  fold_left
    (fun final_package_names pkg =>
       if is_profile_url pkg then
         match fetch_packages_from_user_profile (pages pkg) with
         | [] => final_package_names
         | user_packages => final_package_names ++ user_packages
         end
       else final_package_names ++ [pkg])
    package_names [].

(** [list(set(names))]: the elements of [names], each once, in an order
    the language does not fix. *)
Definition list_of_set (names package_names : list string) : Prop :=
  NoDup package_names /\ forall pkg, In pkg package_names <-> In pkg names.

End CommandLine.

(** ** Searching the index *)

Module Search.

Import Record Transport LlamaPyPIScraper.

(** What [search_packages] returns: a list of results, or the empty
    dictionary of its exception handler. *)
Inductive Found (A : Type) : Type :=
| Listed (results : list A)
| EmptyDict.

Arguments Listed {A} _.
Arguments EmptyDict {A}.

(** [l[:stop]]: a negative [stop] counts from the end. *)
Definition slice_to {A : Type} (l : list A) (stop : Z) : list A :=
  if (0 <=? stop)%Z then firstn (Z.to_nat stop) l
  else firstn (Z.to_nat (Z.of_nat (List.length l) + stop)) l.

Definition search_url (query : string) : string :=
  ("https://pypi.org/search/?q=" ++ query ++ "&format=json")%string.

(** [search_packages]. [results_of] is [response.json()] followed by the
    lookup of ["results"] in the decoded object: the list found there,
    [None] when the key is absent, or the exception raised on the way,
    which the handler logs before it returns the empty dictionary. *)
Definition search_packages {A : Type} (host : BrowserAutomation.Host)
  (session : Session) (results_of : string -> exc (option (list A)))
  (self : Scraper) (query : string) (max_results : Z) : Run (Found A) :=
  let url := search_url query in
  let r := fetch_with_retry host session self url "get" false in
  let failed := {| after := after r; trace := trace r; outcome := EmptyDict |} in
  match outcome r with
  | Raise _ => failed
  | Ok None => {| after := after r; trace := trace r; outcome := Listed [] |}
  | Ok (Some response) =>
      match results_of (text response) with
      | Raise _ => failed
      | Ok found =>
          {| after := after r; trace := trace r;
             outcome := Listed (slice_to (get found []) max_results) |}
      end
  end.

End Search.

(** ** Downloading and measuring the source of a release *)

Module SourceCode.

Import Record Transport LlamaPyPIScraper.

(** *** Paths *)

(** [s.endswith(suffix)] *)
Fixpoint endswith (suffix s : string) : bool :=
  String.eqb s suffix ||
  match s with
  | EmptyString => false
  | String _ s' => endswith suffix s'
  end.

(** [os.path.join(a, b)] *)
Definition path_join (a b : string) : string :=
  if prefix "/" b then b
  else if negb (PyStr.truthy a) || endswith "/" a then (a ++ b)%string
  else (a ++ "/" ++ b)%string.

(** [os.path.basename(p)]: the text after the last [/]. *)
Fixpoint basename (p : string) : string :=
  match p with
  | EmptyString => EmptyString
  | String c p' =>
      if PyStr.contains "/" p' then basename p'
      else if Ascii.eqb c "/" then p' else p
  end.

(** The text of [s] from its last dot on. *)
Fixpoint from_last_dot (s : string) : option string :=
  match s with
  | EmptyString => None
  | String c s' =>
      match from_last_dot s' with
      | Some ext => Some ext
      | None => if Ascii.eqb c "." then Some s else None
      end
  end.

(** [os.path.splitext(file)[1]] for a file name (without [/]): the text
    from the last dot on, the dots the name starts with not counting. *)
Fixpoint splitext_ext (file : string) : string :=
  match file with
  | String "." rest => splitext_ext rest
  | _ => match from_last_dot file with
         | Some ext => ext
         | None => EmptyString
         end
  end.

(** *** The download *)

(** An entry of the [urls] list of a release document. *)
Record UrlData : Type := {
  packagetype : option string;
  url : option string
}.

(** The loop that looks for the source distribution: it stops at the
    first entry of type ["sdist"] and takes what that entry has under
    ["url"]. *)
Fixpoint first_sdist (urls : list UrlData) : option string :=
  match urls with
  | [] => None
  | url_data :: rest =>
      match packagetype url_data with
      | Some kind => if String.eqb kind "sdist" then url url_data else first_sdist rest
      | None => first_sdist rest
      end
  end.

(** The first path component of an archive member that has more than
    one. *)
Definition top_directory (member : string) : list string :=
  match PyStr.split_once "/" member with
  | Some (top, _) => [top]
  | None => []
  end.

(** [list(prefixes)[0] if len(prefixes) == 1 else ""] for the set
    [prefixes] of the members' top directories. *)
Definition common_prefix (members : list string) : string :=
  match nodup string_dec (flat_map top_directory members) with
  | [top] => top
  | _ => EmptyString
  end.

(** The sites and the disk a download meets: the browser host, the
    answers of the network, [response.json()] followed by the lookup of
    ["urls"] ([None] when the key is absent), and the file system:
    [makedirs path] and [write path] stand for creating a directory and
    for writing the downloaded archive to a path, [members path] for
    opening the archive at a path, listing its members and extracting
    them (each [Raise] when the operation raises). *)
Record Site : Type := {
  host : BrowserAutomation.Host;
  session : string -> Session;
  release_urls : string -> exc (option (list UrlData));
  makedirs : string -> exc unit;
  write : string -> exc unit;
  members : string -> exc (list string)
}.

Definition release_url (package_name version : string) : string :=
  ("https://pypi.org/pypi/" ++ package_name ++ "/" ++ version ++ "/json")%string.

(** The directory the archive is unpacked to. *)
Definition extract_dir_of (temp_dir package_name version : string) : string :=
  path_join (path_join temp_dir (package_name ++ "-" ++ version)) "source".

(** The part of [download_package_source] after the download: unpack
    and return the root of the sources. *)
Definition unpack (site : Site) (download_path extract_dir : string) : exc string :=
  if endswith ".tar.gz" download_path || endswith ".tgz" download_path
     || endswith ".zip" download_path
  then
    names <- members site download_path ;;
    let top := common_prefix names in
    Ok (if PyStr.truthy top then path_join extract_dir top else extract_dir)
  else Ok extract_dir.

(** [download_package_source]: the root directory of the unpacked
    sources, or [None]; every exception is caught, logged and turned into
    [None]. *)
Definition download_package_source (site : Site) (self : Scraper)
  (temp_dir package_name version : string) : Run (option string) :=
  let url := release_url package_name version in
  let r := fetch_with_retry (host site) (session site url) self url "get" false in
  let stop (r : Run (exc (option Response))) (events : list Event)
      : Run (option string) :=
    {| after := after r; trace := events; outcome := None |} in
  match outcome r with
  | Raise _ => stop r (trace r)
  | Ok None => stop r (trace r)
  | Ok (Some response) =>
      match release_urls site (text response) with
      | Raise _ => stop r (trace r)
      | Ok urls =>
          match first_sdist (get urls []) with
          | None => stop r (trace r)
          | Some source_url =>
              if negb (PyStr.truthy source_url) then stop r (trace r)
              else
                let package_dir :=
                  path_join temp_dir (package_name ++ "-" ++ version) in
                match makedirs site package_dir with
                | Raise _ => stop r (trace r)
                | Ok _ =>
                    let download_path := path_join package_dir (basename source_url) in
                    let r2 := fetch_with_retry (host site) (session site source_url)
                                (after r) source_url "get" false in
                    let events := (trace r ++ trace r2)%list in
                    match outcome r2 with
                    | Raise _ => stop r2 events
                    | Ok None => stop r2 events
                    | Ok (Some _) =>
                        let extract_dir := path_join package_dir "source" in
                        let unpacked :=
                          _ <- write site download_path ;;
                          _ <- makedirs site extract_dir ;;
                          unpack site download_path extract_dir in
                        match unpacked with
                        | Raise _ => stop r2 events
                        | Ok source_dir =>
                            {| after := after r2; trace := events;
                               outcome := Some source_dir |}
                        end
                    end
                end
          end
      end
  end.

(** *** The analysis *)

(** A file as the analysis reads it: its name and its lines, or the
    exception raised when it is opened or read. *)
Record File : Type := {
  file_name : string;
  lines : exc (list string)
}.

(** A directory: its files and its sub-directories, in the order the
    operating system lists them. *)
#[local] Set Warnings "-register-all".

Inductive Dir : Type :=
| mkDir (files : list File) (dirs : list (string * Dir)).

(** [os.walk(top)], top-down, descending into the sub-directories that
    the loop body keeps ([dirs[:] = ...]): the path of each directory
    visited relative to [top] (empty for [top] itself) and its files. *)
Fixpoint walk (keep : string -> bool) (rel_path : string) (d : Dir)
  : list (string * list File) :=
  match d with
  | mkDir files dirs =>
      (rel_path, files) ::
      flat_map (fun entry : string * Dir =>
                  let (dir_name, sub) := entry in
                  if keep dir_name
                  then walk keep
                         (if PyStr.truthy rel_path
                          then (rel_path ++ "/" ++ dir_name)%string else dir_name)
                         sub
                  else [])
               dirs
  end.

Definition SKIPPED_DIRS : list string := ["__pycache__"; "tests"; "test"; "docs"].

Definition SKIPPED_FILES : list string :=
  ["setup.py"; "setup.cfg"; "pyproject.toml"; "README.md"; "LICENSE"].

Definition kept_dir (d : string) : bool :=
  negb (prefix "." d) && negb (existsb (String.eqb d) SKIPPED_DIRS).

Definition skipped_file (file : string) : bool :=
  prefix "." file || existsb (String.eqb file) SKIPPED_FILES.

(** An entry of [analysis["files"]]. *)
Record FileStat : Type := {
  path : string;
  extension : string;
  file_total_lines : Z;
  file_code_lines : Z;
  file_comment_lines : Z;
  file_blank_lines : Z
}.

(** An entry of the package structure. *)
Inductive Entry : Type :=
| FileEntry (entry_name entry_path entry_extension : string)
| DirEntry (entry_name entry_path : string) (children : list Entry).

Record Analysis : Type := {
  file_count : Z;
  file_types : dict Z;
  total_lines : Z;
  code_lines : Z;
  comment_lines : Z;
  blank_lines : Z;
  package_structure : list Entry;
  files_analysed : list FileStat
}.

(** [file_types.setdefault(ext, 0); file_types[ext] += 1] *)
Fixpoint count_type (ext : string) (file_types : dict Z) : dict Z :=
  match file_types with
  | [] => [(ext, 1%Z)]
  | (k, n) :: rest =>
      if String.eqb k ext then (k, (n + 1)%Z) :: rest
      else (k, n) :: count_type ext rest
  end.

Definition is_comment (line : string) : bool := prefix "#" (PyStr.strip line).

Definition is_code (line : string) : bool :=
  PyStr.truthy (PyStr.strip line) && negb (is_comment line).

(** [sum(1 for line in lines if ...)] *)
Definition count (test : string -> bool) (ls : list string) : Z :=
  Z.of_nat (List.length (filter test ls)).

(** The body of [for file in files]. *)
Definition analyse_file (rel_path : string) (analysis : Analysis) (f : File)
  : Analysis :=
  let file := file_name f in
  if skipped_file file then analysis
  else
    let rel_file_path := if PyStr.truthy rel_path then path_join rel_path file else file in
    let ext :=
      let e := PyStr.lower (splitext_ext file) in
      if PyStr.truthy e then e else "no_extension" in
    let types := count_type ext (file_types analysis) in
    match lines f with
    | Raise _ =>
        {| file_count := file_count analysis; file_types := types;
           total_lines := total_lines analysis; code_lines := code_lines analysis;
           comment_lines := comment_lines analysis; blank_lines := blank_lines analysis;
           package_structure := package_structure analysis;
           files_analysed := files_analysed analysis |}
    | Ok ls =>
        let total := Z.of_nat (List.length ls) in
        let code := count is_code ls in
        let comment := count is_comment ls in
        let blank := (total - code - comment)%Z in
        {| file_count := file_count analysis; file_types := types;
           total_lines := (total_lines analysis + total)%Z;
           code_lines := (code_lines analysis + code)%Z;
           comment_lines := (comment_lines analysis + comment)%Z;
           blank_lines := (blank_lines analysis + blank)%Z;
           package_structure := package_structure analysis;
           files_analysed :=
             files_analysed analysis ++
             [{| path := rel_file_path; extension := ext; file_total_lines := total;
                 file_code_lines := code; file_comment_lines := comment;
                 file_blank_lines := blank |}] |}
    end.

(** [sorted(names)] *)
Fixpoint insert_sorted (x : string) (l : list string) : list string :=
  match l with
  | [] => [x]
  | y :: rest => if String.leb x y then x :: l else y :: insert_sorted x rest
  end.

Definition sorted (l : list string) : list string := fold_right insert_sorted [] l.

(** [_generate_package_structure]: one node for the root directory
    (named [root_name], the base name of the source directory), or
    nothing when the walk finds no directory there. *)
Definition _generate_package_structure (root_name : string) (tree : option Dir)
  : list Entry :=
  match tree with
  | None => []
  | Some (mkDir files dirs) =>
      let dirs := filter (fun d => negb (prefix "." d) &&
                                   negb (existsb (String.eqb d) ["__pycache__"]))
                         (map fst dirs) in
      let file_children :=
        map (fun file => FileEntry file file (splitext_ext file))
            (filter (fun file => negb (prefix "." file)) (sorted (map file_name files))) in
      let dir_children := map (fun d => DirEntry d d []) (sorted dirs) in
      [DirEntry root_name EmptyString (file_children ++ dir_children)]
  end.

(** What [analyze_package_source] returns: the analysis, or a dictionary
    with the key ["error"]. *)
Inductive Report : Type :=
| Failed (error : string)
| Measured (analysis : Analysis).

Definition empty_analysis : Analysis := {|
  file_count := 0; file_types := []; total_lines := 0; code_lines := 0;
  comment_lines := 0; blank_lines := 0; package_structure := []; files_analysed := []
|}.

(** The loop over [os.walk(source_dir)] and the two assignments after
    it. [tree] is what the walk finds at the source directory. *)
Definition measure (root_name : string) (tree : option Dir) : Analysis :=
  let visited := match tree with
                 | Some d => walk kept_dir EmptyString d
                 | None => []
                 end in
  let analysis :=
    fold_left (fun analysis '(rel_path, files) =>
                 fold_left (analyse_file rel_path) files analysis)
              visited empty_analysis in
  {| file_count := Z.of_nat (List.length (files_analysed analysis));
     file_types := file_types analysis;
     total_lines := total_lines analysis; code_lines := code_lines analysis;
     comment_lines := comment_lines analysis; blank_lines := blank_lines analysis;
     package_structure := _generate_package_structure root_name tree;
     files_analysed := files_analysed analysis |}.

(** [analyze_package_source]. [tree_at] is the directory tree found at a
    path once the archive is unpacked. The temporary directory is removed
    on the way out, whatever happened. *)
Definition analyze_package_source (site : Site) (tree_at : string -> option Dir)
  (self : Scraper) (temp_dir package_name version : string) : Run Report :=
  let r := download_package_source site self temp_dir package_name version in
  match outcome r with
  | Some source_dir =>
      if PyStr.truthy source_dir then
        {| after := after r; trace := trace r;
           outcome := Measured (measure (basename source_dir) (tree_at source_dir)) |}
      else
        {| after := after r; trace := trace r;
           outcome := Failed "Failed to download package source" |}
  | None =>
      {| after := after r; trace := trace r;
         outcome := Failed "Failed to download package source" |}
  end.

End SourceCode.

(** What is observed of a download and of an analysis. *)

Module SourceObserved.

Import SourceCode.

Definition is_sdist (entry : UrlData) : bool :=
  match packagetype entry with
  | Some kind => String.eqb kind "sdist"
  | None => false
  end.

(** A line of white space only. *)
Definition is_blank (line : string) : bool := negb (PyStr.truthy (PyStr.strip line)).

(** The files the analysis counts: those of the directories the walk
    visits, the skipped names apart. *)
Definition counted_files (d : Dir) : list File :=
  filter (fun f => negb (skipped_file (file_name f)))
         (flat_map snd (walk kept_dir EmptyString d)).

Definition readable (f : File) : bool :=
  match lines f with Ok _ => true | Raise _ => false end.

Definition read_lines (f : File) : list string :=
  match lines f with Ok ls => ls | Raise _ => [] end.

Definition counted_lines (d : Dir) : list string :=
  flat_map read_lines (counted_files d).

Definition sum (l : list Z) : Z := fold_right Z.add 0%Z l.

(** A tree with the content of every skipped file and of every skipped
    directory taken out; the names stay. *)
Fixpoint hollow (d : Dir) : Dir :=
  match d with
  | mkDir files dirs =>
      mkDir
        (map (fun f => if skipped_file (file_name f)
                       then {| file_name := file_name f; lines := Ok [] |} else f)
             files)
        (map (fun entry : string * Dir =>
                let (dir_name, sub) := entry in
                if kept_dir dir_name then (dir_name, hollow sub)
                else (dir_name, mkDir [] []))
             dirs)
  end.

End SourceObserved.

(** A release with a wheel and a source archive, and the tree the
    archive unpacks to. *)

Module SourceExamples.

Import SourceCode.

Definition site : Site := {|
  host := Examples.no_selenium;
  session := fun _ => Examples.always 200;
  release_urls := fun _ =>
    Ok (Some [ {| packagetype := Some "bdist_wheel";
                  url := Some "https://files.example/pkg-1.0-py3-none-any.whl" |};
               {| packagetype := Some "sdist";
                  url := Some "https://files.example/pkg-1.0.tar.gz" |} ]);
  makedirs := fun _ => Ok tt;
  write := fun _ => Ok tt;
  members := fun _ => Ok ["pkg-1.0/setup.py"; "pkg-1.0/pkg/__init__.py"; "PKG-INFO"]
|}.

Definition newline : string := String (ascii_of_nat 10) EmptyString.

Definition tree : Dir :=
  mkDir
    [ {| file_name := "setup.py"; lines := Ok [("import setuptools" ++ newline)%string] |};
      {| file_name := "README.md"; lines := Ok [("pkg" ++ newline)%string] |} ]
    [ ("pkg",
       mkDir [ {| file_name := "__init__.py";
                  lines := Ok [("  # the package" ++ newline)%string; newline; ("x = 1" ++ newline)%string] |};
               {| file_name := "data.JSON"; lines := Raise (OtherError "unreadable") |} ]
             []);
      ("tests",
       mkDir [ {| file_name := "test_pkg.py"; lines := Ok [("assert True" ++ newline)%string] |} ]
             []) ].

End SourceExamples.

(** * Properties *)

Import Record Transport LlamaPyPIScraper.

(** ** Strings *)

Lemma before_first_stops (sep : ascii) (s : string) :
  PyStr.contains (String sep EmptyString) (PyStr.before_first sep s) = false.
Proof.
  induction s as [|c s IH]; simpl; [reflexivity|].
  destruct (Ascii.eqb c sep) eqn:E; simpl; [reflexivity|].
  rewrite IH. rewrite Ascii.eqb_sym in E.
  destruct (Ascii.ascii_dec sep c) as [->|N].
  - rewrite Ascii.eqb_refl in E. discriminate.
  - destruct (PyStr.before_first sep s); reflexivity.
Qed.
Lemma before_first_keeps_absent (c sep : ascii) (s : string) :
  PyStr.contains (String c EmptyString) s = false ->
  PyStr.contains (String c EmptyString) (PyStr.before_first sep s) = false.
Proof.
  induction s as [|a s IH]; simpl; [reflexivity|].
  intros H. apply orb_false_iff in H as [H1 H2].
  destruct (Ascii.eqb a sep); simpl; [reflexivity|].
  rewrite (IH H2), orb_false_r.
  destruct (Ascii.ascii_dec c a) as [->|N]; [|reflexivity].
  destruct s; simpl in H1; discriminate.
Qed.

Lemma strip_query_fragment_clean (url : string) :
  PyStr.contains "?" (strip_query_fragment url) = false /\
  PyStr.contains "#" (strip_query_fragment url) = false.
Proof.
  unfold strip_query_fragment. split.
  - apply before_first_keeps_absent, before_first_stops.
  - apply before_first_stops.
Qed.

(** ** Dependencies *)

Lemma last_char_some (c : ascii) (s : string) :
  Specified.last_char (String c s) <> None.
Proof.
  revert c. induction s as [|c' s IH]; intros c; [discriminate|].
  change (Specified.last_char (String c (String c' s)))
    with (Specified.last_char (String c' s)). apply IH.
Qed.

Lemma rstrip_trimmed (s : string) :
  match Specified.last_char s with
  | Some last => PyStr.is_space last = false -> PyStr.rstrip s = s
  | None => PyStr.rstrip s = s
  end.
Proof.
  induction s as [|c s IH]; [reflexivity|].
  destruct s as [|c' s'].
  - simpl. now intros ->.
  - change (Specified.last_char (String c (String c' s')))
      with (Specified.last_char (String c' s')).
    destruct (Specified.last_char (String c' s')) as [last|] eqn:E.
    + intros H. change (PyStr.rstrip (String c (String c' s')))
        with (match PyStr.rstrip (String c' s') with
              | EmptyString => if PyStr.is_space c then EmptyString
                               else String c EmptyString
              | r => String c r
              end).
      now rewrite (IH H).
    + now destruct (last_char_some c' s').
Qed.

Lemma strip_trimmed (s : string) :
  Specified.trimmed s = true -> PyStr.strip s = s.
Proof.
  unfold Specified.trimmed, PyStr.strip. intros H.
  pose proof (rstrip_trimmed s) as Hr.
  destruct s as [|c s]; [reflexivity|].
  destruct (Specified.last_char (String c s)) as [last|] eqn:E.
  - apply andb_true_iff in H as [H1 H2]. apply negb_true_iff in H1, H2.
    cbn [PyStr.lstrip]. rewrite H1. auto.
  - now destruct (last_char_some c s).
Qed.

Lemma parse_requirement_step (req : string) (regular_deps dev_deps : list string) :
  parse_requirement (regular_deps, dev_deps) req =
  (regular_deps ++ map PyStr.strip (filter Specified.is_required [req]),
   dev_deps ++ map PyStr.strip (filter Specified.is_development [req])).
Proof.
  unfold parse_requirement, Specified.is_required, Specified.is_development,
    Specified.has_dev_marker. simpl.
  destruct (PyStr.truthy req); simpl.
  - destruct (PyStr.split_once ";" req) as [[req_part marker]|]; simpl.
    + destruct (mentions_dev_extra marker); simpl; now rewrite app_nil_r.
    + now rewrite app_nil_r.
  - now rewrite !app_nil_r.
Qed.

Lemma parse_requirements_loop (requires_dist regular_deps dev_deps : list string) :
  fold_left parse_requirement requires_dist (regular_deps, dev_deps) =
  (regular_deps ++ map PyStr.strip (filter Specified.is_required requires_dist),
   dev_deps ++ map PyStr.strip (filter Specified.is_development requires_dist)).
Proof.
  revert regular_deps dev_deps.
  induction requires_dist as [|req rest IH]; intros regular_deps dev_deps.
  - simpl. now rewrite !app_nil_r.
  - change (fold_left parse_requirement (req :: rest) (regular_deps, dev_deps))
      with (fold_left parse_requirement rest
              (parse_requirement (regular_deps, dev_deps) req)).
    rewrite parse_requirement_step, IH, <- !app_assoc, <- !map_app.
    change (req :: rest) with ([req] ++ rest).
    now rewrite !filter_app.
Qed.

Lemma parse_requirements_eq (requires_dist : list string) :
  _parse_requirements requires_dist =
  (Specified.dependencies_of requires_dist, Specified.dev_dependencies_of requires_dist).
Proof.
  unfold _parse_requirements. rewrite parse_requirements_loop. reflexivity.
Qed.

Lemma from_pypi_json_fst {K : Type} (lib : Parsers K) (self : PackageInfo) (data : PyPIJson) :
  let head := from_pypi_json_head self data in
  dependencies (fst (from_pypi_json lib self data)) = dependencies head /\
  dev_dependencies (fst (from_pypi_json lib self data)) = dev_dependencies head /\
  project_urls (fst (from_pypi_json lib self data)) = project_urls head /\
  version (fst (from_pypi_json lib self data)) = version head /\
  name (fst (from_pypi_json lib self data)) = name self /\
  error (fst (from_pypi_json lib self data)) = error self.
Proof.
  unfold from_pypi_json.
  destruct (_extract_github_url (project_urls (from_pypi_json_head self data)));
    simpl; unfold from_pypi_json_head;
    destruct (info_requires_dist (info data)) as [[|r rs]|]; simpl;
    try destruct (_parse_requirements (r :: rs)); simpl; repeat split; reflexivity.
Qed.


(** ** Links *)

Lemma drop_null_targets_clean (urls : dict (option string)) :
  Forall (fun kv => snd kv <> None) (drop_null_targets urls).
Proof.
  apply Forall_forall. intros [k v] H.
  apply filter_In in H as [_ H]. simpl in *. destruct v; [discriminate|discriminate].
Qed.

Lemma head_project_urls (self : PackageInfo) (data : PyPIJson) :
  project_urls (from_pypi_json_head self data) =
  drop_null_targets (get (info_project_urls (info data)) []).
Proof.
  unfold from_pypi_json_head.
  destruct (info_requires_dist (info data)) as [[|r rs]|]; simpl;
    try destruct (_parse_requirements (r :: rs)); simpl;
    destruct (get (info_project_urls (info data)) []); reflexivity.
Qed.

Lemma lookup_In {V : Type} (key : string) (d : dict V) (v : V) :
  lookup key d = Some v -> In (key, v) d.
Proof.
  induction d as [|[k w] d IH]; simpl; [discriminate|].
  destruct (String.eqb k key) eqn:E.
  - apply String.eqb_eq in E. intros [= ->]. left. now subst.
  - intros H. right. auto.
Qed.

Lemma scan_named_keys_eq (urls : dict (option string)) (github_keys : list string) :
  Forall (fun kv => snd kv <> None) urls ->
  scan_named_keys urls github_keys =
  Ok (option_map strip_query_fragment
        (Specified.first_some (Specified.named_target urls) github_keys)).
Proof.
  intros Hclean. induction github_keys as [|key rest IH]; simpl; [reflexivity|].
  unfold Specified.named_target at 1.
  destruct (lookup key urls) as [[url|]|] eqn:E.
  - destruct (points_at_github url); [reflexivity|exact IH].
  - apply lookup_In in E. rewrite Forall_forall in Hclean.
    now destruct (Hclean _ E).
  - exact IH.
Qed.

Lemma scan_all_values_eq (targets : list (option string)) :
  scan_all_values targets =
  option_map strip_query_fragment
    (Specified.first_some
       (fun target => match target with
                      | Some url => if points_at_github url then Some url else None
                      | None => None
                      end) targets).
Proof.
  induction targets as [|[url|] rest IH]; simpl; [reflexivity| |exact IH].
  destruct url as [|c url]; simpl.
  - exact IH.
  - destruct (points_at_github (String c url)); [reflexivity|exact IH].
Qed.

Lemma extract_github_url_eq (urls : dict (option string)) :
  Forall (fun kv => snd kv <> None) urls ->
  _extract_github_url urls = Ok (Specified.vcs_url Specified.named_target urls).
Proof.
  intros Hclean. unfold _extract_github_url, Specified.vcs_url.
  rewrite (scan_named_keys_eq _ _ Hclean). unfold bind.
  destruct (Specified.first_some (Specified.named_target urls) GITHUB_KEYS);
    cbn [option_map]; [reflexivity|].
  rewrite scan_all_values_eq.
  destruct (Specified.first_some _ (values urls)); reflexivity.
Qed.

Lemma from_pypi_json_returns {K : Type} (lib : Parsers K) (self : PackageInfo)
  (data : PyPIJson) :
  snd (from_pypi_json lib self data) = Ok tt /\
  github_url (fst (from_pypi_json lib self data)) =
  Specified.vcs_url Specified.named_target
    (drop_null_targets (get (info_project_urls (info data)) [])).
Proof.
  unfold from_pypi_json. rewrite head_project_urls.
  rewrite (extract_github_url_eq _ (drop_null_targets_clean _)). simpl. auto.
Qed.

Lemma first_some_In {A B : Type} (f : A -> option B) (l : list A) (b : B) :
  Specified.first_some f l = Some b -> exists a, In a l /\ f a = Some b.
Proof.
  induction l as [|a l IH]; simpl; [discriminate|].
  destruct (f a) eqn:E.
  - intros [= ->]. exists a. auto.
  - intros H. destruct (IH H) as (a' & Hin & Hf). exists a'. auto.
Qed.

Lemma first_some_None {A B : Type} (f : A -> option B) (l : list A) :
  Specified.first_some f l = None <-> forall a, In a l -> f a = None.
Proof.
  induction l as [|a l IH]; simpl.
  - split; [intros _ a []|reflexivity].
  - destruct (f a) eqn:E.
    + split; [discriminate|]. intros H. rewrite <- E. apply H. now left.
    + rewrite IH. split.
      * intros H a' [<-|Hin]; auto.
      * intros H a' Hin. apply H. now right.
Qed.

(** Whatever is chosen is the target of a link that points at the host,
    without its query and fragment. *)
Lemma vcs_url_origin (urls : dict (option string)) (chosen : string) :
  Specified.vcs_url Specified.named_target urls = Some chosen ->
  exists key url,
    In (key, Some url) urls /\ points_at_github url = true /\
    chosen = strip_query_fragment url.
Proof.
  unfold Specified.vcs_url.
  destruct (Specified.first_some (Specified.named_target urls) GITHUB_KEYS) as [u|] eqn:E1.
  - intros [= <-]. apply first_some_In in E1 as (key & _ & Hk).
    unfold Specified.named_target in Hk.
    destruct (lookup key urls) as [[url|]|] eqn:El; try discriminate.
    destruct (points_at_github url) eqn:Ep; [|discriminate].
    injection Hk as <-. exists key, url. split; [now apply lookup_In|auto].
  - destruct (Specified.first_some _ (values urls)) as [u|] eqn:E2; [|discriminate].
    intros [= <-]. apply first_some_In in E2 as (target & Hin & Ht).
    destruct target as [url|]; [|discriminate].
    destruct (points_at_github url) eqn:Ep; [|discriminate].
    injection Ht as <-. unfold values in Hin. apply in_map_iff in Hin as ([k v] & Hv & Hin).
    simpl in Hv. subst v. exists k, url. auto.
Qed.

(** Nothing is chosen exactly when no link points at the host. *)
Lemma vcs_url_none (urls : dict (option string)) :
  Specified.vcs_url Specified.named_target urls = None <->
  forall key url, In (key, Some url) urls -> points_at_github url = false.
Proof.
  unfold Specified.vcs_url. split.
  - destruct (Specified.first_some (Specified.named_target urls) GITHUB_KEYS);
      [discriminate|].
    destruct (Specified.first_some _ (values urls)) eqn:E2; [discriminate|].
    intros _ key url Hin. rewrite first_some_None in E2.
    specialize (E2 (Some url)). simpl in E2.
    destruct (points_at_github url); [|reflexivity].
    assert (Some url = None) by (apply E2; unfold values;
      apply in_map_iff; exists (key, Some url); auto).
    discriminate.
  - intros H.
    destruct (Specified.vcs_url Specified.named_target urls) as [chosen|] eqn:E;
      [|unfold Specified.vcs_url in E; exact E].
    apply vcs_url_origin in E as (key & url & Hin & Hp & _).
    rewrite (H _ _ Hin) in Hp. discriminate.
Qed.



(** C8 (as amended). After a record is populated from the primary
    document its links never contain a key whose target is null: the
    links are the declared ones without the null targets, in the same
    order, and every other entry (an empty target included) is kept. *)
Theorem project_urls_without_null :
  forall (K : Type) (lib : Parsers K) (self : PackageInfo) (data : PyPIJson),
    let package := fst (from_pypi_json lib self data) in
    let declared := get (info_project_urls (info data)) [] in
    Forall (fun kv => snd kv <> None) (project_urls package) /\
    project_urls package = drop_null_targets declared /\
    (forall key url,
       In (key, Some url) (project_urls package) <-> In (key, Some url) declared).
Proof.
  intros K lib self data package declared. subst package declared.
  destruct (from_pypi_json_fst lib self data) as (_ & _ & Hu & _).
  rewrite Hu, head_project_urls.
  split; [apply drop_null_targets_clean|]. split; [reflexivity|].
  intros key url. unfold drop_null_targets. rewrite filter_In. simpl. tauto.
Qed.

(** C8, the claim as stated fails: a link whose target is the empty
    string survives the cleaning. *)
Lemma project_urls_keep_empty_target :
  let data := Examples.document (Some "2.0.0")
                (Some [("Homepage", Some "https://github.com/acme/widget");
                       ("Docs", Some ""); ("Tracker", None)]) None [] in
  let package :=
    fst (from_pypi_json Packaging.release_parsers (Record.__init__ "examplepkg") data) in
  project_urls package =
  [("Homepage", Some "https://github.com/acme/widget"); ("Docs", Some "")] /\
  ~ Forall (fun kv => snd kv <> None /\ snd kv <> Some "") (project_urls package).
Proof.
  cbv zeta. split; [reflexivity|].
  intros H. vm_compute in H.
  inversion H as [|? ? _ H2]; subst. inversion H2 as [|? ? [_ H3] _]; subst.
  now apply H3.
Qed.

(** ** Sorting *)

Section SortDesc.

Context {A K : Type}.
Variable lt : K -> K -> bool.
Variable key : A -> K.

Local Abbreviation elt_lt := (fun a b : A => lt (key a) (key b)).

Lemma insert_desc_perm (x : A) (l : list A) :
  Permutation (insert_desc lt key x l) (x :: l).
Proof.
  induction l as [|y ys IH]; simpl; [reflexivity|].
  destruct (lt (key x) (key y)); [|reflexivity].
  rewrite IH. apply perm_swap.
Qed.

Lemma sort_desc_perm (l : list A) : Permutation (sort_desc lt key l) l.
Proof.
  induction l as [|x l IH]; simpl; [reflexivity|].
  rewrite insert_desc_perm. now constructor.
Qed.

Hypothesis lt_order : Specified.strict_weak_order lt.

Lemma insert_desc_sorted (x : A) (l : list A) :
  Specified.descending elt_lt l ->
  Specified.descending elt_lt (insert_desc lt key x l).
Proof.
  destruct lt_order as [asym negtrans].
  unfold Specified.descending.
  induction l as [|y ys IH]; simpl; intros Hs.
  - constructor; constructor.
  - apply StronglySorted_inv in Hs as [Hys Hy].
    destruct (lt (key x) (key y)) eqn:E.
    + constructor; [auto|].
      apply (Permutation_Forall (Permutation_sym (insert_desc_perm x ys))).
      constructor; [|exact Hy]. now apply asym.
    + constructor; [constructor; assumption|].
      constructor; [exact E|].
      eapply Forall_impl; [|exact Hy].
      intros z Hz. simpl in *. eapply negtrans; eassumption.
Qed.

Lemma sort_desc_sorted (l : list A) :
  Specified.descending elt_lt (sort_desc lt key l).
Proof.
  induction l as [|x l IH]; simpl; [constructor|].
  now apply insert_desc_sorted.
Qed.

Lemma insert_desc_ties (x z : A) (l : list A) :
  filter (fun y => Specified.ties elt_lt y z) (insert_desc lt key x l) =
  filter (fun y => Specified.ties elt_lt y z) (x :: l).
Proof.
  destruct lt_order as [asym negtrans].
  induction l as [|y ys IH]; [reflexivity|].
  cbn [insert_desc]. destruct (lt (key x) (key y)) eqn:E; [|reflexivity].
  cbn [filter] in *. rewrite IH.
  destruct (Specified.ties elt_lt x z) eqn:Tx; [|reflexivity].
  destruct (Specified.ties elt_lt y z) eqn:Ty; [|reflexivity].
  exfalso. unfold Specified.ties in Tx, Ty.
  apply andb_true_iff in Tx as [Tx _]. apply andb_true_iff in Ty as [_ Ty].
  apply negb_true_iff in Tx, Ty.
  rewrite (negtrans _ _ _ Tx Ty) in E. discriminate.
Qed.

Lemma sort_desc_ties (z : A) (l : list A) :
  filter (fun y => Specified.ties elt_lt y z) (sort_desc lt key l) =
  filter (fun y => Specified.ties elt_lt y z) l.
Proof.
  induction l as [|x l IH]; [reflexivity|].
  cbn [sort_desc fold_right]. fold (sort_desc lt key l).
  rewrite insert_desc_ties. cbn [filter]. now rewrite IH.
Qed.

(** A list already in non-increasing order is left as it is. *)
Lemma sort_desc_fixed (l : list A) :
  Specified.descending elt_lt l -> sort_desc lt key l = l.
Proof.
  unfold Specified.descending.
  induction l as [|x l IH]; [reflexivity|]. intros Hs.
  apply StronglySorted_inv in Hs as [Hl Hx].
  cbn [sort_desc fold_right]. fold (sort_desc lt key l). rewrite (IH Hl).
  destruct l as [|y ys]; [reflexivity|]. cbn [insert_desc].
  apply Forall_inv in Hx. simpl in Hx. now rewrite Hx.
Qed.

End SortDesc.

(** The tokenized comparator is an order on Python lists. *)

Lemma token_lt_asym (a b : token) : token_lt a b = true -> token_lt b a = false.
Proof.
  destruct a, b; simpl; try reflexivity; try discriminate.
  rewrite N.ltb_lt, N.ltb_ge. lia.
Qed.

Lemma token_lt_eq (a b : token) :
  token_lt a b = false -> token_lt b a = false -> a = b.
Proof.
  destruct a, b; simpl; try reflexivity; try discriminate.
  rewrite !N.ltb_ge. intros. f_equal. lia.
Qed.

Lemma token_lt_trans (a b c : token) :
  token_lt a b = true -> token_lt b c = true -> token_lt a c = true.
Proof.
  destruct a, b, c; simpl; try reflexivity; try discriminate.
  rewrite !N.ltb_lt. lia.
Qed.

Lemma token_lt_irrefl (a : token) : token_lt a a = false.
Proof. destruct a; simpl; [apply N.ltb_irrefl|reflexivity]. Qed.

Lemma key_lt_order : Specified.strict_weak_order key_lt.
Proof.
  split.
  - intros a. induction a as [|x a IH]; intros [|y b]; simpl;
      try reflexivity; try discriminate.
    destruct (token_lt x y) eqn:Exy.
    + now rewrite (token_lt_asym _ _ Exy).
    + destruct (token_lt y x) eqn:Eyx; [discriminate|]. apply IH.
  - intros a. induction a as [|x a IH]; intros [|y b] [|z c]; simpl;
      try reflexivity; try discriminate.
    destruct (token_lt x y) eqn:Exy; [discriminate|].
    destruct (token_lt y x) eqn:Eyx.
    + intros _. destruct (token_lt y z) eqn:Eyz; [discriminate|].
      destruct (token_lt z y) eqn:Ezy.
      * intros _. rewrite (token_lt_trans _ _ _ Ezy Eyx).
        now rewrite (token_lt_asym _ _ (token_lt_trans _ _ _ Ezy Eyx)).
      * rewrite (token_lt_eq _ _ Eyz Ezy) in Eyx. intros _.
        now rewrite Eyx, (token_lt_asym _ _ Eyx).
    + rewrite (token_lt_eq _ _ Exy Eyx).
      destruct (token_lt y z); [discriminate|].
      destruct (token_lt z y); [reflexivity|]. apply IH.
Qed.

(** ** Version history *)

Lemma parse_all_spec {K : Type} (parse : string -> option K) (versions : list string) :
  match parse_all parse versions with
  | Some decorated =>
      map fst decorated = versions /\
      Forall (fun vk => parse (fst vk) = Some (snd vk)) decorated /\
      forallb (Specified.parses parse) versions = true
  | None => forallb (Specified.parses parse) versions = false
  end.
Proof.
  induction versions as [|v rest IH]; simpl.
  - repeat split. constructor.
  - unfold Specified.parses at 1 3. destruct (parse v) as [k|] eqn:E; [|reflexivity].
    destruct (parse_all parse rest) as [ks|].
    + destruct IH as (Hm & Hf & Hb). simpl. rewrite Hm, Hb.
      repeat split. constructor; assumption.
    + exact IH.
Qed.

Lemma StronglySorted_map_in {A B : Type} (R : A -> A -> Prop) (R' : B -> B -> Prop)
  (f : A -> B) (l : list A) :
  (forall a b, In a l -> In b l -> R a b -> R' (f a) (f b)) ->
  StronglySorted R l -> StronglySorted R' (map f l).
Proof.
  induction l as [|x l IH]; intros Himp Hs; simpl; [constructor|].
  apply StronglySorted_inv in Hs as [Hl Hx]. constructor.
  - apply IH; [|exact Hl]. intros a b Ha Hb. apply Himp; now right.
  - apply Forall_map. rewrite Forall_forall in *. intros y Hy.
    apply Himp; [now left|now right|auto].
Qed.

Lemma filter_map_in {A B : Type} (f : A -> B) (g : B -> bool) (h : A -> bool)
  (l : list A) :
  (forall a, In a l -> g (f a) = h a) ->
  filter g (map f l) = map f (filter h l).
Proof.
  induction l as [|x l IH]; intros H; simpl; [reflexivity|].
  rewrite (H x (or_introl eq_refl)), IH by (intros a Ha; apply H; now right).
  now destruct (h x).
Qed.

Section AllVersions.

Context {K : Type}.
Variable lt : K -> K -> bool.
Variable parse : string -> option K.
Hypothesis lt_order : Specified.strict_weak_order lt.

Lemma semantic_branch (versions : list string) (decorated : list (string * K)) :
  parse_all parse versions = Some decorated ->
  let result := map fst (sort_desc lt snd decorated) in
  Permutation result versions /\
  Specified.descending (Specified.semantic_lt lt parse) result /\
  Specified.keeps_ties (Specified.semantic_lt lt parse) versions result.
Proof.
  intros Hp. pose proof (parse_all_spec parse versions) as Hspec.
  rewrite Hp in Hspec. destruct Hspec as (Hm & Hf & _).
  rewrite Forall_forall in Hf.
  assert (Hin : forall a, In a (sort_desc lt snd decorated) -> In a decorated)
    by (intros a; apply Permutation_in, sort_desc_perm).
  assert (Hlt : forall a b, In a decorated -> In b decorated ->
            Specified.semantic_lt lt parse (fst a) (fst b) = lt (snd a) (snd b)).
  { intros a b Ha Hb. unfold Specified.semantic_lt.
    now rewrite (Hf a Ha), (Hf b Hb). }
  cbv zeta. split; [|split].
  - rewrite <- Hm. apply Permutation_map, sort_desc_perm.
  - eapply StronglySorted_map_in; [|apply (sort_desc_sorted lt snd lt_order)].
    intros a b Ha Hb Hab. simpl in Hab. rewrite Hlt; auto.
  - intros x Hx. rewrite <- Hm in Hx |- *.
    apply in_map_iff in Hx as (xk & <- & Hxk).
    rewrite !(filter_map_in fst _
                (fun y => Specified.ties (fun a b => lt (snd a) (snd b)) y xk)).
    + f_equal. apply (sort_desc_ties lt snd lt_order).
    + intros a Ha. unfold Specified.ties. now rewrite !Hlt.
    + intros a Ha. unfold Specified.ties. rewrite !Hlt; auto.
Qed.

End AllVersions.




(** ** The fetcher *)

Lemma attempt_once_supported (session : Session) (method : string) (attempt : nat) :
  Specified.supported method = true ->
  attempt_once session method attempt =
  match session attempt with
  | Fails msg => Ok (inr (TransportError msg))
  | Responds r =>
      match raise_for_status r with
      | Some cause => Ok (inr cause)
      | None => Ok (inl r)
      end
  end.
Proof.
  unfold attempt_once, Specified.supported. now intros ->.
Qed.

Lemma attempt_once_unsupported (session : Session) (method : string) (attempt : nat) :
  Specified.supported method = false ->
  attempt_once session method attempt =
  Raise (ValueError ("Unsupported HTTP method: " ++ method)%string).
Proof.
  unfold attempt_once, Specified.supported. now intros ->.
Qed.

Lemma attempt_once_fails (session : Session) (method : string) (attempt : nat)
  (cause : RequestException) :
  Specified.supported method = true ->
  Specified.failure_of (session attempt) = Some cause ->
  attempt_once session method attempt = Ok (inr cause).
Proof.
  intros Hm Hf. rewrite (attempt_once_supported _ _ _ Hm).
  unfold Specified.failure_of in Hf. destruct (session attempt) as [r|msg].
  - now rewrite Hf.
  - now injection Hf as <-.
Qed.

Lemma attempt_once_succeeds (session : Session) (method : string) (attempt : nat)
  (r : Response) :
  Specified.supported method = true ->
  session attempt = Responds r -> raise_for_status r = None ->
  attempt_once session method attempt = Ok (inl r).
Proof.
  intros Hm Hs Hr. rewrite (attempt_once_supported _ _ _ Hm), Hs. now rewrite Hr.
Qed.

Section RetryLoop.

Variables (retries : nat) (delay : Z) (session : Session) (method url : string).
Hypothesis Hmethod : Specified.supported method = true.

Local Abbreviation loop := (retry_loop retries delay session method url).

(** [failures] failed attempts from turn [attempt] on, then a success. *)
Lemma retry_loop_success (r : Response) (failures : nat) :
  forall attempt remaining,
    remaining + attempt = retries ->
    attempt + failures < retries ->
    (forall i, attempt <= i < attempt + failures ->
               Specified.fails (session i) = true) ->
    session (attempt + failures) = Responds r ->
    raise_for_status r = None ->
    snd (loop remaining attempt) = Ok (Some r) /\
    attempts (fst (loop remaining attempt)) = S failures /\
    sleeps (fst (loop remaining attempt)) =
      map (fun n => (delay * Z.of_nat n)%Z) (seq (S attempt) failures) /\
    logged_errors (fst (loop remaining attempt)) = [].
Proof.
  induction failures as [|failures IH];
    intros attempt remaining Hsum Hlt Hfail Hok Hr.
  - rewrite Nat.add_0_r in Hok.
    destruct remaining as [|remaining]; [lia|]. simpl.
    rewrite (attempt_once_succeeds _ _ _ _ Hmethod Hok Hr). simpl. auto.
  - destruct remaining as [|remaining]; [lia|]. simpl.
    assert (Hf : Specified.fails (session attempt) = true) by (apply Hfail; lia).
    unfold Specified.fails in Hf.
    destruct (Specified.failure_of (session attempt)) as [cause|] eqn:Ec;
      [|discriminate].
    rewrite (attempt_once_fails _ _ _ _ Hmethod Ec).
    assert (Hnext : ((attempt <? retries - 1)%nat = true)) by (apply Nat.ltb_lt; lia).
    rewrite Hnext.
    destruct (IH (S attempt) remaining) as (H1 & H2 & H3 & H4);
      try lia.
    { intros i Hi. apply Hfail. lia. }
    { now replace (S attempt + failures) with (attempt + S failures) by lia. }
    { exact Hr. }
    destruct (retry_loop retries delay session method url remaining (S attempt))
      as [rest result]. simpl in *.
    unfold attempts in *. simpl. rewrite H2, H3, H4.
    repeat split; try assumption.
    f_equal. f_equal. lia.
Qed.

(** Every attempt from turn [attempt] on fails. *)
Lemma retry_loop_exhausted :
  forall remaining attempt,
    remaining + attempt = retries ->
    1 <= remaining ->
    (forall i, attempt <= i < retries -> Specified.fails (session i) = true) ->
    snd (loop remaining attempt) = Ok None /\
    attempts (fst (loop remaining attempt)) = remaining /\
    sleeps (fst (loop remaining attempt)) =
      map (fun n => (delay * Z.of_nat n)%Z) (seq (S attempt) (remaining - 1)) /\
    exists cause,
      Specified.failure_of (session (retries - 1)) = Some cause /\
      logged_errors (fst (loop remaining attempt)) = [cause].
Proof.
  induction remaining as [|remaining IH];
    intros attempt Hsum Hpos Hfail; [lia|]. simpl.
  assert (Hf : Specified.fails (session attempt) = true) by (apply Hfail; lia).
  unfold Specified.fails in Hf.
  destruct (Specified.failure_of (session attempt)) as [cause|] eqn:Ec;
    [|discriminate].
  rewrite (attempt_once_fails _ _ _ _ Hmethod Ec).
  destruct (attempt <? retries - 1)%nat eqn:Hnext.
  - apply Nat.ltb_lt in Hnext.
    destruct (IH (S attempt)) as (H1 & H2 & H3 & cause' & H4 & H5); try lia.
    { intros i Hi. apply Hfail. lia. }
    destruct (retry_loop retries delay session method url remaining (S attempt))
      as [rest result]. simpl in *.
    unfold attempts in *. simpl. rewrite H2, H3.
    split; [assumption|]. split; [reflexivity|]. split.
    + destruct remaining as [|remaining']; [lia|]. simpl.
      rewrite Nat.sub_0_r. f_equal. f_equal. lia.
    + exists cause'. auto.
  - apply Nat.ltb_ge in Hnext. assert (remaining = 0) by lia. subst remaining.
    simpl. repeat split.
    exists cause. replace (retries - 1) with attempt by lia. auto.
Qed.

(** A response that is returned passed [raise_for_status]. *)
Lemma retry_loop_returns_ok (r : Response) :
  forall remaining attempt,
    snd (loop remaining attempt) = Ok (Some r) -> raise_for_status r = None.
Proof.
  induction remaining as [|remaining IH]; intros attempt; simpl;
    [discriminate|].
  rewrite (attempt_once_supported _ _ _ Hmethod).
  destruct (session attempt) as [r'|msg].
  - destruct (raise_for_status r') eqn:Er.
    + destruct (attempt <? retries - 1)%nat; [|discriminate].
      specialize (IH (S attempt)).
      destruct (retry_loop retries delay session method url remaining (S attempt)).
      exact IH.
    + simpl. now intros [= <-].
  - destruct (attempt <? retries - 1)%nat; [|discriminate].
    specialize (IH (S attempt)).
    destruct (retry_loop retries delay session method url remaining (S attempt)).
    exact IH.
Qed.

(** With a supported method the loop never raises. *)
Lemma retry_loop_no_raise :
  forall remaining attempt, raises (snd (loop remaining attempt)) = false.
Proof.
  induction remaining as [|remaining IH]; intros attempt; simpl;
    [reflexivity|].
  rewrite (attempt_once_supported _ _ _ Hmethod).
  destruct (session attempt) as [r'|msg]; [destruct (raise_for_status r')|];
    try reflexivity;
    (destruct (attempt <? retries - 1)%nat; [|reflexivity];
     specialize (IH (S attempt));
     destruct (retry_loop retries delay session method url remaining (S attempt));
     exact IH).
Qed.

End RetryLoop.

Lemma retry_loop_unsupported (retries : nat) (delay : Z) (session : Session)
  (method url : string) (remaining attempt : nat) :
  Specified.supported method = false ->
  retry_loop retries delay session method url (S remaining) attempt =
  ([], Raise (ValueError ("Unsupported HTTP method: " ++ method)%string)).
Proof.
  intros H. simpl. now rewrite (attempt_once_unsupported _ _ _ H).
Qed.

(** [fetch_with_retry] is the browser's page when there is one, and the
    retry loop otherwise. *)
Lemma fetch_with_retry_paths (retries : nat) (delay : Z) (host : BrowserAutomation.Host)
  (session : Session) (self : Scraper) (url method : string) (use_browser : bool) :
  let run := fetch_with_retry_with retries delay host session self url method use_browser in
  let loop := retry_loop retries delay session method url retries 0 in
  match Specified.rendered_page host self url use_browser with
  | Some page =>
      outcome run = Ok (Some (mock_response page)) /\ trace run = [BrowserGet url]
  | None =>
      outcome run = snd loop /\
      attempts (trace run) = attempts (fst loop) /\
      sleeps (trace run) = sleeps (fst loop) /\
      logged_errors (trace run) = logged_errors (fst loop) /\
      (trace run = fst loop \/ trace run = BrowserGet url :: fst loop)
  end.
Proof.
  unfold fetch_with_retry_with, Specified.rendered_page. cbv zeta.
  destruct (retry_loop retries delay session method url retries 0) as [events result].
  destruct use_browser; [|simpl; auto 6].
  destruct (browser self) as [b|]; [|simpl; auto 6].
  destruct (BrowserAutomation.fetch_with_browser host b url) as [b' [page|]]; simpl.
  - destruct (PyStr.truthy page); simpl; auto 6.
  - auto 6.
Qed.

Lemma fails_retryably_fails (o : SessionOutcome) :
  Specified.fails_retryably o = true -> Specified.fails o = true.
Proof.
  unfold Specified.fails_retryably, Specified.fails.
  now destruct (Specified.failure_of o).
Qed.

Lemma error_status_fails (r : Response) :
  (400 <= status_code r < 600)%Z ->
  Specified.failure_of (Responds r) = Some (HTTPError (status_code r)).
Proof.
  intros [H1 H2]. simpl. unfold raise_for_status.
  apply Z.leb_le in H1. apply Z.ltb_lt in H2. now rewrite H1, H2.
Qed.

Lemma backoff_sorted (delay : Z) (start count : nat) :
  (0 <= delay)%Z ->
  Sorted Z.le (map (fun n => (delay * Z.of_nat n)%Z) (seq start count)).
Proof.
  intros Hd. revert start. induction count as [|count IH]; intros start; simpl;
    [constructor|].
  constructor; [apply IH|].
  destruct count; simpl; constructor. nia.
Qed.

(** C2 (as amended). When the attempts [1 .. k-1] of a fetch fail with a
    retryable error and attempt [k <= maxAttempts] succeeds, the fetch
    returns that response after exactly [k] attempts, having waited
    [baseDelay x n] before retry [n] (non-decreasing waits for a
    non-negative base delay). When all [maxAttempts] attempts fail it
    returns [None], never raising; the last cause is written to the error
    log, it is not part of the returned value. *)
Theorem fetch_retries_with_backoff :
  forall (retries : nat) (delay : Z) (host : BrowserAutomation.Host)
    (session : Session) (self : Scraper) (url method : string) (use_browser : bool),
    Specified.supported method = true ->
    Specified.rendered_page host self url use_browser = None ->
    let run := fetch_with_retry_with retries delay host session self url method
                 use_browser in
    (forall (k : nat) (r : Response),
       1 <= k <= retries ->
       (forall n, 1 <= n < k -> Specified.fails_retryably (session (n - 1)) = true) ->
       session (k - 1) = Responds r -> raise_for_status r = None ->
       outcome run = Ok (Some r) /\
       attempts (trace run) = k /\
       sleeps (trace run) = Specified.backoff delay (k - 1) /\
       logged_errors (trace run) = [] /\
       ((0 <= delay)%Z -> Sorted Z.le (sleeps (trace run)))) /\
    (1 <= retries ->
     (forall n, 1 <= n <= retries ->
                Specified.fails_retryably (session (n - 1)) = true) ->
     outcome run = Ok None /\
     attempts (trace run) = retries /\
     sleeps (trace run) = Specified.backoff delay (retries - 1) /\
     ((0 <= delay)%Z -> Sorted Z.le (sleeps (trace run))) /\
     exists cause,
       Specified.failure_of (session (retries - 1)) = Some cause /\
       logged_errors (trace run) = [cause]).
Proof.
  intros retries delay host session self url method use_browser Hm Hpage run.
  pose proof (fetch_with_retry_paths retries delay host session self url method
                use_browser) as Hpaths.
  cbv zeta in Hpaths. rewrite Hpage in Hpaths.
  destruct Hpaths as (Ho & Ha & Hs & Hl & _). fold run in Ho, Ha, Hs, Hl.
  split.
  - intros k r Hk Hfail Hok Hr.
    destruct (retry_loop_success retries delay session method url Hm r (k - 1)
                0 retries) as (H1 & H2 & H3 & H4); try lia.
    { intros i Hi. apply fails_retryably_fails.
      replace i with (S i - 1) by lia. apply Hfail. lia. }
    { exact Hok. }
    { exact Hr. }
    rewrite Ho, Ha, Hs, Hl, H1, H2, H3, H4.
    repeat split; try reflexivity; try lia.
    intros Hd. now apply backoff_sorted.
  - intros Hpos Hfail.
    destruct (retry_loop_exhausted retries delay session method url Hm retries 0)
      as (H1 & H2 & H3 & cause & H4 & H5); try lia.
    { intros i Hi. apply fails_retryably_fails.
      replace i with (S i - 1) by lia. apply Hfail. lia. }
    rewrite Ho, Ha, Hs, Hl, H1, H2, H3.
    repeat split; try reflexivity.
    + intros Hd. now apply backoff_sorted.
    + exists cause. auto.
Qed.

(** Two answers 503, then 200: the third attempt returns, after waits of
    1 and 2. *)
Lemma fetch_retries_with_backoff_witness :
  Specified.supported "get" = true /\
  Specified.rendered_page Examples.no_selenium Examples.scraper
    "https://pypi.org/pypi/examplepkg/json" false = None /\
  let run := fetch_with_retry Examples.no_selenium (Examples.recovering 2)
               Examples.scraper "https://pypi.org/pypi/examplepkg/json" "get" false in
  outcome run = Ok (Some {| status_code := 200; text := "ok" |}) /\
  attempts (trace run) = 3 /\
  sleeps (trace run) = [1; 2]%Z.
Proof.
  split; [reflexivity|]. split; [reflexivity|].
  destruct (fetch_retries_with_backoff REQUEST_RETRIES REQUEST_RETRY_DELAY
              Examples.no_selenium (Examples.recovering 2) Examples.scraper
              "https://pypi.org/pypi/examplepkg/json" "get" false
              eq_refl eq_refl) as [H _].
  destruct (H 3 {| status_code := 200; text := "ok" |}) as (H1 & H2 & H3 & _).
  - unfold REQUEST_RETRIES. lia.
  - intros n Hn. assert (Hc : n = 1 \/ n = 2) by lia.
    destruct Hc as [-> | ->]; reflexivity.
  - reflexivity.
  - reflexivity.
  - cbv zeta. split; [exact H1|]. split; [exact H2|exact H3].
Defined.

(** C2, the claim as stated fails: a fetch that exhausts its attempts
    returns the bare [None]. Two fetches that end on different causes
    return the same value, so no cause can be read off what is returned;
    the causes differ only in the log. *)
Lemma exhausted_fetch_returns_bare_none :
  let fetch session :=
    fetch_with_retry Examples.no_selenium session Examples.scraper
      "https://pypi.org/pypi/examplepkg/json" "get" false in
  outcome (fetch (Examples.always 503)) = Ok None /\
  outcome (fetch Examples.timing_out) = Ok None /\
  logged_errors (trace (fetch (Examples.always 503))) = [HTTPError 503] /\
  logged_errors (trace (fetch Examples.timing_out)) = [TransportError "timed out"] /\
  ~ exists cause_of : exc (option Response) -> RequestException,
      cause_of (outcome (fetch (Examples.always 503))) = HTTPError 503 /\
      cause_of (outcome (fetch Examples.timing_out)) = TransportError "timed out".
Proof.
  cbv zeta. repeat (split; [reflexivity|]).
  intros (cause_of & H1 & H2).
  change (cause_of (Ok None) = HTTPError 503) in H1.
  change (cause_of (Ok None) = TransportError "timed out") in H2.
  rewrite H1 in H2. discriminate.
Qed.

Lemma retry_loop_second_attempt (retries : nat) (delay : Z) (session : Session)
  (method url : string) :
  Specified.supported method = true ->
  Specified.fails (session 0) = true ->
  2 <= retries ->
  exists cause rest,
    Specified.failure_of (session 0) = Some cause /\
    fst (retry_loop retries delay session method url retries 0) =
    Request method url :: LogDebug cause :: Sleep (delay * 1) :: UpdateHeaders
      :: Request method url :: rest.
Proof.
  intros Hm Hf Hr. unfold Specified.fails in Hf.
  destruct (Specified.failure_of (session 0)) as [cause|] eqn:Ec; [|discriminate].
  destruct retries as [|[|remaining]]; try lia.
  exists cause.
  cbn [retry_loop]. rewrite (attempt_once_fails _ _ _ _ Hm Ec).
  replace (0 <? S (S remaining) - 1)%nat with true by (symmetry; now apply Nat.ltb_lt; lia).
  rewrite (attempt_once_supported _ _ _ Hm).
  destruct (session 1) as [r|msg]; [destruct (raise_for_status r)|].
  - destruct (1 <? S (S remaining) - 1)%nat.
    + destruct (retry_loop (S (S remaining)) delay session method url remaining 2)
        as [rest result]. simpl. eauto.
    + simpl. eauto.
  - simpl. eauto.
  - destruct (1 <? S (S remaining) - 1)%nat.
    + destruct (retry_loop (S (S remaining)) delay session method url remaining 2)
        as [rest result]. simpl. eauto.
    + simpl. eauto.
Qed.

(** C3 (as amended). The retry loop has no fatal HTTP status: a response
    with any error status (400 to 599, 404 as much as 503) raises a
    request-level exception, which the loop handles like a transient
    transport error. After such a first attempt, if another attempt is
    allowed, the fetcher waits and tries again; when every attempt fails
    it returns [None] after [maxAttempts] attempts and logs the last
    cause. A response that is returned never has an error status, and no
    value carrying the status is returned. *)
Theorem http_errors_are_retried :
  forall (retries : nat) (delay : Z) (host : BrowserAutomation.Host)
    (session : Session) (self : Scraper) (url method : string) (use_browser : bool),
    Specified.supported method = true ->
    Specified.rendered_page host self url use_browser = None ->
    let run := fetch_with_retry_with retries delay host session self url method
                 use_browser in
    (forall r : Response,
       (400 <= status_code r < 600)%Z ->
       Specified.failure_of (Responds r) = Some (HTTPError (status_code r))) /\
    (forall r : Response, outcome run = Ok (Some r) -> raise_for_status r = None) /\
    (Specified.fails (session 0) = true -> 2 <= retries ->
     2 <= attempts (trace run) /\
     hd_error (sleeps (trace run)) = Some (delay * 1)%Z) /\
    (1 <= retries ->
     (forall n, n < retries -> Specified.fails (session n) = true) ->
     outcome run = Ok None /\
     attempts (trace run) = retries /\
     exists cause,
       Specified.failure_of (session (retries - 1)) = Some cause /\
       logged_errors (trace run) = [cause]).
Proof.
  intros retries delay host session self url method use_browser Hm Hpage run.
  pose proof (fetch_with_retry_paths retries delay host session self url method
                use_browser) as Hpaths.
  cbv zeta in Hpaths. rewrite Hpage in Hpaths.
  destruct Hpaths as (Ho & Ha & Hs & Hl & _). fold run in Ho, Ha, Hs, Hl.
  split; [exact error_status_fails|]. split; [|split].
  - intros r Hr. rewrite Ho in Hr.
    exact (retry_loop_returns_ok retries delay session method url Hm r _ _ Hr).
  - intros Hf Hr.
    destruct (retry_loop_second_attempt retries delay session method url Hm Hf Hr)
      as (cause & rest & _ & Ht).
    rewrite Ha, Hs, Ht. unfold attempts. simpl. split; [lia|reflexivity].
  - intros Hpos Hfail.
    destruct (retry_loop_exhausted retries delay session method url Hm retries 0)
      as (H1 & H2 & _ & cause & H4 & H5); try lia.
    { intros i Hi. apply Hfail. lia. }
    rewrite Ho, Ha, Hl. eauto.
Qed.

(** A package the index does not know: 404 on each of the three
    attempts, then [None]. *)
Lemma http_errors_are_retried_witness :
  Specified.supported "get" = true /\
  Specified.rendered_page Examples.no_selenium Examples.scraper
    "https://pypi.org/pypi/nosuchpkg/json" false = None /\
  let run := fetch_with_retry Examples.no_selenium (Examples.always 404)
               Examples.scraper "https://pypi.org/pypi/nosuchpkg/json" "get" false in
  (2 <= attempts (trace run) /\ hd_error (sleeps (trace run)) = Some 1%Z) /\
  outcome run = Ok None /\
  attempts (trace run) = 3 /\
  logged_errors (trace run) = [HTTPError 404].
Proof.
  split; [reflexivity|]. split; [reflexivity|].
  destruct (http_errors_are_retried REQUEST_RETRIES REQUEST_RETRY_DELAY
              Examples.no_selenium (Examples.always 404) Examples.scraper
              "https://pypi.org/pypi/nosuchpkg/json" "get" false
              eq_refl eq_refl) as (_ & _ & H2 & H3).
  cbv zeta. split.
  - apply H2; [reflexivity|unfold REQUEST_RETRIES; lia].
  - destruct H3 as (H31 & H32 & cause & H33 & H34).
    + unfold REQUEST_RETRIES. lia.
    + intros n _. reflexivity.
    + split; [exact H31|]. split; [exact H32|]. reflexivity.
Defined.

(** C3, the claim as stated fails: 404 is outside the retryable set, yet
    a fetch that keeps receiving it makes all three attempts, with the
    usual waits, and returns [None], not an error carrying the status. *)
Lemma fatal_status_is_retried :
  let run := fetch_with_retry Examples.no_selenium (Examples.always 404)
               Examples.scraper "https://pypi.org/pypi/nosuchpkg/json" "get" false in
  retryable (HTTPError 404) = false /\
  attempts (trace run) = 3 /\
  sleeps (trace run) = [1; 2]%Z /\
  outcome run = Ok None.
Proof.
  cbv zeta. repeat split; reflexivity.
Qed.

(** ** The browser fallback *)

Lemma rendered_page_unavailable (host : BrowserAutomation.Host) (self : Scraper)
  (url : string) :
  (browser self = None ->
   Specified.rendered_page host self url true = None) /\
  (forall b, browser self = Some b -> BrowserAutomation.driver b = false ->
     BrowserAutomation.SELENIUM_AVAILABLE host = false \/
     BrowserAutomation.chrome_starts host = false \/
     BrowserAutomation.script_runs host = false ->
     Specified.rendered_page host self url true = None) /\
  (forall b, browser self = Some b ->
     BrowserAutomation.page_source host url = None \/
     BrowserAutomation.page_source host url = Some EmptyString ->
     Specified.rendered_page host self url true = None).
Proof.
  unfold Specified.rendered_page, BrowserAutomation.fetch_with_browser,
    BrowserAutomation.initialize.
  split; [now intros ->|]. split.
  - intros b -> -> H.
    destruct (BrowserAutomation.SELENIUM_AVAILABLE host); [|reflexivity]. simpl.
    destruct (BrowserAutomation.chrome_starts host); [|reflexivity].
    destruct (BrowserAutomation.script_runs host); [|reflexivity].
    destruct H as [H|[H|H]]; discriminate.
  - intros b -> H.
    destruct (BrowserAutomation.driver b); simpl.
    + destruct H as [-> | ->]; reflexivity.
    + destruct (negb (BrowserAutomation.SELENIUM_AVAILABLE host)); [reflexivity|].
      destruct (BrowserAutomation.chrome_starts host); [|reflexivity].
      destruct (BrowserAutomation.script_runs host); simpl; [|reflexivity].
      destruct H as [-> | ->]; reflexivity.
Qed.

(** C9 (as amended). For a request marked for the browser: when the
    collaborator returns a non-empty page, the fetch makes no attempt on
    the lightweight path and returns the page as a response with status
    200; when the collaborator is missing, cannot start, fails to load
    the page or returns an empty one, the fetch does not return an error
    of its own: it goes on to the lightweight retry path and returns
    whatever that path returns. *)
Theorem browser_fallback_paths :
  forall (retries : nat) (delay : Z) (host : BrowserAutomation.Host)
    (session : Session) (self : Scraper) (url method : string),
    let run := fetch_with_retry_with retries delay host session self url method true in
    let loop := retry_loop retries delay session method url retries 0 in
    match Specified.rendered_page host self url true with
    | Some page =>
        outcome run = Ok (Some {| status_code := 200; text := page |}) /\
        trace run = [BrowserGet url] /\
        attempts (trace run) = 0
    | None =>
        outcome run = snd loop /\
        attempts (trace run) = attempts (fst loop) /\
        sleeps (trace run) = sleeps (fst loop) /\
        logged_errors (trace run) = logged_errors (fst loop)
    end /\
    (browser self = None ->
     Specified.rendered_page host self url true = None) /\
    (forall b, browser self = Some b -> BrowserAutomation.driver b = false ->
       BrowserAutomation.SELENIUM_AVAILABLE host = false \/
       BrowserAutomation.chrome_starts host = false \/
       BrowserAutomation.script_runs host = false ->
       Specified.rendered_page host self url true = None) /\
    (forall b, browser self = Some b ->
       BrowserAutomation.page_source host url = None \/
       BrowserAutomation.page_source host url = Some EmptyString ->
       Specified.rendered_page host self url true = None).
Proof.
  intros retries delay host session self url method run loop.
  split; [|apply rendered_page_unavailable].
  pose proof (fetch_with_retry_paths retries delay host session self url method true)
    as Hpaths.
  cbv zeta in Hpaths. fold run loop in Hpaths.
  destruct (Specified.rendered_page host self url true) as [page|].
  - destruct Hpaths as [Ho Ht]. rewrite Ho, Ht. repeat split.
  - tauto.
Qed.

(** C9, the claim as stated fails: the request is marked for the
    browser and the browser cannot start, yet the fetch returns the
    response of the lightweight path, not a fetch error. *)
Lemma browser_unavailable_falls_back :
  let run := fetch_with_retry Examples.no_selenium (Examples.always 200)
               Examples.scraper "https://pypi.org/project/examplepkg/" "get" true in
  Specified.rendered_page Examples.no_selenium Examples.scraper
    "https://pypi.org/project/examplepkg/" true = None /\
  outcome run = Ok (Some {| status_code := 200; text := "" |}) /\
  attempts (trace run) = 1.
Proof.
  cbv zeta. repeat split; reflexivity.
Qed.

(** C10 (as amended). [fetch_with_retry] raises past its boundary
    exactly when the method is neither [get] nor [post] (in any letter
    case) and the retry loop is entered, that is, unless the browser
    fallback has returned a page: then a [ValueError] escapes on the
    first turn of the loop, before any request. With [get] or [post] the
    call always returns a response or [None]; with a page from the
    browser it returns that page whatever the method. *)
Theorem fetch_raises_for_unsupported_method :
  forall (host : BrowserAutomation.Host) (session : Session) (self : Scraper)
    (url method : string) (use_browser : bool),
    let run := fetch_with_retry host session self url method use_browser in
    (raises (outcome run) = true <->
     Specified.supported method = false /\
     Specified.rendered_page host self url use_browser = None) /\
    (raises (outcome run) = true ->
     outcome run = Raise (ValueError ("Unsupported HTTP method: " ++ method)%string) /\
     attempts (trace run) = 0) /\
    (Specified.supported method = true -> exists r, outcome run = Ok r) /\
    (forall page, Specified.rendered_page host self url use_browser = Some page ->
                  outcome run = Ok (Some (mock_response page))).
Proof.
  intros host session self url method use_browser run.
  pose proof (fetch_with_retry_paths REQUEST_RETRIES REQUEST_RETRY_DELAY host session
                self url method use_browser) as Hpaths.
  cbv zeta in Hpaths. fold (fetch_with_retry host session self url method use_browser) in Hpaths.
  fold run in Hpaths.
  assert (Hcases :
    match Specified.rendered_page host self url use_browser with
    | Some page => outcome run = Ok (Some (mock_response page))
    | None =>
        if Specified.supported method
        then exists r, outcome run = Ok r
        else outcome run = Raise (ValueError ("Unsupported HTTP method: " ++ method)%string)
             /\ attempts (trace run) = 0
    end).
  { destruct (Specified.rendered_page host self url use_browser) as [page|].
    - apply Hpaths.
    - destruct Hpaths as (Ho & Ha & _).
      destruct (Specified.supported method) eqn:Hm.
      + pose proof (retry_loop_no_raise REQUEST_RETRIES REQUEST_RETRY_DELAY session
                      method url Hm REQUEST_RETRIES 0) as Hn.
        rewrite <- Ho in Hn. destruct (outcome run) as [r|e]; [eauto|discriminate].
      + unfold REQUEST_RETRIES in Ho, Ha.
        rewrite (retry_loop_unsupported _ _ _ _ _ _ _ Hm) in Ho, Ha.
        simpl in Ho, Ha. auto. }
  destruct (Specified.rendered_page host self url use_browser) as [page|].
  - rewrite Hcases. simpl. split; [split; [discriminate|intros [_ H]; discriminate]|].
    split; [discriminate|]. split; [eauto|]. now intros p [= <-].
  - destruct (Specified.supported method).
    + destruct Hcases as [r Hr]. rewrite Hr. simpl.
      split; [split; [discriminate|intros [H _]; discriminate]|].
      split; [discriminate|]. split; [eauto|discriminate].
    + destruct Hcases as [Ho Ha]. rewrite Ho. simpl.
      split; [tauto|]. split; [auto|]. split; discriminate.
Qed.

(** C10, the claim as stated fails: with the method [put] and a page
    from the browser, [fetch_with_retry] raises nothing and returns the
    page. *)
Lemma unsupported_method_with_browser_page :
  let run := fetch_with_retry Examples.working_browser (Examples.always 200)
               Examples.scraper "https://pypi.org/project/examplepkg/" "put" true in
  Specified.supported "put" = false /\
  raises (outcome run) = false /\
  outcome run = Ok (Some {| status_code := 200; text := "<html>" |}).
Proof.
  cbv zeta. repeat split; reflexivity.
Qed.

(** ** The pipeline of one package *)

Lemma retry_loop_concerns (retries : nat) (delay : Z) (session : Session)
  (method url : string) :
  forall remaining attempt,
    Forall (fun e => Specified.concerns url e = true)
      (fst (retry_loop retries delay session method url remaining attempt)).
Proof.
  induction remaining as [|remaining IH]; intros attempt; simpl; [constructor|].
  assert (Hreq : Specified.concerns url (Request method url) = true)
    by (simpl; apply String.eqb_refl).
  destruct (attempt_once session method attempt) as [[r|cause]|e]; simpl.
  - repeat constructor. exact Hreq.
  - destruct (attempt <? retries - 1)%nat.
    + specialize (IH (S attempt)).
      destruct (retry_loop retries delay session method url remaining (S attempt)).
      simpl in *. repeat (constructor; [first [exact Hreq|reflexivity]|]). exact IH.
    + repeat constructor. exact Hreq.
  - constructor.
Qed.

Lemma fetch_without_browser (host : BrowserAutomation.Host) (session : Session)
  (self : Scraper) (url method : string) :
  let run := fetch_with_retry host session self url method false in
  let loop := retry_loop REQUEST_RETRIES REQUEST_RETRY_DELAY session method url
                REQUEST_RETRIES 0 in
  trace run = fst loop /\ outcome run = snd loop /\ after run = self.
Proof.
  unfold fetch_with_retry, fetch_with_retry_with. cbv zeta.
  destruct (retry_loop REQUEST_RETRIES REQUEST_RETRY_DELAY session method url
              REQUEST_RETRIES 0). simpl. auto.
Qed.

Lemma later_stages_keep (w : World) (self : Scraper) (package_name : string)
  (package : PackageInfo) :
  let result := outcome (later_stages w self package_name package) in
  name result = name package /\
  version result = version package /\
  error result = error package.
Proof.
  unfold later_stages. cbv zeta.
  destruct (github_url _) as [url|]; [destruct (PyStr.truthy url)|];
    simpl; auto.
Qed.

Lemma fetch_package_info_name {K : Type} (lib : Parsers K) (w : World)
  (self : Scraper) (package_name : string) :
  name (outcome (fetch_package_info lib w self package_name)) = package_name.
Proof.
  unfold fetch_package_info. cbv zeta.
  destruct (outcome (fetch_with_retry _ _ _ _ _ _)) as [[response|]|e];
    try reflexivity.
  destruct (json_document w (text response)) as [data|e]; [|reflexivity].
  pose proof (from_pypi_json_fst lib (Record.__init__ package_name) data)
    as (_ & _ & _ & _ & Hn & _).
  destruct (from_pypi_json lib (Record.__init__ package_name) data) as [package [u|e]];
    simpl in *.
  - destruct (later_stages_keep w (after (fetch_with_retry (host w)
        (session w (primary_url package_name)) self (primary_url package_name)
        "get" false)) package_name package) as (H & _). rewrite H. exact Hn.
  - exact Hn.
Qed.




(** ** The bulk run *)

Lemma analyze_single_package_name {K : Type} (lib : Parsers K) (w : World)
  (self : Scraper) (package_name : string) (include_source_analysis : bool) :
  name (_analyze_single_package lib w self package_name include_source_analysis) =
  package_name.
Proof.
  unfold _analyze_single_package, single_package_pipeline.
  pose proof (fetch_package_info_name lib w self package_name) as Hn.
  destruct (no_error _ && include_source_analysis); [|exact Hn].
  destruct (analyze_package_source w package_name _); simpl; [exact Hn|reflexivity].
Qed.

Lemma collect_all (output_format : string) (packages : list PackageInfo) :
  forall acc,
    results (fold_left (collect output_format) packages acc) =
      results acc ++ packages /\
    progress (fold_left (collect output_format) packages acc) =
      progress acc + List.length packages.
Proof.
  induction packages as [|p rest IH]; intros acc; simpl.
  - now rewrite app_nil_r, Nat.add_0_r.
  - destruct (IH (collect output_format acc p)) as [H1 H2].
    rewrite H1, H2. simpl. rewrite <- app_assoc. split; [reflexivity|lia].
Qed.

Lemma as_completed_in_order {A : Type} (done futures : list A) :
  as_completed (seq (List.length done) (List.length futures)) (done ++ futures) =
  futures.
Proof.
  revert done. induction futures as [|f rest IH]; intros done; [reflexivity|].
  unfold as_completed in *. simpl.
  rewrite nth_error_app2, Nat.sub_diag by lia. simpl. f_equal.
  specialize (IH (done ++ [f])).
  rewrite length_app, <- app_assoc in IH. simpl in IH.
  now rewrite Nat.add_1_r in IH.
Qed.

Lemma as_completed_perm {A : Type} (order : list nat) (futures : list A) :
  Permutation order (seq 0 (List.length futures)) ->
  Permutation (as_completed order futures) futures.
Proof.
  intros Hp. rewrite <- (as_completed_in_order [] futures) at 2.
  unfold as_completed. now apply Permutation_flat_map.
Qed.

Lemma as_completed_filter {A B : Type} (keep : B -> bool) (f g : A -> B)
  (order : list nat) (l : list A) :
  (forall a, In a l -> keep (f a) = true \/ keep (g a) = true -> f a = g a) ->
  filter keep (as_completed order (map f l)) =
  filter keep (as_completed order (map g l)).
Proof.
  intros H. unfold as_completed.
  induction order as [|i order IH]; [reflexivity|]. simpl.
  rewrite !filter_app, IH. f_equal.
  rewrite !nth_error_map.
  destruct (nth_error l i) as [a|] eqn:E; [|reflexivity]. simpl.
  apply nth_error_In in E. specialize (H a E).
  destruct (keep (f a)) eqn:Ef.
  - rewrite <- H by auto. now rewrite Ef.
  - destruct (keep (g a)) eqn:Eg; [|reflexivity].
    rewrite H in Ef by auto. congruence.
Qed.



(** * Further properties of the source *)

Import Observed.

(** ** The retry loop, for every session *)

Lemma retry_loop_unsupported_any (retries : nat) (delay : Z) (session : Session)
  (method url : string) (remaining attempt : nat) :
  Specified.supported method = false ->
  fst (retry_loop retries delay session method url remaining attempt) = [].
Proof.
  intros H. destruct remaining as [|remaining]; [reflexivity|].
  now rewrite (retry_loop_unsupported _ _ _ _ _ _ _ H).
Qed.

Lemma retry_loop_step (retries : nat) (delay : Z) (session : Session)
  (method url : string) (remaining attempt : nat) :
  retry_loop retries delay session method url (S remaining) attempt =
  match attempt_once session method attempt with
  | Raise e => ([], Raise e)
  | Ok (inl response) => ([Request method url], Ok (Some response))
  | Ok (inr cause) =>
      if (attempt <? retries - 1)%nat then
        let (rest, result) :=
          retry_loop retries delay session method url remaining (S attempt) in
        (Request method url :: LogDebug cause
           :: Sleep (delay * (Z.of_nat attempt + 1)) :: UpdateHeaders :: rest,
         result)
      else ([Request method url; LogError cause], Ok None)
  end.
Proof. reflexivity. Qed.

Lemma retry_loop_effort (retries : nat) (delay : Z) (session : Session)
  (method url : string) :
  Specified.supported method = true ->
  forall remaining attempt,
    S remaining + attempt = retries ->
    let run := retry_loop retries delay session method url (S remaining) attempt in
    (exists n,
       attempts (fst run) = S n /\ n <= remaining /\
       sleeps (fst run) = map (fun k => (delay * Z.of_nat k)%Z) (seq (S attempt) n) /\
       rotations (fst run) = n) /\
    List.length (logged_errors (fst run)) <= 1 /\
    (logged_errors (fst run) <> [] -> snd run = Ok None).
Proof.
  intros Hm. induction remaining as [|remaining IH]; intros attempt Hsum; cbv zeta.
  - rewrite retry_loop_step, (attempt_once_supported _ _ _ Hm).
    replace (attempt <? retries - 1)%nat with false
      by (symmetry; apply Nat.ltb_ge; lia).
    destruct (session attempt) as [r|msg]; [destruct (raise_for_status r)|];
      simpl; (split; [exists 0; repeat split; lia|]); split; auto; try lia;
      intros H; now destruct H.
  - rewrite retry_loop_step, (attempt_once_supported _ _ _ Hm).
    replace (attempt <? retries - 1)%nat with true
      by (symmetry; apply Nat.ltb_lt; lia).
    specialize (IH (S attempt) ltac:(lia)). cbv zeta in IH.
    destruct (retry_loop retries delay session method url (S remaining) (S attempt))
      as [rest result]. simpl in IH.
    destruct IH as ((n & H1 & H2 & H3 & H4) & H5 & H6).
    assert (Hfail : forall cause,
      (exists n0,
         attempts (Request method url :: LogDebug cause
                     :: Sleep (delay * (Z.of_nat attempt + 1)) :: UpdateHeaders :: rest)
           = S n0 /\ n0 <= S remaining /\
         sleeps (Request method url :: LogDebug cause
                   :: Sleep (delay * (Z.of_nat attempt + 1)) :: UpdateHeaders :: rest)
           = map (fun k => (delay * Z.of_nat k)%Z) (seq (S attempt) n0) /\
         rotations (Request method url :: LogDebug cause
                      :: Sleep (delay * (Z.of_nat attempt + 1)) :: UpdateHeaders :: rest)
           = n0) /\
      List.length (logged_errors (Request method url :: LogDebug cause
                     :: Sleep (delay * (Z.of_nat attempt + 1)) :: UpdateHeaders :: rest))
        <= 1 /\
      (logged_errors (Request method url :: LogDebug cause
                     :: Sleep (delay * (Z.of_nat attempt + 1)) :: UpdateHeaders :: rest)
         <> [] -> result = Ok None)).
    { intros cause. split; [|split; [exact H5|exact H6]].
      exists (S n). unfold attempts, rotations in *. simpl. rewrite H1, H3, H4.
      repeat split; try lia. f_equal. f_equal. lia. }
    destruct (session attempt) as [r|msg]; [destruct (raise_for_status r)|];
      cbn [fst snd].
    + apply Hfail.
    + simpl. split; [exists 0; repeat split; lia|]. split; [lia|].
      intros H; now destruct H.
    + apply Hfail.
Qed.

Lemma retry_loop_effort_any (retries : nat) (delay : Z) (session : Session)
  (method url : string) :
  let loop := retry_loop retries delay session method url retries 0 in
  attempts (fst loop) <= retries /\
  browser_loads (fst loop) = 0 /\
  (exists n,
     n <= retries - 1 /\
     sleeps (fst loop) = Specified.backoff delay n /\
     rotations (fst loop) = n /\
     (attempts (fst loop) = 0 /\ n = 0 \/ attempts (fst loop) = S n)) /\
  List.length (logged_errors (fst loop)) <= 1 /\
  (logged_errors (fst loop) <> [] -> snd loop = Ok None).
Proof.
  cbv zeta.
  assert (Hb : browser_loads
                 (fst (retry_loop retries delay session method url retries 0)) = 0).
  { pose proof (retry_loop_concerns retries delay session method url retries 0) as Hc.
    unfold browser_loads.
    induction (fst (retry_loop retries delay session method url retries 0))
      as [|e t IH]; [reflexivity|].
    apply Forall_cons_iff in Hc as [He Ht]. simpl.
    destruct e; simpl in *; try discriminate; auto. }
  split; [|split; [exact Hb|]].
  - destruct (Specified.supported method) eqn:Hm.
    + destruct retries as [|remaining]; [unfold attempts; simpl; lia|].
      destruct (retry_loop_effort (S remaining) delay session method url Hm
                  remaining 0 ltac:(lia)) as ((n & H1 & H2 & _) & _). lia.
    + rewrite (retry_loop_unsupported_any _ _ _ _ _ _ _ Hm). unfold attempts. simpl. lia.
  - destruct (Specified.supported method) eqn:Hm.
    + destruct retries as [|remaining].
      * unfold attempts, rotations. simpl. split; [|split; [lia|]].
        -- exists 0. repeat split; auto.
        -- intros H; now destruct H.
      * destruct (retry_loop_effort (S remaining) delay session method url Hm
                    remaining 0 ltac:(lia)) as ((n & H1 & H2 & H3 & H4) & H5 & H6).
        split; [|split; assumption].
        exists n. split; [lia|]. split; [exact H3|]. split; [exact H4|now right].
    + rewrite (retry_loop_unsupported_any _ _ _ _ _ _ _ Hm).
      unfold attempts, rotations. simpl. split; [|split; [lia|]].
      * exists 0. repeat split; auto; lia.
      * intros H; now destruct H.
Qed.

(** X1. Whatever the servers answer and whatever the method, a fetch
    makes at most [maxAttempts] requests and at most one browser load; its
    waits are the first [n] of the schedule [baseDelay x 1, baseDelay x 2,
    ...] for some [n < maxAttempts], one more request than waits is made
    (or none at all), the identity is rotated once per wait, and at most
    one error is logged, only by a fetch that returns [None]. *)
Theorem fetch_effort_is_bounded :
  forall (retries : nat) (delay : Z) (host : BrowserAutomation.Host)
    (session : Session) (self : Scraper) (url method : string) (use_browser : bool),
    let run := fetch_with_retry_with retries delay host session self url method
                 use_browser in
    attempts (trace run) <= retries /\
    browser_loads (trace run) <= 1 /\
    (exists n,
       n <= retries - 1 /\
       sleeps (trace run) = Specified.backoff delay n /\
       rotations (trace run) = n /\
       (attempts (trace run) = 0 /\ n = 0 \/ attempts (trace run) = S n)) /\
    List.length (logged_errors (trace run)) <= 1 /\
    (logged_errors (trace run) <> [] -> outcome run = Ok None).
Proof.
  intros retries delay host session self url method use_browser run.
  pose proof (retry_loop_effort_any retries delay session method url) as Hloop.
  cbv zeta in Hloop. destruct Hloop as (Ha & Hb & Hs & Hl & He).
  pose proof (fetch_with_retry_paths retries delay host session self url method
                use_browser) as Hpaths.
  cbv zeta in Hpaths. fold run in Hpaths.
  destruct (Specified.rendered_page host self url use_browser) as [page|].
  - destruct Hpaths as [Ho Ht]. rewrite Ht. unfold attempts, browser_loads, rotations.
    simpl. split; [lia|]. split; [lia|]. split; [|split; [lia|]].
    + exists 0. repeat split; auto; lia.
    + intros H; now destruct H.
  - destruct Hpaths as (Ho & Ha' & Hs' & Hl' & Ht).
    assert (Hr : rotations (trace run) =
                 rotations (fst (retry_loop retries delay session method url retries 0))
                 /\ browser_loads (trace run) <= 1).
    { destruct Ht as [-> | ->]; unfold rotations, browser_loads in *; simpl;
        rewrite ?Hb; auto. }
    destruct Hr as [Hr Hbl]. rewrite Ho, Ha', Hs', Hl', Hr. auto.
Qed.

(** ** The answer a fetch returns *)

Lemma attempts_retry_round (method url : string) (cause : RequestException)
  (d : Z) (rest : list Event) :
  attempts (Request method url :: LogDebug cause :: Sleep d :: UpdateHeaders :: rest) =
  S (attempts rest).
Proof. reflexivity. Qed.

Lemma retry_loop_first_response (retries : nat) (delay : Z) (session : Session)
  (method url : string) :
  Specified.supported method = true ->
  forall remaining attempt,
    remaining + attempt = retries ->
    snd (retry_loop retries delay session method url remaining attempt) =
      Ok (option_map snd (first_response session remaining attempt)) /\
    attempts (fst (retry_loop retries delay session method url remaining attempt)) =
      match first_response session remaining attempt with
      | Some (k, _) => S k - attempt
      | None => remaining
      end /\
    match first_response session remaining attempt with
    | Some (k, r) =>
        attempt <= k < retries /\ session k = Responds r /\ raise_for_status r = None /\
        forall i, attempt <= i < k -> Specified.fails (session i) = true
    | None => forall i, attempt <= i < retries -> Specified.fails (session i) = true
    end.
Proof.
  intros Hm. induction remaining as [|remaining IH]; intros attempt Hsum.
  - simpl. repeat split. intros i Hi. lia.
  - rewrite retry_loop_step, (attempt_once_supported _ _ _ Hm). cbn [first_response].
    specialize (IH (S attempt) ltac:(lia)).
    assert (Hrec : forall cause,
      Specified.failure_of (session attempt) = Some cause ->
      let step :=
        if (attempt <? retries - 1)%nat then
          let (rest, result) :=
            retry_loop retries delay session method url remaining (S attempt) in
          (Request method url :: LogDebug cause
             :: Sleep (delay * (Z.of_nat attempt + 1)) :: UpdateHeaders :: rest, result)
        else ([Request method url; LogError cause], Ok None) in
      snd step = Ok (option_map snd (first_response session remaining (S attempt))) /\
      attempts (fst step) =
        match first_response session remaining (S attempt) with
        | Some (k, _) => S k - attempt
        | None => S remaining
        end /\
      match first_response session remaining (S attempt) with
      | Some (k, r) =>
          attempt <= k < retries /\ session k = Responds r /\
          raise_for_status r = None /\
          forall i, attempt <= i < k -> Specified.fails (session i) = true
      | None => forall i, attempt <= i < retries -> Specified.fails (session i) = true
      end).
    { intros cause Hc. cbv zeta.
      assert (Hfa : Specified.fails (session attempt) = true)
        by (unfold Specified.fails; now rewrite Hc).
      destruct (attempt <? retries - 1)%nat eqn:Hnext.
      - destruct (retry_loop retries delay session method url remaining (S attempt))
          as [rest result]. cbn [fst snd] in *.
        destruct IH as (H1 & H2 & H3). split; [exact H1|].
        destruct (first_response session remaining (S attempt)) as [[k r]|].
        + destruct H3 as (Hk & Hs & Hr & Hf). split.
          * rewrite attempts_retry_round, H2. lia.
          * repeat split; try assumption; try lia.
            intros i Hi. destruct (Nat.eq_dec i attempt) as [->|]; [exact Hfa|].
            apply Hf. lia.
        + split.
          * now rewrite attempts_retry_round, H2.
          * intros i Hi. destruct (Nat.eq_dec i attempt) as [->|]; [exact Hfa|].
            apply H3. lia.
      - apply Nat.ltb_ge in Hnext. assert (remaining = 0) by lia. subst remaining.
        simpl. repeat split.
        intros i Hi. replace i with attempt by lia. exact Hfa. }
    destruct (session attempt) as [r|msg] eqn:Es.
    + destruct (raise_for_status r) as [cause|] eqn:Er.
      * apply Hrec. simpl. exact Er.
      * cbn [fst snd option_map]. split; [reflexivity|].
        split; [change (attempts [Request method url]) with 1; lia|].
        repeat split; try assumption; try lia.
    + apply (Hrec (TransportError msg)). reflexivity.
Qed.

(** X2. With the method [get] or [post] and no page from the browser, a
    fetch returns the first of the first [maxAttempts] answers that is a
    response without an error status, after exactly as many requests as
    it took to get it; it returns [None], after [maxAttempts] requests,
    exactly when each of those answers is a failure. *)
Theorem fetch_returns_first_response :
  forall (retries : nat) (delay : Z) (host : BrowserAutomation.Host)
    (session : Session) (self : Scraper) (url method : string) (use_browser : bool),
    Specified.supported method = true ->
    Specified.rendered_page host self url use_browser = None ->
    let run := fetch_with_retry_with retries delay host session self url method
                 use_browser in
    outcome run = Ok (option_map snd (first_response session retries 0)) /\
    attempts (trace run) =
      match first_response session retries 0 with
      | Some (k, _) => S k
      | None => retries
      end /\
    (forall r, outcome run = Ok (Some r) <->
       exists k, k < retries /\ session k = Responds r /\ raise_for_status r = None /\
                 forall i, i < k -> Specified.fails (session i) = true) /\
    (outcome run = Ok None <->
     forall i, i < retries -> Specified.fails (session i) = true).
Proof.
  intros retries delay host session self url method use_browser Hm Hpage run.
  pose proof (fetch_with_retry_paths retries delay host session self url method
                use_browser) as Hpaths.
  cbv zeta in Hpaths. rewrite Hpage in Hpaths.
  destruct Hpaths as (Ho & Ha & _). fold run in Ho, Ha.
  destruct (retry_loop_first_response retries delay session method url Hm retries 0
              ltac:(lia)) as (H1 & H2 & H3).
  rewrite Ho, Ha, H1, H2.
  assert (Hfirst : forall k r,
    k < retries -> session k = Responds r -> raise_for_status r = None ->
    (forall i, i < k -> Specified.fails (session i) = true) ->
    first_response session retries 0 = Some (k, r)).
  { intros k r Hk Hs Hr Hf.
    destruct (first_response session retries 0) as [[k' r']|].
    - destruct H3 as (Hk' & Hs' & Hr' & Hf').
      destruct (Nat.lt_trichotomy k k') as [Hlt|[Heq|Hgt]].
      + specialize (Hf' k ltac:(lia)). unfold Specified.fails in Hf'.
        rewrite Hs in Hf'. simpl in Hf'. rewrite Hr in Hf'. discriminate.
      + subst k'. rewrite Hs in Hs'. now injection Hs' as <-.
      + specialize (Hf k' Hgt). unfold Specified.fails in Hf.
        rewrite Hs' in Hf. simpl in Hf. rewrite Hr' in Hf. discriminate.
    - specialize (H3 k ltac:(lia)). unfold Specified.fails in H3.
      rewrite Hs in H3. simpl in H3. rewrite Hr in H3. discriminate. }
  split; [reflexivity|]. split.
  { destruct (first_response session retries 0) as [[k r]|]; lia. }
  split.
  - intros r. split.
    + destruct (first_response session retries 0) as [[k r']|]; [|discriminate].
      simpl. intros [= <-]. destruct H3 as (Hk & Hs & Hr & Hf).
      exists k. repeat split; try assumption; try lia. intros i Hi. apply Hf. lia.
    + intros (k & Hk & Hs & Hr & Hf). now rewrite (Hfirst k r Hk Hs Hr Hf).
  - split.
    + destruct (first_response session retries 0) as [[k r]|]; [discriminate|].
      intros _ i Hi. apply H3. lia.
    + intros Hall. destruct (first_response session retries 0) as [[k r]|];
        [|reflexivity].
      destruct H3 as (Hk & Hs & Hr & _). specialize (Hall k ltac:(lia)).
      unfold Specified.fails in Hall. rewrite Hs in Hall. simpl in Hall.
      rewrite Hr in Hall. discriminate.
Qed.

(** The session that recovers on its third answer, and the one that
    never does. *)
Lemma fetch_returns_first_response_witness :
  Specified.supported "get" = true /\
  Specified.rendered_page Examples.no_selenium Examples.scraper
    "https://pypistats.org/api/packages/examplepkg/recent" false = None /\
  let fetch session :=
    fetch_with_retry Examples.no_selenium session Examples.scraper
      "https://pypistats.org/api/packages/examplepkg/recent" "get" false in
  outcome (fetch (Examples.recovering 2)) =
    Ok (Some {| status_code := 200; text := "ok" |}) /\
  attempts (trace (fetch (Examples.recovering 2))) = 3 /\
  outcome (fetch (Examples.recovering 3)) = Ok None /\
  attempts (trace (fetch (Examples.recovering 3))) = 3.
Proof.
  split; [reflexivity|]. split; [reflexivity|]. cbv zeta.
  destruct (fetch_returns_first_response REQUEST_RETRIES REQUEST_RETRY_DELAY
              Examples.no_selenium (Examples.recovering 2) Examples.scraper
              "https://pypistats.org/api/packages/examplepkg/recent" "get" false
              eq_refl eq_refl) as (H1 & H2 & _).
  destruct (fetch_returns_first_response REQUEST_RETRIES REQUEST_RETRY_DELAY
              Examples.no_selenium (Examples.recovering 3) Examples.scraper
              "https://pypistats.org/api/packages/examplepkg/recent" "get" false
              eq_refl eq_refl) as (H3 & H4 & _).
  split; [exact H1|]. split; [exact H2|]. split; [exact H3|exact H4].
Defined.

(** ** The browser's driver *)

(** X3. The browser keeps its driver once Chrome has started: a browser
    with a driver loads the page without initialising again, whatever the
    host's flags; a fresh browser returns a page only if selenium is
    there, Chrome starts and the stealth script runs. When Chrome starts
    but the script fails, that fetch returns nothing yet leaves the driver
    set, so the next fetch loads pages with it. After [close] the browser
    is as new. *)
Theorem browser_driver_lifecycle :
  forall (host : BrowserAutomation.Host) (self : BrowserAutomation.t) (url : string),
    let fetched := BrowserAutomation.fetch_with_browser host self url in
    (BrowserAutomation.driver self = true ->
     fetched = (self, BrowserAutomation.page_source host url)) /\
    (BrowserAutomation.driver self = true ->
     BrowserAutomation.driver (fst fetched) = true) /\
    (BrowserAutomation.driver self = false ->
     forall page, snd fetched = Some page ->
       BrowserAutomation.SELENIUM_AVAILABLE host = true /\
       BrowserAutomation.chrome_starts host = true /\
       BrowserAutomation.script_runs host = true /\
       BrowserAutomation.page_source host url = Some page /\
       BrowserAutomation.driver (fst fetched) = true) /\
    (BrowserAutomation.driver self = false ->
     BrowserAutomation.SELENIUM_AVAILABLE host = true ->
     BrowserAutomation.chrome_starts host = true ->
     BrowserAutomation.script_runs host = false ->
     snd fetched = None /\
     forall url',
       BrowserAutomation.fetch_with_browser host (fst fetched) url' =
       (fst fetched, BrowserAutomation.page_source host url')) /\
    BrowserAutomation.driver (Browser.close self) = false /\
    BrowserAutomation.fetch_with_browser host (Browser.close (fst fetched)) url =
    BrowserAutomation.fetch_with_browser host BrowserAutomation.__init__ url.
Proof.
  intros host [driver] url. unfold BrowserAutomation.fetch_with_browser,
    BrowserAutomation.initialize, Browser.close. simpl.
  destruct driver; simpl.
  - repeat split; try discriminate; auto.
  - destruct (BrowserAutomation.SELENIUM_AVAILABLE host) eqn:Es; simpl;
      destruct (BrowserAutomation.chrome_starts host) eqn:Ec; simpl;
      destruct (BrowserAutomation.script_runs host) eqn:Er; simpl;
      repeat split; try discriminate; auto; try (intros; discriminate);
      try (intros _ page [= ->]; auto).
Qed.

(** ** The release date *)

Lemma first_upload_date_spec (format_date : string -> option string)
  (files : list ReleaseFile) (d : string) :
  first_upload_date format_date files = Some d <->
  exists before f after t,
    files = before ++ f :: after /\
    upload_time_iso_8601 f = Some t /\ format_date t = Some d /\
    Forall (fun g => match upload_time_iso_8601 g with
                     | Some t' => format_date t' = None
                     | None => True
                     end) before.
Proof.
  induction files as [|f files IH]; simpl.
  - split; [discriminate|]. intros (before & f & after & t & H & _).
    destruct before; discriminate.
  - destruct (upload_time_iso_8601 f) as [t|] eqn:Et;
      [destruct (format_date t) as [d'|] eqn:Ef|].
    + split.
      * intros [= ->]. exists [], f, files, t. repeat split; auto.
      * intros (before & g & after & t' & H & Hu & Hd & Hb).
        destruct before as [|b before]; simpl in H; injection H as H1 H2; subst.
        -- rewrite Et in Hu. injection Hu as <-. congruence.
        -- apply Forall_inv in Hb. rewrite Et in Hb. congruence.
    + rewrite IH. split.
      * intros (before & g & after & t' & -> & Hu & Hd & Hb).
        exists (f :: before), g, after, t'. repeat split; auto.
        constructor; [now rewrite Et|exact Hb].
      * intros (before & g & after & t' & H & Hu & Hd & Hb).
        destruct before as [|b before]; simpl in H; injection H as H1 H2; subst.
        -- rewrite Et in Hu. injection Hu as <-. congruence.
        -- exists before, g, after, t'. repeat split; auto.
           now apply Forall_inv_tail in Hb.
    + rewrite IH. split.
      * intros (before & g & after & t' & -> & Hu & Hd & Hb).
        exists (f :: before), g, after, t'. repeat split; auto.
        constructor; [now rewrite Et|exact Hb].
      * intros (before & g & after & t' & H & Hu & Hd & Hb).
        destruct before as [|b before]; simpl in H; injection H as H1 H2; subst.
        -- congruence.
        -- exists before, g, after, t'. repeat split; auto.
           now apply Forall_inv_tail in Hb.
Qed.


(** ** The fallback comparator *)

Lemma all_digits_snoc (cur : string) (c : ascii) :
  PyStr.all_digits (PyStr.snoc cur c) = PyStr.all_digits cur && PyStr.is_digit c.
Proof.
  induction cur as [|a cur IH]; simpl.
  - now rewrite andb_true_r.
  - unfold PyStr.snoc in IH. rewrite IH. now rewrite andb_assoc.
Qed.

Lemma snoc_not_empty (cur : string) (c : ascii) : PyStr.snoc cur c <> EmptyString.
Proof. destruct cur; discriminate. Qed.

Lemma isdigit_snoc (cur : string) (c : ascii) :
  PyStr.isdigit (PyStr.snoc cur c) = PyStr.all_digits cur && PyStr.is_digit c.
Proof.
  unfold PyStr.isdigit. rewrite <- all_digits_snoc.
  pose proof (snoc_not_empty cur c). now destruct (PyStr.snoc cur c).
Qed.

Lemma int_acc_snoc (cur : string) (c : ascii) (acc : N) :
  PyStr.int_acc acc (PyStr.snoc cur c) =
  (10 * PyStr.int_acc acc cur + N.of_nat (nat_of_ascii c - 48))%N.
Proof.
  revert acc. induction cur as [|a cur IH]; intros acc; simpl; [reflexivity|].
  unfold PyStr.snoc in IH. apply IH.
Qed.

Lemma fallback_pieces (s : string) :
  (forall cur,
     PyStr.all_digits cur = true -> cur <> EmptyString ->
     map (fun p => if PyStr.isdigit p then Num (PyStr.int p) else Inf)
       (PyStr.re_split_from s cur true) =
     flat_map (fun n => [Num n; Inf]) (numbers_from s (Some (PyStr.int cur)))) /\
  (forall cur,
     PyStr.isdigit cur = false ->
     map (fun p => if PyStr.isdigit p then Num (PyStr.int p) else Inf)
       (PyStr.re_split_from s cur false) =
     Inf :: flat_map (fun n => [Num n; Inf]) (numbers_from s None)).
Proof.
  induction s as [|c s [IHd IHt]].
  - split; intros cur; simpl.
    + intros Ha Hn. unfold PyStr.isdigit. destruct cur; [now destruct Hn|].
      now rewrite Ha.
    + now intros ->.
  - split; intros cur.
    + intros Ha Hn. cbn [PyStr.re_split_from numbers_from].
      destruct (PyStr.is_digit c) eqn:Ec.
      * rewrite IHd.
        -- unfold PyStr.int. now rewrite int_acc_snoc.
        -- now rewrite all_digits_snoc, Ha, Ec.
        -- apply snoc_not_empty.
      * cbn [map]. rewrite IHt by (simpl; now rewrite Ec).
        assert (Hd : PyStr.isdigit cur = true)
          by (unfold PyStr.isdigit; destruct cur; [now destruct Hn|exact Ha]).
        now rewrite Hd.
    + intros Ht. cbn [PyStr.re_split_from numbers_from].
      destruct (PyStr.is_digit c) eqn:Ec.
      * cbn [map]. rewrite Ht, IHd.
        -- reflexivity.
        -- simpl. now rewrite Ec.
        -- discriminate.
      * apply IHt. rewrite isdigit_snoc, Ec. apply andb_false_r.
Qed.

Lemma fallback_key_numbers (s : string) :
  fallback_key s = Inf :: flat_map (fun n => [Num n; Inf]) (numbers s).
Proof.
  unfold fallback_key, PyStr.re_split_digits, numbers.
  now apply (proj2 (fallback_pieces s)).
Qed.

Lemma key_lt_numbers (a b : list N) :
  key_lt (Inf :: flat_map (fun n => [Num n; Inf]) a)
         (Inf :: flat_map (fun n => [Num n; Inf]) b) = lex_lt a b.
Proof.
  revert b. induction a as [|x a IH]; intros [|y b]; try reflexivity.
  specialize (IH b). cbn [flat_map app key_lt token_lt lex_lt] in *.
  destruct (x <? y)%N; [reflexivity|]. destruct (y <? x)%N; [reflexivity|].
  exact IH.
Qed.


(** ** The reports of a bulk run *)

Lemma collect_saved (output_format : string) (packages : list PackageInfo) :
  forall acc,
    saved_reports (fold_left (collect output_format) packages acc) =
    saved_reports acc ++
    map (fun p => (name p, version p, output_format)) (filter no_error packages).
Proof.
  induction packages as [|p rest IH]; intros acc; simpl.
  - now rewrite app_nil_r.
  - rewrite IH. simpl. destruct (no_error p); simpl.
    + now rewrite <- app_assoc.
    + reflexivity.
Qed.


(** ** What one package's pipeline contacts *)

Lemma attempts_app (a b : list Event) : attempts (a ++ b) = attempts a + attempts b.
Proof. unfold attempts. now rewrite filter_app, length_app. Qed.

Lemma browser_loads_app (a b : list Event) :
  browser_loads (a ++ b) = browser_loads a + browser_loads b.
Proof. unfold browser_loads. now rewrite filter_app, length_app. Qed.

Lemma contacts_app (a b : list Event) : contacts (a ++ b) = contacts a ++ contacts b.
Proof.
  induction a as [|e a IH]; [reflexivity|]. simpl.
  destruct (contacted e); simpl; now rewrite IH.
Qed.

Lemma retry_loop_contacts (retries : nat) (delay : Z) (session : Session)
  (method url : string) (remaining attempt : nat) :
  Forall (eq url)
    (contacts (fst (retry_loop retries delay session method url remaining attempt))).
Proof.
  pose proof (retry_loop_concerns retries delay session method url remaining attempt)
    as Hc.
  induction (fst (retry_loop retries delay session method url remaining attempt))
    as [|e t IH]; [constructor|].
  apply Forall_cons_iff in Hc as [He Ht]. simpl.
  destruct e; simpl in *; try discriminate; auto.
  constructor; [|auto]. symmetry. now apply String.eqb_eq.
Qed.

Lemma fetch_budget (host : BrowserAutomation.Host) (session : Session)
  (self : Scraper) (url method : string) (use_browser : bool) :
  let run := fetch_with_retry host session self url method use_browser in
  attempts (trace run) <= REQUEST_RETRIES /\
  browser_loads (trace run) <= 1 /\
  Forall (eq url) (contacts (trace run)).
Proof.
  cbv zeta.
  destruct (retry_loop_effort_any REQUEST_RETRIES REQUEST_RETRY_DELAY session method
              url) as (Ha & Hb & _).
  pose proof (fetch_with_retry_paths REQUEST_RETRIES REQUEST_RETRY_DELAY host session
                self url method use_browser) as Hpaths.
  cbv zeta in Hpaths.
  pose proof (retry_loop_contacts REQUEST_RETRIES REQUEST_RETRY_DELAY session method
                url REQUEST_RETRIES 0) as Hc.
  unfold fetch_with_retry.
  destruct (Specified.rendered_page host self url use_browser).
  - destruct Hpaths as [_ ->]. unfold attempts, browser_loads. simpl.
    split; [unfold REQUEST_RETRIES; lia|]. split; [lia|]. repeat constructor.
  - destruct Hpaths as (_ & Ha' & _ & _ & [Ht | Ht]); rewrite Ha'; rewrite Ht.
    + split; [exact Ha|]. split; [lia|exact Hc].
    + split; [exact Ha|]. split.
      * change (S (browser_loads (fst (retry_loop REQUEST_RETRIES REQUEST_RETRY_DELAY
                    session method url REQUEST_RETRIES 0))) <= 1).
        rewrite Hb. lia.
      * simpl. now constructor.
Qed.

Lemma primary_attempted (host : BrowserAutomation.Host) (session : Session)
  (self : Scraper) (url : string) :
  1 <= attempts (trace (fetch_with_retry host session self url "get" false)).
Proof.
  destruct (fetch_without_browser host session self url "get") as (Ht & _).
  rewrite Ht.
  destruct (retry_loop_effort REQUEST_RETRIES REQUEST_RETRY_DELAY session "get" url
              eq_refl 2 0 eq_refl) as ((n & H1 & _) & _).
  unfold REQUEST_RETRIES at 2. rewrite H1. lia.
Qed.

Lemma scrape_license_budget (w : World) (self : Scraper)
  (package_name license_info : string) :
  let run := scrape_license w self package_name license_info in
  attempts (trace run) <= REQUEST_RETRIES /\
  browser_loads (trace run) <= 1 /\
  Forall (eq (license_url package_name)) (contacts (trace run)).
Proof.
  unfold scrape_license. cbv zeta.
  destruct (PyStr.truthy license_info && negb (license_info =? "UNKNOWN")%string).
  - unfold attempts, browser_loads. simpl. repeat split; try lia. constructor.
  - apply fetch_budget.
Qed.

Lemma fetch_download_stats_budget (w : World) (self : Scraper) (package_name : string) :
  let run := fetch_download_stats w self package_name in
  attempts (trace run) <= REQUEST_RETRIES /\
  browser_loads (trace run) = 0 /\
  Forall (eq (stats_url package_name)) (contacts (trace run)).
Proof.
  cbv zeta.
  destruct (fetch_budget (host w) (session w (stats_url package_name)) self
              (stats_url package_name) "get" false) as (Ha & _ & Hc).
  split; [exact Ha|]. split; [|exact Hc].
  unfold fetch_download_stats. cbn [trace].
  destruct (fetch_without_browser (host w) (session w (stats_url package_name)) self
              (stats_url package_name) "get") as (Ht & _).
  fold (stats_url package_name). rewrite Ht.
  apply (retry_loop_effort_any REQUEST_RETRIES REQUEST_RETRY_DELAY).
Qed.

Lemma fetch_readme_budget (w : World) (self : Scraper) (package_name version : string) :
  let run := fetch_readme w self package_name version in
  attempts (trace run) <= REQUEST_RETRIES /\
  browser_loads (trace run) <= 1 /\
  Forall (eq (readme_url package_name version)) (contacts (trace run)).
Proof. apply fetch_budget. Qed.

Lemma fetch_github_stats_budget (w : World) (self : Scraper) (github_url : string) :
  let run := fetch_github_stats w self github_url in
  attempts (trace run) <= REQUEST_RETRIES /\
  browser_loads (trace run) <= 1 /\
  Forall (eq github_url) (contacts (trace run)).
Proof.
  unfold fetch_github_stats. cbv zeta.
  assert (Hnone : attempts (@nil Event) <= REQUEST_RETRIES /\
                  browser_loads (@nil Event) <= 1 /\
                  Forall (eq github_url) (contacts [])).
  { unfold attempts, browser_loads. simpl. repeat split; try lia. constructor. }
  destruct (negb (PyStr.truthy github_url)); [exact Hnone|].
  destruct (github_client self); [destruct (github_api w github_url)|];
    try exact Hnone; apply fetch_budget.
Qed.

Lemma later_stages_budget (w : World) (self : Scraper) (package_name : string)
  (package : PackageInfo) :
  name package = package_name ->
  let run := later_stages w self package_name package in
  attempts (trace run) <= 4 * REQUEST_RETRIES /\
  browser_loads (trace run) <= 3 /\
  Forall (fun url => In url (later_urls (outcome run))) (contacts (trace run)).
Proof.
  intros <-. cbv zeta.
  destruct (later_stages_keep w self (name package) package) as (Hn & Hv & _).
  assert (Hg : github_url (outcome (later_stages w self (name package) package)) =
               github_url package).
  { unfold later_stages. cbv zeta.
    destruct (github_url (set_readme_content _ _)) as [url|] eqn:E;
      [destruct (PyStr.truthy url)|]; simpl in *; auto. }
  unfold later_urls. rewrite Hn, Hv, Hg.
  unfold later_stages. cbv zeta.
  set (r1 := scrape_license w self (name package) (license package)).
  set (p1 := set_license package (outcome r1)).
  set (r2 := fetch_download_stats w (after r1) (name package)).
  set (p2 := set_downloads p1 (outcome r2)).
  set (r3 := fetch_readme w (after r2) (name package) (version p2)).
  destruct (scrape_license_budget w self (name package) (license package))
    as (A1 & B1 & C1). fold r1 in A1, B1, C1.
  destruct (fetch_download_stats_budget w (after r1) (name package))
    as (A2 & B2 & C2). fold r2 in A2, B2, C2.
  destruct (fetch_readme_budget w (after r2) (name package) (version p2))
    as (A3 & B3 & C3). fold r3 in A3, B3, C3.
  change (version p2) with (version package) in C3.
  change (github_url (set_readme_content p2 (outcome r3))) with (github_url package).
  assert (Hin : forall (u : string) (l : list string), Forall (eq u) l ->
            forall urls : list string, In u urls -> Forall (fun url => In url urls) l).
  { intros u l H urls Hu. eapply Forall_impl; [|exact H]. now intros a <-. }
  set (before := SpinnerText ("Fetching license info for " ++ name package ++ "...")
                   :: trace r1 ++
                 SpinnerText ("Fetching download stats for " ++ name package ++ "...")
                   :: trace r2 ++
                 SpinnerText ("Fetching README for " ++ name package ++ "...")
                   :: trace r3).
  assert (Hbefore :
    attempts before = attempts (trace r1) + attempts (trace r2) + attempts (trace r3) /\
    browser_loads before =
      browser_loads (trace r1) + browser_loads (trace r2) + browser_loads (trace r3) /\
    contacts before = contacts (trace r1) ++ contacts (trace r2) ++ contacts (trace r3)).
  { subst before.
    change (SpinnerText ?a :: trace r1 ++ SpinnerText ?b :: trace r2 ++
            SpinnerText ?c :: trace r3)
      with ([SpinnerText a] ++ trace r1 ++ [SpinnerText b] ++ trace r2 ++
            [SpinnerText c] ++ trace r3).
    rewrite !attempts_app, !browser_loads_app, !contacts_app.
    unfold attempts at 1 3 5. unfold browser_loads at 1 3 5. simpl. repeat split; lia. }
  destruct Hbefore as (Ea & Eb & Ec).
  assert (Hurls : forall tail_urls,
    Forall (fun url => In url
      ([license_url (name package); stats_url (name package);
        readme_url (name package) (version package)] ++ tail_urls))
      (contacts (trace r1) ++ contacts (trace r2) ++ contacts (trace r3))).
  { intros tail_urls. rewrite !Forall_app. repeat split.
    - apply (Hin _ _ C1). simpl. auto.
    - apply (Hin _ _ C2). simpl. auto.
    - apply (Hin _ _ C3). simpl. auto. }
  destruct (github_url (set_readme_content p2 (outcome r3))) as [url|] eqn:Eg.
  - change (github_url (set_readme_content p2 (outcome r3))) with (github_url package)
      in Eg. rewrite Eg.
    destruct (PyStr.truthy url).
    + cbn [trace].
      destruct (fetch_github_stats_budget w (after r3) url) as (A4 & B4 & C4).
      set (r4 := fetch_github_stats w (after r3) url) in *.
      change (SpinnerText ?d :: trace r4 ++ [SpinnerOk])
        with ([SpinnerText d] ++ trace r4 ++ [SpinnerOk]).
      rewrite !attempts_app, !browser_loads_app, !contacts_app, Ea, Eb, Ec.
      change (attempts [SpinnerText ?d]) with 0.
      change (attempts [SpinnerOk]) with 0.
      change (browser_loads [SpinnerText ?d]) with 0.
      change (browser_loads [SpinnerOk]) with 0.
      change (contacts [SpinnerText ?d]) with (@nil string).
      change (contacts [SpinnerOk]) with (@nil string).
      split; [unfold REQUEST_RETRIES in *; lia|]. split; [lia|].
      rewrite app_nil_r. cbn [app].
      rewrite Forall_app. split.
      * apply (Hurls [url]).
      * apply (Hin _ _ C4). simpl. auto.
    + cbn [trace].
      rewrite !attempts_app, !browser_loads_app, !contacts_app, Ea, Eb, Ec.
      change (attempts [SpinnerOk]) with 0.
      change (browser_loads [SpinnerOk]) with 0.
      change (contacts [SpinnerOk]) with (@nil string).
      split; [unfold REQUEST_RETRIES in *; lia|]. split; [lia|].
      rewrite app_nil_r. apply (Hurls [url]).
  - change (github_url (set_readme_content p2 (outcome r3))) with (github_url package)
      in Eg. rewrite Eg. cbn [trace].
    rewrite !attempts_app, !browser_loads_app, !contacts_app, Ea, Eb, Ec.
    change (attempts [SpinnerOk]) with 0.
    change (browser_loads [SpinnerOk]) with 0.
    change (contacts [SpinnerOk]) with (@nil string).
    split; [unfold REQUEST_RETRIES in *; lia|]. split; [lia|].
    rewrite !app_nil_r. pose proof (Hurls []) as H. now rewrite app_nil_r in H.
Qed.


(** ** A record whose later stages all fail *)

Lemma later_stages_defaults (w : World) (self : Scraper) (package : PackageInfo) :
  (forall url, In url (later_urls package) ->
     forall self' use_browser,
       outcome (fetch_with_retry (host w) (session w url) self' url "get" use_browser)
       = Ok None) ->
  (forall url stats, github_api w url <> ApiStats stats) ->
  let out := outcome (later_stages w self (name package) package) in
  license out =
    (if PyStr.truthy (license package) && negb (String.eqb (license package) "UNKNOWN")
     then license package else LICENSE_NOT_SPECIFIED) /\
  downloads out = [] /\
  readme_content out = NO_README /\
  (github_stats out = [] \/ github_stats out = github_stats package).
Proof.
  intros Hfail Hapi. cbv zeta. unfold later_stages. cbv zeta.
  set (r1 := scrape_license w self (name package) (license package)).
  set (r2 := fetch_download_stats w (after r1) (name package)).
  set (r3 := fetch_readme w (after r2) (name package) _).
  assert (H1 : outcome r1 =
    if PyStr.truthy (license package) && negb (String.eqb (license package) "UNKNOWN")
    then license package else LICENSE_NOT_SPECIFIED).
  { subst r1. unfold scrape_license.
    destruct (PyStr.truthy (license package) &&
              negb (String.eqb (license package) "UNKNOWN")); [reflexivity|].
    cbn [outcome]. fold (license_url (name package)).
    rewrite (Hfail (license_url (name package))); [reflexivity|].
    unfold later_urls. simpl. auto. }
  assert (H2 : outcome r2 = []).
  { subst r2. unfold fetch_download_stats. cbn [outcome].
    fold (stats_url (name package)).
    rewrite (Hfail (stats_url (name package))); [reflexivity|].
    unfold later_urls. simpl. auto. }
  assert (H3 : outcome r3 = NO_README).
  { subst r3. unfold fetch_readme. cbn [outcome].
    change (version (set_downloads (set_license package (outcome r1)) (outcome r2)))
      with (version package).
    fold (readme_url (name package) (version package)).
    rewrite (Hfail (readme_url (name package) (version package))); [reflexivity|].
    unfold later_urls. simpl. auto. }
  change (github_url (set_readme_content
            (set_downloads (set_license package (outcome r1)) (outcome r2))
            (outcome r3))) with (github_url package).
  destruct (github_url package) as [url|] eqn:Eg; [destruct (PyStr.truthy url) eqn:Et|];
    cbn [outcome license downloads readme_content github_stats set_github_stats
         set_readme_content set_downloads set_license];
    rewrite ?H1, ?H2, ?H3; repeat split; auto.
  left. unfold fetch_github_stats. rewrite Et. cbn [negb].
  assert (Hs : outcome (scrape_github_stats w (after r3) url) = []).
  { unfold scrape_github_stats. cbn [outcome].
    rewrite (Hfail url); [reflexivity|].
    unfold later_urls. rewrite Eg. apply in_or_app. right. now left. }
  destruct (github_client (after r3)); [|exact Hs].
  destruct (github_api w url) as [|stats|] eqn:Ea; [reflexivity| |exact Hs].
  now destruct (Hapi url stats).
Qed.



(** ** The packages of a run *)

Import CommandLine.

Lemma append_empty_r (s : string) : (s ++ EmptyString)%string = s.
Proof. induction s as [|c s IH]; simpl; [reflexivity|now rewrite IH]. Qed.

Lemma append_snoc (s t : string) (c : ascii) :
  (PyStr.snoc s c ++ t)%string = (s ++ String c t)%string.
Proof. unfold PyStr.snoc. induction s as [|a s IH]; simpl; [reflexivity|now rewrite IH]. Qed.

Lemma split_on_first (sep : ascii) (s : string) :
  forall cur, exists rest,
    Packaging.split_on sep s cur = (cur ++ PyStr.before_first sep s)%string :: rest.
Proof.
  induction s as [|c s IH]; intros cur; simpl.
  - exists []. now rewrite append_empty_r.
  - destruct (Ascii.eqb c sep).
    + eexists. now rewrite append_empty_r.
    + destruct (IH (PyStr.snoc cur c)) as [rest ->]. exists rest.
      now rewrite append_snoc.
Qed.

Lemma before_first_cut (sep : ascii) (s : string) :
  s = PyStr.before_first sep s \/
  exists tail, s = (PyStr.before_first sep s ++ String sep tail)%string.
Proof.
  induction s as [|c s IH]; simpl; [now left|].
  destruct (Ascii.eqb c sep) eqn:E.
  - right. exists s. apply Ascii.eqb_eq in E. now subst.
  - destruct IH as [IH|[tail IH]].
    + left. now rewrite <- IH.
    + right. exists tail. simpl. now rewrite <- IH.
Qed.

Lemma before_first_whole (sep : ascii) (s tail : string) :
  PyStr.contains (String sep EmptyString) s = false ->
  PyStr.before_first sep s = s /\
  PyStr.before_first sep (s ++ String sep tail) = s.
Proof.
  induction s as [|c s IH]; simpl.
  - intros _. now rewrite Ascii.eqb_refl.
  - intros H. apply orb_false_iff in H as [H1 H2].
    destruct (Ascii.eqb c sep) eqn:E.
    + apply Ascii.eqb_eq in E. subst c. simpl in H1.
      destruct (Ascii.ascii_dec sep sep); [destruct s; discriminate|congruence].
    + destruct (IH H2) as [-> ->]. auto.
Qed.

Lemma prefix_cut (p s : string) :
  prefix p s = true -> exists tail, s = (p ++ tail)%string.
Proof.
  revert s. induction p as [|a p IH]; intros s; simpl.
  - exists s. reflexivity.
  - destruct s as [|b s]; simpl; [discriminate|].
    destruct (Ascii.ascii_dec a b) as [->|]; [|discriminate].
    intros H. destruct (IH s H) as [tail ->]. now exists tail.
Qed.

(** The package a link points at: [Some] name for
    [/project/<name>] and [/project/<name>/...]. *)
Lemma visit_link_project (packages : list string) (tail : string) :
  visit_link packages ("/project/" ++ tail) =
  let pkg_name := PyStr.before_first "/" tail in
  if PyStr.truthy pkg_name && negb (existsb (String.eqb pkg_name) packages)
  then packages ++ [pkg_name] else packages.
Proof.
  unfold visit_link.
  change (prefix "/project/" ("/project/" ++ tail)) with (prefix "" tail).
  replace (prefix "" tail) with true by now destruct tail.
  change (Packaging.split_on "/" ("/project/" ++ tail) "")
    with ("" :: "project" :: Packaging.split_on "/" tail "")%string.
  destruct (split_on_first "/" tail "") as [rest ->]. reflexivity.
Qed.

Lemma existsb_eqb_In (x : string) (l : list string) :
  existsb (String.eqb x) l = true <-> In x l.
Proof.
  rewrite existsb_exists. split.
  - intros (y & Hy & E). apply String.eqb_eq in E. now subst.
  - intros H. exists x. split; [exact H|apply String.eqb_refl].
Qed.

Lemma links_to_project (pkg tail : string) :
  (pkg <> EmptyString /\ PyStr.contains "/" pkg = false /\
   (tail = pkg \/ exists rest, tail = (pkg ++ String "/" rest)%string)) <->
  (PyStr.truthy (PyStr.before_first "/" tail) = true /\
   pkg = PyStr.before_first "/" tail).
Proof.
  split.
  - intros (Hne & Hs & Ht).
    assert (E : PyStr.before_first "/" tail = pkg).
    { destruct Ht as [->|[rest ->]]; now apply before_first_whole. }
    rewrite E. split; [|reflexivity]. destruct pkg; [now destruct Hne|reflexivity].
  - intros (Ht & ->). split; [|split].
    + intros E. rewrite E in Ht. discriminate.
    + apply before_first_stops.
    + destruct (before_first_cut "/" tail) as [H|[rest H]]; [now left|right].
      now exists rest.
Qed.

Lemma visit_links (hrefs : list string) :
  forall packages,
    NoDup packages ->
    let result := fold_left visit_link hrefs packages in
    NoDup result /\
    List.length result <= List.length packages + List.length hrefs /\
    forall pkg,
      In pkg result <->
      In pkg packages \/
      (pkg <> EmptyString /\ PyStr.contains "/" pkg = false /\
       exists href, In href hrefs /\
         (href = ("/project/" ++ pkg)%string \/
          exists rest, href = ("/project/" ++ pkg ++ String "/" rest)%string)).
Proof.
  induction hrefs as [|href hrefs IH]; intros packages Hnd; cbn [fold_left].
  - cbv zeta. split; [exact Hnd|]. split; [lia|].
    intros pkg. split; [now left|]. intros [H|(_ & _ & h & [] & _)]. exact H.
  - destruct (prefix "/project/" href) eqn:Ep.
    + apply prefix_cut in Ep as [tail ->]. rewrite visit_link_project. cbv zeta.
      set (n := PyStr.before_first "/" tail).
      pose proof (links_to_project) as Hl.
      destruct (PyStr.truthy n && negb (existsb (String.eqb n) packages)) eqn:Ev.
      * apply andb_true_iff in Ev as [Ht Hin].
        apply negb_true_iff in Hin.
        assert (Hnot : ~ In n packages).
        { intros H. apply existsb_eqb_In in H. congruence. }
        assert (Hnd' : NoDup (packages ++ [n])).
        { apply NoDup_app; [exact Hnd|constructor; [intros []|constructor]|].
          intros x Hx [<-|[]]. now apply Hnot. }
        destruct (IH _ Hnd') as (H1 & H2 & H3). split; [exact H1|].
        split; [rewrite length_app in H2; simpl in *; lia|].
        intros pkg. rewrite H3, in_app_iff. split.
        -- intros [[H|[<-|[]]]|(Hne & Hs & h & Hh & Hc)].
           ++ now left.
           ++ right. destruct (proj2 (Hl n tail) (conj Ht eq_refl)) as (A & B & C).
              split; [exact A|]. split; [exact B|].
              exists ("/project/" ++ tail)%string. split; [now left|].
              destruct C as [C|[rest C]]; [left|right; exists rest];
                now rewrite C at 1.
           ++ right. split; [exact Hne|]. split; [exact Hs|]. exists h.
              split; [now right|exact Hc].
        -- intros [H|(Hne & Hs & h & [<-|Hh] & Hc)].
           ++ now left; left.
           ++ left; right; left.
              assert (Ht' : tail = pkg \/ exists rest, tail = (pkg ++ String "/" rest)%string).
              { destruct Hc as [Hc|[rest Hc]]; [left|right; exists rest];
                  simpl in Hc; now injection Hc. }
              destruct (proj1 (Hl pkg tail) (conj Hne (conj Hs Ht'))) as (_ & ->).
              reflexivity.
           ++ right. split; [exact Hne|]. split; [exact Hs|]. now exists h.
      * destruct (IH _ Hnd) as (H1 & H2 & H3). split; [exact H1|].
        split; [simpl; lia|].
        intros pkg. rewrite H3. split.
        -- intros [H|(Hne & Hs & h & Hh & Hc)]; [now left|right].
           split; [exact Hne|]. split; [exact Hs|]. exists h. split; [now right|exact Hc].
        -- intros [H|(Hne & Hs & h & [<-|Hh] & Hc)]; [now left| |].
           ++ left.
              assert (Ht' : tail = pkg \/ exists rest, tail = (pkg ++ String "/" rest)%string).
              { destruct Hc as [Hc|[rest Hc]]; [left|right; exists rest];
                  simpl in Hc; now injection Hc. }
              destruct (proj1 (Hl pkg tail) (conj Hne (conj Hs Ht'))) as (Ht & ->).
              fold n in Ht. rewrite Ht in Ev. simpl in Ev.
              apply negb_false_iff in Ev. now apply existsb_eqb_In.
           ++ right. split; [exact Hne|]. split; [exact Hs|]. now exists h.
    + assert (Hv : visit_link packages href = packages).
      { unfold visit_link. now rewrite Ep. }
      rewrite Hv. destruct (IH _ Hnd) as (H1 & H2 & H3). split; [exact H1|].
      split; [simpl; lia|].
      intros pkg. rewrite H3. split.
      * intros [H|(Hne & Hs & h & Hh & Hc)]; [now left|right].
        split; [exact Hne|]. split; [exact Hs|]. exists h. split; [now right|exact Hc].
      * intros [H|(Hne & Hs & h & [<-|Hh] & Hc)]; [now left| |].
        -- destruct Hc as [Hc|[rest Hc]]; rewrite Hc in Ep; simpl in Ep;
             destruct pkg; discriminate.
        -- right. split; [exact Hne|]. split; [exact Hs|]. now exists h.
Qed.

(** X9. The packages read off a user profile page are the names [n] of
    its links [/project/n] and [/project/n/...]: non-empty, without a
    [/], each listed once, and no more of them than the page has links.
    When the page cannot be fetched or parsed the list is empty, and no
    exception escapes. *)
Theorem profile_packages_are_project_names :
  forall (page : exc (list string)),
    let packages := fetch_packages_from_user_profile page in
    NoDup packages /\
    match page with
    | Raise _ => packages = []
    | Ok hrefs =>
        List.length packages <= List.length hrefs /\
        forall pkg,
          In pkg packages <->
          pkg <> EmptyString /\ PyStr.contains "/" pkg = false /\
          exists href, In href hrefs /\
            (href = ("/project/" ++ pkg)%string \/
             exists rest, href = ("/project/" ++ pkg ++ String "/" rest)%string)
    end.
Proof.
  intros [hrefs|e]; cbv zeta; simpl.
  - destruct (visit_links hrefs [] (NoDup_nil _)) as (H1 & H2 & H3).
    split; [exact H1|]. split; [exact H2|].
    intros pkg. rewrite H3. split; [intros [[]|H]; exact H|now right].
  - split; [constructor|reflexivity].
Qed.

Lemma profile_url_has_slash (s : string) :
  PyStr.contains "pypi.org/user/" s = true -> PyStr.contains "/" s = true.
Proof.
  induction s as [|c s IH]; [discriminate|].
  intros H. cbn [PyStr.contains] in H. apply orb_true_iff in H as [H|H].
  - apply prefix_cut in H as [tail ->]. reflexivity.
  - cbn [PyStr.contains]. rewrite (IH H). apply orb_true_r.
Qed.

Lemma profile_packages_no_url (page : exc (list string)) (pkg : string) :
  In pkg (fetch_packages_from_user_profile page) -> is_profile_url pkg = false.
Proof.
  destruct page as [hrefs|e]; simpl; [|intros []].
  intros H. apply (visit_links hrefs [] (NoDup_nil _)) in H as [[]|(_ & Hs & _)].
  unfold is_profile_url. apply andb_false_iff. right.
  destruct (PyStr.contains "pypi.org/user/" pkg) eqn:E; [|reflexivity].
  apply profile_url_has_slash in E. congruence.
Qed.

Lemma expand_profiles_In (pages : string -> exc (list string)) (args : list string) :
  forall acc pkg,
    In pkg (fold_left
              (fun final_package_names pkg =>
                 if is_profile_url pkg then
                   match fetch_packages_from_user_profile (pages pkg) with
                   | [] => final_package_names
                   | user_packages => final_package_names ++ user_packages
                   end
                 else final_package_names ++ [pkg]) args acc) <->
    In pkg acc \/
    (In pkg args /\ is_profile_url pkg = false) \/
    (exists url, In url args /\ is_profile_url url = true /\
                 In pkg (fetch_packages_from_user_profile (pages url))).
Proof.
  induction args as [|a args IH]; intros acc pkg; cbn [fold_left].
  - split; [now left|]. intros [H|[[[] _]|(u & [] & _)]]. exact H.
  - rewrite IH. clear IH.
    assert (Hstep : In pkg (if is_profile_url a then
                     match fetch_packages_from_user_profile (pages a) with
                     | [] => acc
                     | user_packages => acc ++ user_packages
                     end else acc ++ [a]) <->
                   In pkg acc \/
                   (is_profile_url a = false /\ pkg = a) \/
                   (is_profile_url a = true /\
                    In pkg (fetch_packages_from_user_profile (pages a)))).
    { destruct (is_profile_url a) eqn:Ea.
      - destruct (fetch_packages_from_user_profile (pages a)) as [|u us] eqn:Eu.
        + split; [now left|]. intros [H|[[H _]|[_ []]]]; [exact H|discriminate].
        + rewrite in_app_iff. split.
          * intros [H|H]; [now left|right; right; auto].
          * intros [H|[[H _]|[_ H]]]; [now left|discriminate|now right].
      - rewrite in_app_iff. split.
        + intros [H|[<-|[]]]; [now left|right; left; auto].
        + intros [H|[[_ ->]|[H _]]]; [now left|right; now left|discriminate]. }
    rewrite Hstep. clear Hstep. split.
    + intros [[H|[[Ha ->]|[Ha H]]]|[[H Hp]|(u & Hu & Hp & H)]].
      * now left.
      * right; left. split; [now left|exact Ha].
      * right; right. exists a. split; [now left|auto].
      * right; left. split; [now right|exact Hp].
      * right; right. exists u. split; [now right|auto].
    + intros [H|[[[<-|H] Hp]|(u & [<-|Hu] & Hp & H)]].
      * now left; left.
      * left; right; left. auto.
      * right; left. auto.
      * left; right; right. auto.
      * right; right. exists u. auto.
Qed.



(** ** Searching the index *)

Lemma firstn_prefix {A : Type} (n : nat) (l : list A) :
  exists rest, l = firstn n l ++ rest.
Proof. exists (skipn n l). symmetry. apply firstn_skipn. Qed.

(** X11. A search makes at most [REQUEST_RETRIES] requests, all to the
    search URL, and never loads a page in the browser. When no attempt
    gives a response it returns the empty list; when the body of the
    response does not decode it returns the empty dictionary; otherwise it
    returns a prefix of the results of the document (the empty list when
    the document has none): the first [max_results] of them for a
    non-negative [max_results], and all but the last [-max_results] for a
    negative one. *)
Theorem search_returns_a_prefix_of_the_results :
  forall (A : Type) (host : BrowserAutomation.Host) (session : Session)
    (results_of : string -> exc (option (list A))) (self : Scraper)
    (query : string) (max_results : Z),
    let run := Search.search_packages host session results_of self query max_results in
    attempts (trace run) <= REQUEST_RETRIES /\
    browser_loads (trace run) = 0 /\
    Forall (eq (Search.search_url query)) (contacts (trace run)) /\
    match first_response session REQUEST_RETRIES 0 with
    | None => outcome run = Search.Listed []
    | Some (_, response) =>
        match results_of (text response) with
        | Raise _ => outcome run = Search.EmptyDict
        | Ok found =>
            let all := get found [] in
            exists results rest,
              outcome run = Search.Listed results /\
              all = results ++ rest /\
              Z.of_nat (List.length results) =
                (if 0 <=? max_results
                 then Z.min max_results (Z.of_nat (List.length all))
                 else Z.max 0 (Z.of_nat (List.length all) + max_results))%Z
        end
    end.
Proof.
  intros A host session results_of self query max_results run.
  destruct (fetch_without_browser host session self (Search.search_url query) "get")
    as (Ht & Ho & _).
  destruct (retry_loop_effort_any REQUEST_RETRIES REQUEST_RETRY_DELAY session "get"
              (Search.search_url query)) as (Ha & Hb & _).
  pose proof (retry_loop_contacts REQUEST_RETRIES REQUEST_RETRY_DELAY session "get"
                (Search.search_url query) REQUEST_RETRIES 0) as Hc.
  destruct (retry_loop_first_response REQUEST_RETRIES REQUEST_RETRY_DELAY session "get"
              (Search.search_url query) eq_refl REQUEST_RETRIES 0 (Nat.add_0_r _))
    as (Hf & _).
  rewrite <- Ho in Hf. rewrite <- Ht in Ha, Hb, Hc.
  assert (Htrace : trace run =
    trace (fetch_with_retry host session self (Search.search_url query) "get" false)).
  { subst run. unfold Search.search_packages. cbv zeta.
    destruct (outcome (fetch_with_retry _ _ _ _ _ _)) as [[response|]|e];
      try reflexivity.
    destruct (results_of (text response)); reflexivity. }
  rewrite Htrace. split; [exact Ha|]. split; [exact Hb|]. split; [exact Hc|].
  subst run. unfold Search.search_packages. cbv zeta. rewrite Hf.
  destruct (first_response session REQUEST_RETRIES 0) as [[k response]|];
    cbn [option_map snd outcome]; [|reflexivity].
  destruct (results_of (text response)) as [found|e]; cbn [outcome]; [|reflexivity].
  cbv zeta. set (all := get found []).
  exists (Search.slice_to all max_results).
  unfold Search.slice_to.
  destruct (0 <=? max_results)%Z eqn:E.
  - destruct (firstn_prefix (Z.to_nat max_results) all) as [rest Hr].
    exists rest. split; [reflexivity|]. split; [exact Hr|].
    rewrite length_firstn. apply Z.leb_le in E. lia.
  - destruct (firstn_prefix (Z.to_nat (Z.of_nat (List.length all) + max_results)) all)
      as [rest Hr].
    exists rest. split; [reflexivity|]. split; [exact Hr|].
    rewrite length_firstn. apply Z.leb_gt in E. lia.
Qed.

(** ** The analysis of the sources *)

Import SourceCode SourceObserved.

Lemma Dir_induction (P : Dir -> Prop) :
  (forall files dirs, Forall (fun entry => P (snd entry)) dirs -> P (mkDir files dirs)) ->
  forall d, P d.
Proof.
  intros H. fix IH 1. intros [files dirs]. apply H.
  induction dirs as [|[dir_name sub] rest IHr]; constructor; [apply IH|exact IHr].
Qed.

Lemma fold_left_flat_map {A B C : Type} (f : A -> C -> A) (g : B -> list C)
  (l : list B) :
  forall a, fold_left f (flat_map g l) a = fold_left (fun a x => fold_left f (g x) a) l a.
Proof.
  induction l as [|x l IH]; intros a; simpl; [reflexivity|].
  now rewrite fold_left_app, IH.
Qed.

Lemma comment_is_not_blank (line : string) :
  is_comment line = true -> is_blank line = false.
Proof.
  unfold is_comment, is_blank. destruct (PyStr.strip line); [discriminate|reflexivity].
Qed.

Lemma lines_are_classified (ls : list string) :
  Z.of_nat (List.length ls) =
  (count is_code ls + count is_comment ls + count is_blank ls)%Z.
Proof.
  unfold count. induction ls as [|line ls IH]; [reflexivity|].
  cbn [filter List.length]. unfold is_code at 1.
  destruct (is_comment line) eqn:Ec.
  - rewrite (comment_is_not_blank _ Ec).
    destruct (PyStr.truthy (PyStr.strip line)); cbn [andb negb List.length]; lia.
  - unfold is_blank at 1.
    destruct (PyStr.truthy (PyStr.strip line)); cbn [andb negb List.length]; lia.
Qed.

Lemma blank_by_subtraction (ls : list string) :
  (Z.of_nat (List.length ls) - count is_code ls - count is_comment ls)%Z =
  count is_blank ls.
Proof. rewrite (lines_are_classified ls). lia. Qed.

Lemma count_app (test : string -> bool) (l m : list string) :
  count test (l ++ m) = (count test l + count test m)%Z.
Proof. unfold count. rewrite filter_app, length_app. lia. Qed.

Lemma sum_count_type (ext : string) (types : dict Z) :
  sum (map snd (count_type ext types)) = (sum (map snd types) + 1)%Z.
Proof.
  induction types as [|[k n] rest IH]; simpl; [reflexivity|].
  destruct (String.eqb k ext); simpl; [lia|]. rewrite IH. lia.
Qed.

Lemma sum_app (l m : list Z) : sum (l ++ m) = (sum l + sum m)%Z.
Proof. unfold sum. induction l as [|x l IH]; simpl; [reflexivity|]. rewrite IH. lia. Qed.

Lemma analyse_file_counts (rel_path : string) (a : Analysis) (f : File) :
  let a' := analyse_file rel_path a f in
  let counted := filter (fun f => negb (skipped_file (file_name f))) [f] in
  let ls := flat_map read_lines counted in
  total_lines a' = (total_lines a + Z.of_nat (List.length ls))%Z /\
  code_lines a' = (code_lines a + count is_code ls)%Z /\
  comment_lines a' = (comment_lines a + count is_comment ls)%Z /\
  blank_lines a' = (blank_lines a + count is_blank ls)%Z /\
  sum (map snd (file_types a')) =
    (sum (map snd (file_types a)) + Z.of_nat (List.length counted))%Z /\
  List.length (files_analysed a') =
    List.length (files_analysed a) + List.length (filter readable counted) /\
  sum (map file_total_lines (files_analysed a')) =
    (sum (map file_total_lines (files_analysed a)) + Z.of_nat (List.length ls))%Z.
Proof.
  cbv zeta. unfold analyse_file. cbn [filter].
  destruct (skipped_file (file_name f)); cbn [negb flat_map filter List.length app].
  - unfold count. simpl. repeat split; lia.
  - unfold readable, read_lines.
    destruct (lines f) as [ls|e];
      cbn [total_lines code_lines comment_lines blank_lines file_types files_analysed
           List.length app filter];
      rewrite ?app_nil_r, ?sum_count_type.
    + rewrite blank_by_subtraction, length_app, map_app, sum_app. simpl.
      repeat split; lia.
    + unfold count. simpl. repeat split; lia.
Qed.

Lemma analyse_files_counts (rel_path : string) (files : list File) :
  forall a,
    let a' := fold_left (analyse_file rel_path) files a in
    let counted := filter (fun f => negb (skipped_file (file_name f))) files in
    let ls := flat_map read_lines counted in
    total_lines a' = (total_lines a + Z.of_nat (List.length ls))%Z /\
    code_lines a' = (code_lines a + count is_code ls)%Z /\
    comment_lines a' = (comment_lines a + count is_comment ls)%Z /\
    blank_lines a' = (blank_lines a + count is_blank ls)%Z /\
    sum (map snd (file_types a')) =
      (sum (map snd (file_types a)) + Z.of_nat (List.length counted))%Z /\
    List.length (files_analysed a') =
      List.length (files_analysed a) + List.length (filter readable counted) /\
    sum (map file_total_lines (files_analysed a')) =
      (sum (map file_total_lines (files_analysed a)) + Z.of_nat (List.length ls))%Z.
Proof.
  induction files as [|f files IH]; intros a.
  - cbv zeta. unfold count. simpl. repeat split; lia.
  - cbv zeta. cbn [fold_left].
    destruct (IH (analyse_file rel_path a f)) as (H1 & H2 & H3 & H4 & H5 & H6 & H7).
    destruct (analyse_file_counts rel_path a f) as (G1 & G2 & G3 & G4 & G5 & G6 & G7).
    rewrite H1, H2, H3, H4, H5, H6, H7, G1, G2, G3, G4, G5, G6, G7. clear.
    change (f :: files) with ([f] ++ files).
    rewrite filter_app, flat_map_app, !count_app, !length_app, filter_app, length_app.
    repeat split; lia.
Qed.

Lemma analyse_visited_counts (visited : list (string * list File)) :
  forall a,
    let a' := fold_left (fun analysis '(rel_path, files) =>
                           fold_left (analyse_file rel_path) files analysis)
                        visited a in
    let counted := filter (fun f => negb (skipped_file (file_name f)))
                          (flat_map snd visited) in
    let ls := flat_map read_lines counted in
    total_lines a' = (total_lines a + Z.of_nat (List.length ls))%Z /\
    code_lines a' = (code_lines a + count is_code ls)%Z /\
    comment_lines a' = (comment_lines a + count is_comment ls)%Z /\
    blank_lines a' = (blank_lines a + count is_blank ls)%Z /\
    sum (map snd (file_types a')) =
      (sum (map snd (file_types a)) + Z.of_nat (List.length counted))%Z /\
    List.length (files_analysed a') =
      List.length (files_analysed a) + List.length (filter readable counted) /\
    sum (map file_total_lines (files_analysed a')) =
      (sum (map file_total_lines (files_analysed a)) + Z.of_nat (List.length ls))%Z.
Proof.
  induction visited as [|[rel_path files] visited IH]; intros a.
  - cbv zeta. unfold count. simpl. repeat split; lia.
  - cbv zeta. cbn [fold_left flat_map snd].
    destruct (IH (fold_left (analyse_file rel_path) files a))
      as (H1 & H2 & H3 & H4 & H5 & H6 & H7).
    destruct (analyse_files_counts rel_path files a)
      as (G1 & G2 & G3 & G4 & G5 & G6 & G7).
    rewrite H1, H2, H3, H4, H5, H6, H7, G1, G2, G3, G4, G5, G6, G7. clear.
    rewrite filter_app, flat_map_app, !count_app, !length_app, filter_app, length_app.
    repeat split; lia.
Qed.

(** X12. The analysis counts every line of the files it reads exactly
    once, as code, comment or blank: the totals are the numbers of lines,
    of code lines, of comment lines and of white-space lines of the
    readable files that the walk reaches and does not skip, so that total
    = code + comment + blank and no count is negative; they are also the
    sums of the per-file entries. [file_count] is the number of those
    files that could be read, and the counts by extension add up to the
    number of those files, readable or not. *)
Theorem analysis_counts_add_up :
  forall (root_name : string) (d : Dir),
    let a := measure root_name (Some d) in
    let ls := counted_lines d in
    total_lines a = Z.of_nat (List.length ls) /\
    code_lines a = count is_code ls /\
    comment_lines a = count is_comment ls /\
    blank_lines a = count is_blank ls /\
    total_lines a = (code_lines a + comment_lines a + blank_lines a)%Z /\
    (0 <= code_lines a /\ 0 <= comment_lines a /\ 0 <= blank_lines a)%Z /\
    file_count a = Z.of_nat (List.length (filter readable (counted_files d))) /\
    file_count a = Z.of_nat (List.length (files_analysed a)) /\
    sum (map snd (file_types a)) = Z.of_nat (List.length (counted_files d)) /\
    (file_count a <= sum (map snd (file_types a)))%Z /\
    total_lines a = sum (map file_total_lines (files_analysed a)).
Proof.
  intros root_name d. cbv zeta. unfold measure.
  cbn [total_lines code_lines comment_lines blank_lines file_count file_types
       files_analysed].
  destruct (analyse_visited_counts (walk kept_dir EmptyString d) empty_analysis)
    as (H1 & H2 & H3 & H4 & H5 & H6 & H7).
  fold (counted_files d) in *. fold (counted_lines d) in *.
  rewrite H1, H2, H3, H4, H5, H6, H7. cbn [empty_analysis total_lines code_lines
    comment_lines blank_lines file_types files_analysed List.length map sum fold_right].
  pose proof (lines_are_classified (counted_lines d)) as Hc.
  pose proof (filter_length_le readable (counted_files d)) as Hle.
  unfold count in *. repeat split; lia.
Qed.

Lemma analyse_hollow_files (rel_path : string) (files : list File) :
  forall a,
    fold_left (analyse_file rel_path)
      (map (fun f => if skipped_file (file_name f)
                     then {| file_name := file_name f; lines := Ok [] |} else f)
           files) a =
    fold_left (analyse_file rel_path) files a.
Proof.
  induction files as [|f files IH]; intros a; cbn [map fold_left]; [reflexivity|].
  rewrite IH. f_equal.
  destruct (skipped_file (file_name f)) eqn:E; [|reflexivity].
  unfold analyse_file. cbn [file_name]. now rewrite E.
Qed.

Lemma analyse_hollow_walk (d : Dir) :
  forall rel_path a,
    fold_left (fun analysis '(rel_path, files) =>
                 fold_left (analyse_file rel_path) files analysis)
              (walk kept_dir rel_path (hollow d)) a =
    fold_left (fun analysis '(rel_path, files) =>
                 fold_left (analyse_file rel_path) files analysis)
              (walk kept_dir rel_path d) a.
Proof.
  induction d as [files dirs IH] using Dir_induction. intros rel_path a.
  cbn [hollow walk fold_left]. rewrite analyse_hollow_files.
  generalize (fold_left (analyse_file rel_path) files a). clear a.
  induction dirs as [|[dir_name sub] rest IHr]; intros a; [reflexivity|].
  apply Forall_cons_iff in IH as [Hsub Hrest].
  cbn [map flat_map]. rewrite !fold_left_app.
  destruct (kept_dir dir_name) eqn:E; cbn [fst snd]; rewrite E.
  - cbn [snd] in Hsub. rewrite Hsub. apply IHr, Hrest.
  - apply IHr, Hrest.
Qed.

(** X13. Nothing inside a skipped directory ([__pycache__], [tests],
    [test], [docs] and the names starting with a dot), at any depth, and
    no line of a skipped file ([setup.py], [setup.cfg], [pyproject.toml],
    [README.md], [LICENSE] and the names starting with a dot) has any
    influence on the analysis: emptying them all leaves every field of
    the result as it was. *)
Theorem skipped_content_is_never_measured :
  forall (root_name : string) (d : Dir),
    measure root_name (Some (hollow d)) = measure root_name (Some d).
Proof.
  intros root_name d. unfold measure.
  rewrite (analyse_hollow_walk d EmptyString empty_analysis).
  f_equal. destruct d as [files dirs]. cbn [hollow _generate_package_structure].
  rewrite !map_map.
  replace (map (fun f : File => file_name (if skipped_file (file_name f)
             then {| file_name := file_name f; lines := Ok [] |} else f)) files)
    with (map file_name files).
  - replace (map (fun entry : string * Dir =>
               fst (let (dir_name, sub) := entry in
                    if kept_dir dir_name then (dir_name, hollow sub)
                    else (dir_name, mkDir [] []))) dirs)
      with (map fst dirs); [reflexivity|].
    apply map_ext. intros [dir_name sub]. now destruct (kept_dir dir_name).
  - apply map_ext. intros f. now destruct (skipped_file (file_name f)).
Qed.

(** ** The download of the sources *)

Lemma plain_get (host : BrowserAutomation.Host) (session : Session) (self : Scraper)
  (url : string) :
  let run := fetch_with_retry host session self url "get" false in
  attempts (trace run) <= REQUEST_RETRIES /\
  browser_loads (trace run) = 0 /\
  Forall (eq url) (contacts (trace run)) /\
  outcome run = Ok (option_map snd (first_response session REQUEST_RETRIES 0)) /\
  after run = self.
Proof.
  cbv zeta.
  destruct (fetch_without_browser host session self url "get") as (Ht & Ho & Hs).
  destruct (retry_loop_effort_any REQUEST_RETRIES REQUEST_RETRY_DELAY session "get" url)
    as (Ha & Hb & _).
  pose proof (retry_loop_contacts REQUEST_RETRIES REQUEST_RETRY_DELAY session "get"
                url REQUEST_RETRIES 0) as Hc.
  destruct (retry_loop_first_response REQUEST_RETRIES REQUEST_RETRY_DELAY session "get"
              url eq_refl REQUEST_RETRIES 0 (Nat.add_0_r _)) as (Hf & _).
  rewrite Ht, Ho, Hs. auto.
Qed.

Lemma first_sdist_find (urls : list UrlData) :
  first_sdist urls =
  match find is_sdist urls with
  | Some entry => url entry
  | None => None
  end.
Proof.
  induction urls as [|entry rest IH]; [reflexivity|].
  cbn [first_sdist find]. unfold is_sdist at 1.
  destruct (packagetype entry) as [kind|]; [|exact IH].
  destruct (String.eqb kind "sdist"); [reflexivity|exact IH].
Qed.

(** X14. A download asks for the release document and then, at most,
    for one archive: the URL of the first entry of type [sdist] in the
    document. It gives up, having contacted nothing but the release
    document, when the document cannot be fetched or decoded, when it has
    no [sdist] entry, and when its first [sdist] entry has no URL, even if
    a later one has. It makes at most [2 * REQUEST_RETRIES] requests, never
    loads a page in the browser, and returns a directory only if the
    archive was fetched. *)
Theorem download_takes_the_first_sdist :
  forall (site : Site) (self : Scraper) (temp_dir package_name version : string),
    let run := download_package_source site self temp_dir package_name version in
    let document := release_url package_name version in
    let only_document :=
      outcome run = None /\ Forall (eq document) (contacts (trace run)) in
    attempts (trace run) <= 2 * REQUEST_RETRIES /\
    browser_loads (trace run) = 0 /\
    match first_response (session site document) REQUEST_RETRIES 0 with
    | None => only_document
    | Some (_, response) =>
        match release_urls site (text response) with
        | Raise _ => only_document
        | Ok urls =>
            match find is_sdist (get urls []) with
            | None => only_document
            | Some entry =>
                match url entry with
                | None => only_document
                | Some source_url =>
                    Forall (fun contacted => contacted = document \/ contacted = source_url)
                           (contacts (trace run)) /\
                    match outcome run with
                    | None => True
                    | Some _ =>
                        source_url <> EmptyString /\
                        first_response (session site source_url) REQUEST_RETRIES 0 <> None
                    end
                end
            end
        end
    end.
Proof.
  intros site self temp_dir package_name version run document only_document.
  subst only_document run. unfold download_package_source. cbv zeta.
  fold document.
  destruct (plain_get (host site) (session site document) self document)
    as (Ha & Hb & Hc & Ho & Hs).
  rewrite Ho, Hs.
  destruct (first_response (session site document) REQUEST_RETRIES 0)
    as [[k response]|]; cbn [option_map snd];
    [|cbn [trace outcome]; repeat split; [lia|exact Hb|exact Hc]].
  destruct (release_urls site (text response)) as [urls|e];
    [|cbn [trace outcome]; repeat split; [lia|exact Hb|exact Hc]].
  rewrite first_sdist_find.
  destruct (find is_sdist (get urls [])) as [entry|];
    [|cbn [trace outcome]; repeat split; [lia|exact Hb|exact Hc]].
  destruct (url entry) as [source_url|];
    [|cbn [trace outcome]; repeat split; [lia|exact Hb|exact Hc]].
  assert (Hdoc : Forall (fun contacted => contacted = document \/ contacted = source_url)
                   (contacts (trace (fetch_with_retry (host site) (session site document)
                                       self document "get" false)))).
  { eapply Forall_impl; [|exact Hc]. intros u <-. now left. }
  destruct (PyStr.truthy source_url) eqn:Et; cbn [negb];
    [|cbn [trace outcome]; repeat split; [lia|exact Hb|exact Hdoc]].
  destruct (makedirs site _);
    [|cbn [trace outcome]; repeat split; [lia|exact Hb|exact Hdoc]].
  destruct (plain_get (host site) (session site source_url) self source_url)
    as (Ha2 & Hb2 & Hc2 & Ho2 & Hs2).
  rewrite Ho2.
  assert (Hboth : Forall (fun contacted => contacted = document \/ contacted = source_url)
    (contacts (trace (fetch_with_retry (host site) (session site document)
                        self document "get" false) ++
               trace (fetch_with_retry (host site) (session site source_url)
                        self source_url "get" false)))).
  { rewrite contacts_app. apply Forall_app. split; [exact Hdoc|].
    eapply Forall_impl; [|exact Hc2]. intros u <-. now right. }
  assert (Hnum : attempts (trace (fetch_with_retry (host site) (session site document)
                        self document "get" false) ++
               trace (fetch_with_retry (host site) (session site source_url)
                        self source_url "get" false)) <= 2 * REQUEST_RETRIES).
  { rewrite attempts_app. lia. }
  assert (Hbr : browser_loads (trace (fetch_with_retry (host site) (session site document)
                        self document "get" false) ++
               trace (fetch_with_retry (host site) (session site source_url)
                        self source_url "get" false)) = 0).
  { rewrite browser_loads_app. lia. }
  destruct (first_response (session site source_url) REQUEST_RETRIES 0)
    as [[k2 archive]|]; cbn [option_map snd];
    [|cbn [trace outcome]; repeat split; assumption].
  destruct (bind _ _) as [source_dir|e]; cbn [trace outcome];
    repeat split; try assumption; try discriminate.
  intros ->. discriminate.
Qed.

Lemma split_once_cut (sep : ascii) (s a b : string) :
  PyStr.split_once sep s = Some (a, b) ->
  s = (a ++ String sep b)%string /\ PyStr.contains (String sep EmptyString) a = false.
Proof.
  revert a. induction s as [|c s IH]; intros a; simpl; [discriminate|].
  destruct (Ascii.eqb c sep) eqn:E.
  - intros H. injection H as <- <-. apply Ascii.eqb_eq in E. now subst.
  - destruct (PyStr.split_once sep s) as [[a' b']|]; [|discriminate].
    intros H. injection H as <- <-. destruct (IH a' eq_refl) as [-> Hc].
    split; [reflexivity|]. simpl. rewrite Hc, orb_false_r.
    destruct (Ascii.ascii_dec sep c) as [->|]; [|reflexivity].
    rewrite Ascii.eqb_refl in E. discriminate.
Qed.

Lemma split_once_found (sep : ascii) (s : string) :
  PyStr.contains (String sep EmptyString) s = true ->
  exists a b, PyStr.split_once sep s = Some (a, b).
Proof.
  induction s as [|c s IH]; [discriminate|]. intros H. simpl.
  destruct (Ascii.eqb c sep) eqn:E; [eauto|].
  simpl in H. destruct (Ascii.ascii_dec sep c) as [->|].
  - rewrite Ascii.eqb_refl in E. discriminate.
  - destruct (IH H) as (a & b & ->). eauto.
Qed.

Lemma prefix_app (p s : string) : prefix p (p ++ s) = true.
Proof.
  induction p as [|c p IH]; simpl; [now destruct s|].
  destruct (Ascii.ascii_dec c c); [exact IH|congruence].
Qed.

Lemma common_prefix_top (names : list string) :
  common_prefix names <> EmptyString ->
  let top := common_prefix names in
  PyStr.contains "/" top = false /\
  (exists rest, In (top ++ String "/" rest)%string names) /\
  forall member, In member names -> PyStr.contains "/" member = true ->
                 prefix (top ++ "/") member = true.
Proof.
  unfold common_prefix.
  destruct (nodup string_dec (flat_map top_directory names)) as [|top [|x l]] eqn:E;
    try (intros H; now destruct H).
  intros _. cbv zeta.
  assert (Hin : forall t, In t (flat_map top_directory names) <-> t = top).
  { intros t. rewrite <- (nodup_In string_dec), E. simpl. intuition. }
  assert (Htop : forall member a b, In member names ->
            PyStr.split_once "/" member = Some (a, b) -> a = top).
  { intros member a b Hm Hs. apply Hin. apply in_flat_map. exists member.
    split; [exact Hm|]. unfold top_directory. rewrite Hs. now left. }
  pose proof (proj2 (Hin top) eq_refl) as Hex.
  apply in_flat_map in Hex as (m & Hm & Ht).
  unfold top_directory in Ht.
  destruct (PyStr.split_once "/" m) as [[a b]|] eqn:Es; [|destruct Ht].
  destruct Ht as [->|[]]. destruct (split_once_cut _ _ _ _ Es) as [-> Hc].
  split; [exact Hc|]. split; [now exists b|].
  intros member Hmem Hslash.
  destruct (split_once_found _ _ Hslash) as (a' & b' & Es').
  pose proof (Htop _ _ _ Hmem Es') as ->.
  destruct (split_once_cut _ _ _ _ Es') as [-> _].
  change (top ++ String "/" b')%string with (top ++ ("/" ++ b'))%string.
  clear. induction top as [|c top IH]; simpl; [now destruct b'|].
  destruct (Ascii.ascii_dec c c); [exact IH|congruence].
Qed.

Lemma not_endswith_slash (a : string) : endswith "/" (a ++ "source") = false.
Proof.
  induction a as [|c a IH]; [reflexivity|].
  change (String c a ++ "source")%string with (String c (a ++ "source")).
  cbn [endswith]. rewrite IH, orb_false_r.
  destruct a; simpl; destruct (Ascii.eqb c "/"); reflexivity.
Qed.

Lemma append_associative (a b c : string) :
  ((a ++ b) ++ c)%string = (a ++ (b ++ c))%string.
Proof. induction a as [|x a IH]; simpl; [reflexivity|now rewrite IH]. Qed.

Lemma join_source (package_dir : string) :
  exists stem, path_join package_dir "source" = (stem ++ "source")%string.
Proof.
  unfold path_join. change (prefix "/" "source") with false. cbv iota.
  destruct (negb (PyStr.truthy package_dir) || endswith "/" package_dir).
  - now exists package_dir.
  - exists (package_dir ++ "/")%string. now rewrite append_associative.
Qed.

Lemma join_below (extract_dir top : string) :
  (exists stem, extract_dir = (stem ++ "source")%string) ->
  PyStr.contains "/" top = false ->
  path_join extract_dir top = (extract_dir ++ "/" ++ top)%string.
Proof.
  intros [stem ->] Hc. unfold path_join.
  assert (Hp : prefix "/" top = false).
  { destruct top as [|c top]; [reflexivity|]. simpl in *.
    apply orb_false_iff in Hc as [Hc _]. exact Hc. }
  rewrite Hp, not_endswith_slash, orb_false_r.
  now destruct stem.
Qed.

(** X15. The directory a download returns is the directory the archive
    was unpacked to, [<temp_dir>/<name>-<version>/source], or the one
    directory [top] directly below it under which every member of the
    archive that has a directory lies; members without a directory do not
    count, and an archive with members in two top directories, or with
    none in any, gives the unpacking directory itself. *)
Theorem download_returns_the_common_top_directory :
  forall (site : Site) (self : Scraper) (temp_dir package_name version : string),
    let run := download_package_source site self temp_dir package_name version in
    let extract_dir := extract_dir_of temp_dir package_name version in
    match outcome run with
    | None => True
    | Some source_dir =>
        source_dir = extract_dir \/
        exists top archive names,
          members site archive = Ok names /\
          top <> EmptyString /\
          PyStr.contains "/" top = false /\
          source_dir = (extract_dir ++ "/" ++ top)%string /\
          (exists rest, In (top ++ String "/" rest)%string names) /\
          forall member, In member names -> PyStr.contains "/" member = true ->
                         prefix (top ++ "/") member = true
    end.
Proof.
  intros site self temp_dir package_name version. cbv zeta.
  unfold download_package_source, extract_dir_of. cbv zeta.
  set (package_dir := path_join temp_dir (package_name ++ "-" ++ version)).
  set (extract_dir := path_join package_dir "source").
  destruct (outcome (fetch_with_retry _ _ _ _ _ _)) as [[response|]|e];
    try exact I.
  destruct (release_urls site (text response)) as [urls|e]; [|exact I].
  destruct (first_sdist (get urls [])) as [source_url|]; [|exact I].
  destruct (negb (PyStr.truthy source_url)); [exact I|].
  destruct (makedirs site package_dir); [|exact I].
  destruct (outcome (fetch_with_retry _ _ _ source_url _ _)) as [[archive|]|e];
    try exact I.
  set (download_path := path_join package_dir (basename source_url)).
  destruct (write site download_path); cbn [bind]; [|exact I].
  destruct (makedirs site extract_dir); cbn [bind]; [|exact I].
  unfold unpack.
  destruct (endswith ".tar.gz" download_path || endswith ".tgz" download_path
            || endswith ".zip" download_path); cbn [outcome]; [|now left].
  destruct (members site download_path) as [names|e] eqn:Em; cbn [bind outcome];
    [|exact I].
  destruct (PyStr.truthy (common_prefix names)) eqn:Et; [|now left].
  assert (Hne : common_prefix names <> EmptyString).
  { intros E. rewrite E in Et. discriminate. }
  destruct (common_prefix_top names Hne) as (Hc & Hex & Hall).
  right. exists (common_prefix names), download_path, names.
  split; [exact Em|]. split; [exact Hne|]. split; [exact Hc|].
  split; [|split; [exact Hex|exact Hall]].
  apply join_below; [|exact Hc]. apply join_source.
Qed.

Lemma download_unpacked (site : Site) (self : Scraper)
  (temp_dir package_name version source_dir : string) :
  outcome (download_package_source site self temp_dir package_name version)
  = Some source_dir ->
  exists download_path,
    unpack site download_path (extract_dir_of temp_dir package_name version)
    = Ok source_dir.
Proof.
  unfold download_package_source, extract_dir_of. cbv zeta.
  set (package_dir := path_join temp_dir (package_name ++ "-" ++ version)).
  destruct (outcome (fetch_with_retry _ _ _ _ _ _)) as [[response|]|e];
    try discriminate.
  destruct (release_urls site (text response)) as [urls|e]; [|discriminate].
  destruct (first_sdist (get urls [])) as [source_url|]; [|discriminate].
  destruct (negb (PyStr.truthy source_url)); [discriminate|].
  destruct (makedirs site package_dir); [|discriminate].
  destruct (outcome (fetch_with_retry _ _ _ source_url _ _)) as [[archive|]|e];
    try discriminate.
  destruct (write site _); cbn [bind]; [|discriminate].
  destruct (makedirs site _); cbn [bind]; [|discriminate].
  destruct (unpack site _ _) as [dir|e] eqn:Eu; [|discriminate].
  cbn [outcome]. intros H. injection H as <-. eauto.
Qed.

Lemma unpacked_somewhere (site : Site) (download_path stem source_dir : string) :
  unpack site download_path (stem ++ "source") = Ok source_dir ->
  PyStr.truthy source_dir = true.
Proof.
  assert (Ht : PyStr.truthy (stem ++ "source") = true) by now destruct stem.
  unfold unpack.
  destruct (endswith ".tar.gz" download_path || endswith ".tgz" download_path
            || endswith ".zip" download_path);
    [|intros H; injection H as <-; exact Ht].
  destruct (members site download_path) as [names|e]; cbn [bind]; [|discriminate].
  destruct (PyStr.truthy (common_prefix names)) eqn:Et;
    intros H; injection H as <-; [|exact Ht].
  unfold path_join. destruct (prefix "/" (common_prefix names)); [exact Et|].
  destruct (negb (PyStr.truthy (stem ++ "source")) || endswith "/" (stem ++ "source"));
    now destruct stem.
Qed.

(** X16. The analysis of a release contacts what its download contacts
    and nothing more. It reports a failure, always with the message
    "Failed to download package source", exactly when the download
    returns no directory; otherwise it measures the tree found at the
    directory the download returned, and in the analysis it returns the
    lines add up and no more files are counted than the extensions
    account for, whether or not anything is found there. *)
Theorem analysis_fails_only_with_the_download :
  forall (site : Site) (tree_at : string -> option Dir) (self : Scraper)
    (temp_dir package_name version : string),
    let run := analyze_package_source site tree_at self temp_dir package_name version in
    let download := download_package_source site self temp_dir package_name version in
    trace run = trace download /\
    match outcome run with
    | Failed error =>
        error = "Failed to download package source" /\ outcome download = None
    | Measured analysis =>
        exists source_dir,
          outcome download = Some source_dir /\
          analysis = measure (basename source_dir) (tree_at source_dir) /\
          total_lines analysis =
            (code_lines analysis + comment_lines analysis + blank_lines analysis)%Z /\
          (0 <= file_count analysis <= sum (map snd (file_types analysis)))%Z
    end.
Proof.
  intros site tree_at self temp_dir package_name version. cbv zeta.
  unfold analyze_package_source.
  destruct (outcome (download_package_source site self temp_dir package_name version))
    as [source_dir|] eqn:Ed; [|split; [reflexivity|split; reflexivity]].
  destruct (download_unpacked _ _ _ _ _ _ Ed) as [download_path Hu].
  unfold extract_dir_of in Hu.
  destruct (join_source (path_join temp_dir (package_name ++ "-" ++ version)))
    as [stem Hs].
  rewrite Hs in Hu. rewrite (unpacked_somewhere _ _ _ _ Hu). cbn [trace outcome].
  split; [reflexivity|]. exists source_dir. split; [reflexivity|].
  split; [reflexivity|].
  destruct (tree_at source_dir) as [d|].
  - unfold measure.
    cbn [total_lines code_lines comment_lines blank_lines file_count file_types
         files_analysed].
    destruct (analyse_visited_counts (walk kept_dir EmptyString d) empty_analysis)
      as (H1 & H2 & H3 & H4 & H5 & H6 & _).
    rewrite H1, H2, H3, H4, H5, H6. cbn [empty_analysis total_lines code_lines
      comment_lines blank_lines file_types files_analysed List.length map sum
      fold_right].
    pose proof (lines_are_classified (flat_map read_lines
      (filter (fun f => negb (skipped_file (file_name f)))
         (flat_map snd (walk kept_dir EmptyString d))))) as Hc.
    pose proof (filter_length_le readable
      (filter (fun f => negb (skipped_file (file_name f)))
         (flat_map snd (walk kept_dir EmptyString d)))) as Hle.
    unfold count in *. split; lia.
  - unfold measure. cbn. lia.
Qed.

(** The release of [SourceExamples]: the archive of the [sdist] entry is
    downloaded, its one top directory is the root of the sources, and of
    the tree only [pkg/__init__.py] is read; [pkg/data.JSON], which cannot
    be read, is counted by extension only. *)
Example source_analysis_of_a_release :
  let run := analyze_package_source SourceExamples.site
               (fun _ => Some SourceExamples.tree) Examples.scraper
               "/tmp/llama" "pkg" "1.0" in
  contacts (trace run) =
    ["https://pypi.org/pypi/pkg/1.0/json"; "https://files.example/pkg-1.0.tar.gz"] /\
  outcome (download_package_source SourceExamples.site Examples.scraper
             "/tmp/llama" "pkg" "1.0") = Some "/tmp/llama/pkg-1.0/source/pkg-1.0" /\
  exists analysis,
    outcome run = Measured analysis /\
    file_types analysis = [(".py", 1%Z); (".json", 1%Z)] /\
    map path (files_analysed analysis) = ["pkg/__init__.py"] /\
    (file_count analysis, total_lines analysis, code_lines analysis,
     comment_lines analysis, blank_lines analysis) = (1, 3, 1, 1, 1)%Z.
Proof.
  cbv zeta. split; [reflexivity|]. split; [reflexivity|].
  eexists. split; [reflexivity|]. repeat split.
Qed.
